(** * AlgoFresco: trace store, canonical graph builder and visualizers

    A shallow embedding of the Python package [algofresco] (list, stack,
    queue, dictionary, graph and tree visualizers over a step-indexed trace
    of snapshots) and the properties its specification states about it.

    Python values are an inductive universe [pyval]; exceptions are an
    error monad [result]; the mutable [networkx.DiGraph] that the tree
    builder fills in is threaded explicitly; the module-global random
    state that [networkx.spring_layout] draws from is threaded as a state;
    figure coordinates, floats in Python, are the arithmetic expressions
    of the source read in exact rationals: a coordinate is stated in the
    expression the source computes it by, and what is stated between
    different expressions (an inequality, two corners that differ, a
    product with 0) holds of the rounded values as well. *)

From stdpp Require Import base option list strings gmap pretty.
From Stdlib Require Import Ascii ZArith QArith Qminmax.

Set Warnings "-register-all".
Open Scope Z_scope.
Open Scope nat_scope.

(** ** Exceptions *)

Inductive PyErr :=
| AttributeError
| TypeError
| KeyError
| IndexError
| UnboundLocalError
| RecursionError
| InvalidStep.

Inductive result (A : Type) :=
| Ok (a : A)
| Raise (e : PyErr).
Arguments Ok {A} a.
Arguments Raise {A} e.

#[global] Instance result_ret : MRet result := @Ok.
#[global] Instance result_bind : MBind result := λ A B f r,
  match r with
  | Ok a => f a
  | Raise e => Raise e
  end.

Definition from_opt {A} (e : PyErr) (o : option A) : result A :=
  match o with
  | Some a => Ok a
  | None => Raise e
  end.

(** [for x in l: body] over an explicit state. *)
Fixpoint for_each {A S} (body : A → S → result S) (l : list A) (s : S) : result S :=
  match l with
  | [] => Ok s
  | x :: l' => s' ← body x s; for_each body l' s'
  end.

(** ** Python values *)

(** [PObj name attrs] is an instance of a user class: [attrs] are the
    attributes [hasattr]/[getattr] see, [name] is the text [str] gives for
    it (by default [<module.Class object at 0x...>]).  Instances define
    neither [__bool__] nor [__len__] nor [__iter__]. *)
Inductive pyval :=
| PNone
| PBool (b : bool)
| PInt (z : Z)
| PStr (s : string)
| PList (items : list pyval)
| PDict (entries : list (pyval * pyval))
| PObj (name : string) (attrs : list (string * pyval)).

Definition is_None (v : pyval) : bool :=
  match v with PNone => true | _ => false end.

(** Truth value testing, [if v:] *)
Definition truthy (v : pyval) : bool :=
  match v with
  | PNone => false
  | PBool b => b
  | PInt z => negb (z =? 0)%Z
  | PStr s => negb (String.eqb s "")
  | PList items => negb (bool_decide (items = []))
  | PDict entries => negb (bool_decide (entries = []))
  | PObj _ _ => true
  end.

(** [hash(v)] raises [TypeError] for a list and for a dict; instances
    hash by identity. *)
Definition hashable (v : pyval) : bool :=
  match v with
  | PList _ | PDict _ => false
  | _ => true
  end.

Fixpoint assoc {A} (k : string) (l : list (string * A)) : option A :=
  match l with
  | [] => None
  | (k', a) :: l' => if String.eqb k' k then Some a else assoc k l'
  end.

(** The attributes the builder asks for ([left], [right], [children],
    [val], [value], [get]) exist on no built-in value, only on instances. *)
Definition py_getattr (v : pyval) (name : string) : option pyval :=
  match v with
  | PObj _ attrs => assoc name attrs
  | _ => None
  end.

Definition hasattr (v : pyval) (name : string) : bool :=
  bool_decide (is_Some (py_getattr v name)).

(** [getattr(v, name, default)] *)
Definition getattr (v : pyval) (name : string) (dflt : pyval) : pyval :=
  default dflt (py_getattr v name).

(** [v.name] *)
Definition attr (v : pyval) (name : string) : result pyval :=
  from_opt AttributeError (py_getattr v name).

Definition isinstance_dict (v : pyval) : bool :=
  match v with PDict _ => true | _ => false end.

(** Lookup of a string key in a dict's entries. *)
Fixpoint entry (k : string) (d : list (pyval * pyval)) : option pyval :=
  match d with
  | [] => None
  | (PStr k', a) :: d' => if String.eqb k' k then Some a else entry k d'
  | _ :: d' => entry k d'
  end.

(** ['k' in v] for a dict [v] *)
Definition dict_contains (v : pyval) (k : string) : bool :=
  match v with
  | PDict d => bool_decide (is_Some (entry k d))
  | _ => false
  end.

(** [v.get(k, default)]: only a dict has the method; an instance whose
    [get] attribute is plain data is not callable. *)
Definition dict_get (v : pyval) (k : string) (dflt : pyval) : result pyval :=
  match v with
  | PDict d => Ok (default dflt (entry k d))
  | PObj _ attrs => if bool_decide (is_Some (assoc "get" attrs))
                    then Raise TypeError else Raise AttributeError
  | _ => Raise AttributeError
  end.

Fixpoint chars (s : string) : list pyval :=
  match s with
  | EmptyString => []
  | String c s' => PStr (String c EmptyString) :: chars s'
  end.

(** [for child in v]: the sequence a value iterates as. *)
Definition py_iter (v : pyval) : result (list pyval) :=
  match v with
  | PList items => Ok items
  | PDict entries => Ok entries.*1
  | PStr s => Ok (chars s)
  | _ => Raise TypeError
  end.

(** [repr] of a text: in single quotes, unless the text has a single
    quote and no double quote; the quote used, the backslash, tab, newline,
    carriage return and the other control characters are escaped.  Texts
    are byte strings here: bytes beyond ASCII stand for printable
    characters in UTF-8 and are copied. *)
Definition double_quote : ascii := ascii_of_nat 34.
Definition backslash : ascii := ascii_of_nat 92.

Fixpoint has_char (c : ascii) (s : string) : bool :=
  match s with
  | EmptyString => false
  | String c' s' => Ascii.eqb c' c || has_char c s'
  end.

Definition hex_digit (n : nat) : ascii :=
  default "0"%char (String.list_ascii_of_string "0123456789abcdef" !! n).

Definition escape_char (quote c : ascii) : string :=
  let n := nat_of_ascii c in
  if Ascii.eqb c quote || Ascii.eqb c backslash then String backslash (String c EmptyString)
  else if n =? 9 then "\t"
  else if n =? 10 then "\n"
  else if n =? 13 then "\r"
  else if (n <? 32) || (n =? 127) then
    "\x" +:+ String (hex_digit (n / 16)) (String (hex_digit (n mod 16)) EmptyString)
  else String c EmptyString.

Fixpoint escape (quote : ascii) (s : string) : string :=
  match s with
  | EmptyString => EmptyString
  | String c s' => escape_char quote c +:+ escape quote s'
  end.

Definition repr_text (s : string) : string :=
  let quote :=
    if has_char "'"%char s && negb (has_char double_quote s)
    then double_quote else "'"%char in
  String quote (escape quote s) +:+ String quote EmptyString.

(** [repr] and [str] of the values above. *)
Fixpoint py_repr (v : pyval) : string :=
  match v with
  | PNone => "None"
  | PBool true => "True"
  | PBool false => "False"
  | PInt z => pretty z
  | PStr s => repr_text s
  | PList items => "[" +:+ String.concat ", " (map py_repr items) +:+ "]"
  | PDict entries =>
      "{" +:+ String.concat ", "
                (map (λ kv, py_repr kv.1 +:+ ": " +:+ py_repr kv.2) entries) +:+ "}"
  | PObj name _ => name
  end.

Definition py_str (v : pyval) : string :=
  match v with
  | PStr s => s
  | _ => py_repr v
  end.

(** ** The part of [networkx.DiGraph] the tree builder uses *)

(** [nodes] is the node dictionary in insertion order, each node with its
    [label] attribute when it has one; [edges] are the directed edges in
    the order they were added. *)
Record DiGraph := {
  nodes : list (nat * option string);
  edges : list (nat * nat)
}.

Definition empty_graph : DiGraph := {| nodes := []; edges := [] |}.

Definition has_node (G : DiGraph) (n : nat) : bool :=
  bool_decide (n ∈ (nodes G).*1).

Fixpoint set_label (n : nat) (label : string) (l : list (nat * option string))
  : list (nat * option string) :=
  match l with
  | [] => []
  | (m, a) :: l' => if Nat.eqb m n then (m, Some label) :: l'
                    else (m, a) :: set_label n label l'
  end.

(** [G.add_node(n, label=label)] *)
Definition add_node (G : DiGraph) (n : nat) (label : string) : DiGraph :=
  if has_node G n
  then {| nodes := set_label n label (nodes G); edges := edges G |}
  else {| nodes := nodes G ++ [(n, Some label)]; edges := edges G |}.

Definition touch (G : DiGraph) (n : nat) : DiGraph :=
  if has_node G n then G
  else {| nodes := nodes G ++ [(n, None)]; edges := edges G |}.

(** [G.add_edge(u, v)]: both end points become nodes when they are not. *)
Definition add_edge (G : DiGraph) (u v : nat) : DiGraph :=
  let G := touch (touch G u) v in
  {| nodes := nodes G;
     edges := if bool_decide ((u, v) ∈ edges G) then edges G
              else edges G ++ [(u, v)] |}.

(** ** tree.py: the canonical graph builder *)

Module TreeBuilder.
Section Builder.
(** Python's built-in [str]. *)
Variable str : pyval → string.

(** The three local [add_nodes] closures, one per tree shape.  [depth] is
    the number of nested [add_nodes] calls the interpreter still allows.
    The calls [add_nodes] makes into [networkx] need frames of their own
    below the deepest one, which are not counted here: the interpreter
    raises the recursion error wherever these definitions do, and a few
    levels earlier. *)
Fixpoint add_nodes_binary (depth : nat) (node : pyval) (node_id : nat)
    (G : DiGraph) : result DiGraph :=
  match depth with
  | 0 => Raise RecursionError
  | S depth' =>
      if is_None node then Ok G else
      let label := str (getattr node "val" (getattr node "value" node)) in
      let G := add_node G node_id label in
      left ← attr node "left";
      G ← (if truthy left then
             let left_id := length (nodes G) in
             add_nodes_binary depth' left left_id (add_edge G node_id left_id)
           else Ok G);
      right ← attr node "right";
      if truthy right then
        let right_id := length (nodes G) in
        add_nodes_binary depth' right right_id (add_edge G node_id right_id)
      else Ok G
  end.

Fixpoint add_nodes_children (depth : nat) (node : pyval) (node_id : nat)
    (G : DiGraph) : result DiGraph :=
  match depth with
  | 0 => Raise RecursionError
  | S depth' =>
      if is_None node then Ok G else
      let label := str (getattr node "val" (getattr node "value" node)) in
      let G := add_node G node_id label in
      children ← attr node "children";
      if truthy children then
        items ← py_iter children;
        for_each (λ child G,
          if truthy child then
            let child_id := length (nodes G) in
            add_nodes_children depth' child child_id (add_edge G node_id child_id)
          else Ok G) items G
      else Ok G
  end.

Fixpoint add_nodes_dict (depth : nat) (node : pyval) (node_id : nat)
    (G : DiGraph) : result DiGraph :=
  match depth with
  | 0 => Raise RecursionError
  | S depth' =>
      if is_None node then Ok G else
      value ← dict_get node "value" (PStr "");
      let G := add_node G node_id (str value) in
      children ← dict_get node "children" (PList []);
      items ← py_iter children;
      for_each (λ child G,
        if truthy child then
          let child_id := length (nodes G) in
          add_nodes_dict depth' child child_id (add_edge G node_id child_id)
        else Ok G) items G
  end.

Definition _tree_to_networkx (limit : nat) (tree_node : pyval) : result DiGraph :=
  let G := empty_graph in
  if hasattr tree_node "left" && hasattr tree_node "right" then
    add_nodes_binary limit tree_node 0 G
  else if hasattr tree_node "children" then
    add_nodes_children limit tree_node 0 G
  else if isinstance_dict tree_node && dict_contains tree_node "value" then
    add_nodes_dict limit tree_node 0 G
  else Ok G.

End Builder.
End TreeBuilder.

(** ** tracer.py: the trace store as the visualizers read it *)

Abbreviation Metadata := (gmap string pyval).

(** Modelled from the spec: [tracer.py] is not among the sources.  The
    store owns the ordered sequence of snapshots and the parallel sequence
    of metadata (spec, Data Model); the visualizers read both fields. *)
Record DataStructureTracer (S : Type) := {
  snapshots : list S;
  metadata : list Metadata
}.
Arguments snapshots {S} _.
Arguments metadata {S} _.

(** Modelled from the spec: [get_snapshot(step)] of the absent [tracer.py]
    (spec 4.1).  [step = -1] means the latest; an empty store gives the
    no-data pair (null state, empty metadata); any other step outside
    [0, count) fails with the invalid-step condition. *)
Definition get_snapshot {S} (tracer : DataStructureTracer S) (step : Z)
  : result (option S * Metadata) :=
  match snapshots tracer with
  | [] => Ok (None, ∅)
  | _ :: _ =>
      let count := Z.of_nat (length (snapshots tracer)) in
      let i := if (step =? -1)%Z then (count - 1)%Z else step in
      if bool_decide (0 ≤ i < count)%Z then
        data ← from_opt InvalidStep (snapshots tracer !! Z.to_nat i);
        md ← from_opt InvalidStep (metadata tracer !! Z.to_nat i);
        Ok (Some data, md)
      else Raise InvalidStep
  end.

(** ** Frames: what a visualizer puts on the figure *)

Definition kwargs := list (string * string).

Inductive Artist (D : Type) :=
| Rectangle (xy : Q * Q) (width height : Q) (kw : kwargs)
| Text (x y : Q) (s : string) (kw : kwargs)
| Drawing (d : D).
Arguments Rectangle {D} xy width height kw.
Arguments Text {D} x y s kw.
Arguments Drawing {D} d.

(** [f_code] is the metadata handed to [_display_code] when it is called;
    that helper and [_create_figure_with_code] belong to the absent
    [ds.py] and are taken to return normally.  Figure sizes are not part
    of a frame. *)
Record Frame (D : Type) := {
  f_artists : list (Artist D);
  f_title : option string;
  f_xlim : option (Q * Q);
  f_ylim : option (Q * Q);
  f_axis_off : bool;
  f_code : option Metadata
}.
Arguments f_artists {D} _.
Arguments f_title {D} _.
Arguments f_xlim {D} _.
Arguments f_ylim {D} _.
Arguments f_axis_off {D} _.
Arguments f_code {D} _.

(** A call either prints a message and returns nothing, or goes on to
    show its frame (to return its animation). *)
Inductive Outcome (F : Type) :=
| Printed (msg : string)
| Shown (frame : F).
Arguments Printed {F} msg.
Arguments Shown {F} frame.

(** What [FuncAnimation(fig, update, frames=..., interval=..., repeat=...)]
    is built from. *)
Record FuncAnimation (U : Type) := {
  func : U;
  frames : nat;
  interval : Z;
  repeat : bool
}.
Arguments func {U} _.
Arguments frames {U} _.
Arguments interval {U} _.
Arguments repeat {U} _.

Inductive Colors :=
| OneColor (c : string)
| ColorList (cs : list string).

(** [if l:] for an optional list argument ([None] by default) *)
Definition given {A} (l : option (list A)) : bool :=
  match l with
  | Some (_ :: _) => true
  | _ => false
  end.

Definition title_given (title : option string) : bool :=
  match title with
  | Some s => negb (String.eqb s "")
  | None => false
  end.

Definition of_nat (n : nat) : Q := inject_Z (Z.of_nat n).

Section Titles.
Variable str : pyval → string.

(** [metadata.get('description')] tested for truth *)
Definition has_description (md : Metadata) : bool :=
  truthy (default PNone (md !! "description")).

(** [f"Step {metadata['step']}: {metadata['description']}"] *)
Definition step_description (md : Metadata) : result string :=
  step ← from_opt KeyError (md !! "step");
  description ← from_opt KeyError (md !! "description");
  Ok ("Step " +:+ str step +:+ ": " +:+ str description).

(** [f"Step {metadata['step']}"] *)
Definition step_only (md : Metadata) : result string :=
  step ← from_opt KeyError (md !! "step");
  Ok ("Step " +:+ str step).

(** The [# Set title] block of every [display_snapshot] *)
Definition display_title (title : option string) (md : Metadata) : result string :=
  if title_given title then Ok (default "" title)
  else if has_description md then step_description md
  else step_only md.

(** The [# Set title based on metadata] block of the [update] closures
    of list, queue, dictionary, graph and tree *)
Definition update_title (md : Metadata) : result string :=
  if has_description md then step_description md
  else step_only md.

(** The title as the specification words it, for a caller title that is
    given when it is a non-empty string and a description that is there
    when it is a true value: the caller's title; else step and
    description; else the bare step. *)
Inductive stated_title (title : option string) (md : Metadata) : string → Prop :=
| title_explicit t :
    title = Some t → t ≠ "" → stated_title title md t
| title_described step d :
    title_given title = false →
    md !! "step" = Some step → md !! "description" = Some d → truthy d = true →
    stated_title title md ("Step " +:+ str step +:+ ": " +:+ str d)
| title_bare step :
    title_given title = false →
    md !! "step" = Some step → has_description md = false →
    stated_title title md ("Step " +:+ str step).

(** A frame that only says that there is no graph or tree to draw. *)
Definition placeholder {D} (frame : Frame D) : Prop :=
  ∃ msg, msg ∈ ["Empty Graph"; "Empty Tree"; "Unsupported Graph Type"]
         ∧ f_artists frame
           = [ Text (1#2) (1#2) msg [("ha", "center"); ("va", "center")] ].

(** Such a frame has no title; every other frame has one, by the
    precedence. *)
Definition titled {D} (title : option string) (md : Metadata) (frame : Frame D) : Prop :=
  (placeholder frame ∧ f_title frame = None)
  ∨ (¬ placeholder frame ∧ ∃ t, f_title frame = Some t ∧ stated_title title md t).

End Titles.

Definition no_drawing := Empty_set.

(** ** list.py *)

Module ListVisualizer.
Section Visualizer.
(** Python's built-in [str] and [==]. *)
Variable str : pyval → string.
Variable py_eq : pyval → pyval → bool.

Definition contains (l : option (list pyval)) (x : pyval) : bool :=
  existsb (py_eq x) (default [] l).

(** One turn of [for i, val in enumerate(data)] in [display_snapshot] *)
Definition cell (cell_width : Q) (highlight_indices : option (list Z))
    (highlight_values : option (list pyval)) (show_indices : bool)
    (i : nat) (val : pyval) : list (Artist no_drawing) :=
  let cell_color := "#f0f0f0" in
  let text_color := "black" in
  let cell_color :=
    if given highlight_indices && bool_decide (Z.of_nat i ∈ default [] highlight_indices)
    then "#ffcf75" else cell_color in
  let cell_color :=
    if given highlight_values && contains highlight_values val
    then "#8dc7f3" else cell_color in
  [ Rectangle (of_nat i * cell_width, 0)%Q cell_width (1#2)
      [("facecolor", cell_color); ("edgecolor", "black")];
    Text ((of_nat i + (1#2)) * cell_width)%Q (1#4) (str val)
      [("ha", "center"); ("va", "center"); ("color", text_color)] ]
  ++ (if show_indices then
        [ Text ((of_nat i + (1#2)) * cell_width)%Q (-(1#10)) (str (PInt (Z.of_nat i)))
            [("ha", "center"); ("va", "center"); ("color", "darkblue");
             ("fontsize", "8")] ]
      else []).

(** One turn of [for start, end in highlight_range] *)
Definition range_box (list_len : nat) (cell_width : Q) (r : Z * Z)
  : list (Artist no_drawing) :=
  let '(start, end_) := r in
  if bool_decide (0 ≤ start < Z.of_nat list_len)%Z
     && bool_decide (0 ≤ end_ < Z.of_nat list_len)%Z
  then [ Rectangle (inject_Z start * cell_width, 0)%Q
           (inject_Z (end_ - start + 1) * cell_width)%Q (1#2)
           [("fill", "False"); ("edgecolor", "red"); ("linewidth", "2")] ]
  else [].

Definition display_snapshot (tracer : DataStructureTracer (list pyval))
    (step : Z) (highlight_indices : option (list Z))
    (highlight_values : option (list pyval))
    (highlight_range : option (list (Z * Z)))
    (title : option string) (show_indices : bool)
  : result (Outcome (Frame no_drawing)) :=
  '(data, metadata) ← get_snapshot tracer step;
  match data with
  | None => Ok (Printed "No data available")
  | Some data =>
      let list_len := length data in
      let cell_width := (1 / of_nat (max list_len 1))%Q in
      let cells :=
        concat (imap (cell cell_width highlight_indices highlight_values show_indices)
                  data) in
      let boxes :=
        if given highlight_range
        then concat (map (range_box list_len cell_width) (default [] highlight_range))
        else [] in
      t ← display_title str title metadata;
      Ok (Shown {| f_artists := cells ++ boxes;
                   f_title := Some t;
                   f_xlim := Some (0, 1)%Q;
                   f_ylim := Some (-(2#10), 7#10)%Q;
                   f_axis_off := true;
                   f_code := None |})
  end.

(** One turn of [for i, val in enumerate(data)] in [update] *)
Definition plain_cell (cell_width : Q) (show_indices : bool) (i : nat) (val : pyval)
  : list (Artist no_drawing) :=
  [ Rectangle (of_nat i * cell_width, 0)%Q cell_width (1#2)
      [("facecolor", "#f0f0f0"); ("edgecolor", "black")];
    Text ((of_nat i + (1#2)) * cell_width)%Q (1#4) (str val)
      [("ha", "center"); ("va", "center")] ]
  ++ (if show_indices then
        [ Text ((of_nat i + (1#2)) * cell_width)%Q (-(1#10)) (str (PInt (Z.of_nat i)))
            [("ha", "center"); ("va", "center"); ("color", "darkblue");
             ("fontsize", "8")] ]
      else []).

Definition create_animation (tracer : DataStructureTracer (list pyval))
    (interval : Z) (repeat : bool) (show_indices : bool)
  : Outcome (FuncAnimation (nat → result (Frame no_drawing))) :=
  match snapshots tracer with
  | [] => Printed "No snapshots available"
  | _ :: _ =>
      let update (frame : nat) : result (Frame no_drawing) :=
        data ← from_opt IndexError (snapshots tracer !! frame);
        metadata ← from_opt IndexError (metadata tracer !! frame);
        let list_len := length data in
        let cell_width := (1 / of_nat (max list_len 1))%Q in
        let cells := concat (imap (plain_cell cell_width show_indices) data) in
        t ← update_title str metadata;
        Ok {| f_artists := cells;
              f_title := Some t;
              f_xlim := Some (0, 1)%Q;
              f_ylim := Some (-(2#10), 7#10)%Q;
              f_axis_off := true;
              f_code := None |} in
      Shown {| func := update;
               frames := length (snapshots tracer);
               interval := interval;
               repeat := repeat |}
  end.

(** [show_step], the function [interact] calls at every position of the
    slider: the frame it displays and the line it prints, if any. *)
Definition show_step (tracer : DataStructureTracer (list pyval)) (step : nat)
  : result (Outcome (Frame no_drawing) * option string) :=
  shown ← display_snapshot tracer (Z.of_nat step) None None None None true;
  metadata ← from_opt IndexError (metadata tracer !! step);
  if has_description metadata then
    description ← from_opt KeyError (metadata !! "description");
    Ok (shown, Some ("Step " +:+ str (PInt (Z.of_nat step)) +:+ ": "
                     +:+ str description))
  else Ok (shown, None).

(** [interactive_player]: the slider
    [IntSlider(min=0, max=max_step, step=1, value=0)], as its least,
    greatest and first position, with the function it drives. *)
Definition interactive_player (tracer : DataStructureTracer (list pyval))
  : Outcome (nat * nat * nat
             * (nat → result (Outcome (Frame no_drawing) * option string))) :=
  match snapshots tracer with
  | [] => Printed "No snapshots available"
  | _ :: _ =>
      let max_step := length (snapshots tracer) - 1 in
      Shown (0, max_step, 0, show_step tracer)
  end.

End Visualizer.
End ListVisualizer.

(** ** stack.py *)

Module StackVisualizer.
Section Visualizer.
Variable str : pyval → string.

(** One turn of [for i in range(N)] (the same in both methods) *)
Definition element (element_height : Q) (i : nat) (x : pyval)
  : list (Artist no_drawing) :=
  let y := (of_nat i * element_height)%Q in
  [ Rectangle (1#10, y) (8#10) element_height
      [("facecolor", "lightblue"); ("edgecolor", "black")];
    Text (1#2) (y + element_height / 2)%Q (str x)
      [("ha", "center"); ("va", "center")] ].

Definition top_mark (N : nat) (element_height : Q) : list (Artist no_drawing) :=
  let top_y := (of_nat (N - 1) * element_height)%Q in
  [ Rectangle (1#10, top_y) (8#10) element_height
      [("facecolor", "yellow"); ("edgecolor", "black"); ("alpha", "0.5")];
    Text (5#100) (top_y + element_height / 2)%Q "Top"
      [("ha", "right"); ("va", "center")] ].

(** [element_height] is a local variable bound in the [else] branch only:
    it is [None] while unbound. *)
Definition display_snapshot (tracer : DataStructureTracer (list pyval))
    (step : Z) (highlight_top : bool) (title : option string)
  : result (Outcome (Frame no_drawing)) :=
  '(data, metadata) ← get_snapshot tracer step;
  match data with
  | None => Ok (Printed "No data available")
  | Some data =>
      let stack := data in
      let N := length stack in
      let '(drawn, element_height) :=
        if N =? 0 then
          ([ Text (1#2) (1#2) "Empty Stack" [("ha", "center"); ("va", "center")] ],
           None)
        else
          let element_height := ((8#10) / of_nat N)%Q in
          (concat (imap (element element_height) stack)
           ++ (if highlight_top && (0 <? N) then top_mark N element_height else []),
           Some element_height) in
      let xlim := (0, 1)%Q in
      element_height ← from_opt UnboundLocalError element_height;
      let ylim := (0, Qmax 1 (of_nat N * element_height))%Q in
      t ← display_title str title metadata;
      Ok (Shown {| f_artists := drawn;
                   f_title := Some t;
                   f_xlim := Some xlim;
                   f_ylim := Some ylim;
                   f_axis_off := true;
                   f_code := None |})
  end.

Definition create_animation (tracer : DataStructureTracer (list pyval))
    (interval : Z) (repeat : bool)
  : Outcome (FuncAnimation (nat → result (Frame no_drawing))) :=
  match snapshots tracer with
  | [] => Printed "No snapshots available"
  | _ :: _ =>
      let update (frame : nat) : result (Frame no_drawing) :=
        stack ← from_opt IndexError (snapshots tracer !! frame);
        metadata ← from_opt IndexError (metadata tracer !! frame);
        let N := length stack in
        let element_height := if 0 <? N then ((8#10) / of_nat N)%Q else 0%Q in
        let drawn :=
          concat (imap (element element_height) stack)
          ++ (if 0 <? N then top_mark N element_height else []) in
        step ← from_opt KeyError (metadata !! "step");
        let t := "Step " +:+ str step +:+ ": "
                 +:+ str (default (PStr "") (metadata !! "description")) in
        Ok {| f_artists := drawn;
              f_title := Some t;
              f_xlim := Some (0, 1)%Q;
              f_ylim := Some (0, Qmax 1 (of_nat N * element_height))%Q;
              f_axis_off := true;
              f_code := None |} in
      Shown {| func := update;
               frames := length (snapshots tracer);
               interval := interval;
               repeat := repeat |}
  end.

End Visualizer.
End StackVisualizer.

(** ** que.py *)

Module QueueVisualizer.
Section Visualizer.
Variable str : pyval → string.

Definition element (element_width : Q) (i : nat) (x : pyval)
  : list (Artist no_drawing) :=
  let x0 := (of_nat i * element_width)%Q in
  [ Rectangle (x0, 1#10) element_width (8#10)
      [("facecolor", "lightgreen"); ("edgecolor", "black")];
    Text (x0 + element_width / 2)%Q (1#2) (str x)
      [("ha", "center"); ("va", "center")] ].

Definition front_rear (N : nat) (element_width : Q) : list (Artist no_drawing) :=
  [ Rectangle (0, 1#10)%Q element_width (8#10)
      [("facecolor", "yellow"); ("edgecolor", "black"); ("alpha", "0.5")];
    Text (element_width / 2)%Q (5#100) "Front" [("ha", "center"); ("va", "top")];
    Rectangle (of_nat (N - 1) * element_width, 1#10)%Q element_width (8#10)
      [("facecolor", "yellow"); ("edgecolor", "black"); ("alpha", "0.5")];
    Text (of_nat (N - 1) * element_width + element_width / 2)%Q (5#100) "Rear"
      [("ha", "center"); ("va", "top")] ].

(** [element_width] is bound in the [else] branch only. *)
Definition display_snapshot (tracer : DataStructureTracer (list pyval))
    (step : Z) (highlight_front_rear : bool) (show_code : bool)
    (title : option string)
  : result (Outcome (Frame no_drawing)) :=
  '(data, metadata) ← get_snapshot tracer step;
  match data with
  | None => Ok (Printed "No data available")
  | Some data =>
      let queue := data in
      let N := length queue in
      let '(drawn, element_width) :=
        if N =? 0 then
          ([ Text (1#2) (1#2) "Empty Queue" [("ha", "center"); ("va", "center")] ],
           None)
        else
          let element_width := ((8#10) / of_nat (max 1 N))%Q in
          (concat (imap (element element_width) queue)
           ++ (if highlight_front_rear && (0 <? N)
               then front_rear N element_width else []),
           Some element_width) in
      element_width ← from_opt UnboundLocalError element_width;
      let xlim := (0, Qmax 1 (of_nat N * element_width))%Q in
      let ylim := (0, 1)%Q in
      t ← display_title str title metadata;
      Ok (Shown {| f_artists := drawn;
                   f_title := Some t;
                   f_xlim := Some xlim;
                   f_ylim := Some ylim;
                   f_axis_off := true;
                   f_code := if show_code then Some metadata else None |})
  end.

Definition create_animation (tracer : DataStructureTracer (list pyval))
    (interval : Z) (repeat : bool) (show_code : bool)
  : Outcome (FuncAnimation (nat → result (Frame no_drawing))) :=
  match snapshots tracer with
  | [] => Printed "No snapshots available"
  | _ :: _ =>
      let update (frame : nat) : result (Frame no_drawing) :=
        queue ← from_opt IndexError (snapshots tracer !! frame);
        metadata ← from_opt IndexError (metadata tracer !! frame);
        let N := length queue in
        let '(drawn, element_width) :=
          if N =? 0 then
            ([ Text (1#2) (1#2) "Empty Queue" [("ha", "center"); ("va", "center")] ],
             None)
          else
            let element_width := ((8#10) / of_nat (max 1 N))%Q in
            (concat (imap (element element_width) queue)
             ++ front_rear N element_width,
             Some element_width) in
        element_width ← from_opt UnboundLocalError element_width;
        let xlim := (0, Qmax 1 (of_nat N * element_width))%Q in
        t ← update_title str metadata;
        Ok {| f_artists := drawn;
              f_title := Some t;
              f_xlim := Some xlim;
              f_ylim := Some (0, 1)%Q;
              f_axis_off := true;
              f_code := if show_code then Some metadata else None |} in
      Shown {| func := update;
               frames := length (snapshots tracer);
               interval := interval;
               repeat := repeat |}
  end.

End Visualizer.
End QueueVisualizer.

(** ** dict.py *)

(** [int(np.ceil(np.sqrt(n)))] *)
Definition ceil_sqrt (n : nat) : nat :=
  let r := Nat.sqrt n in
  if r * r =? n then r else S r.

Module DictionaryVisualizer.
Section Visualizer.
Variable str : pyval → string.
Variable py_eq : pyval → pyval → bool.

Definition contains (l : option (list pyval)) (x : pyval) : bool :=
  existsb (py_eq x) (default [] l).

(** One turn of [for i, (key, value) in enumerate(items)].  Without
    highlight arguments both rectangles get the default colour, which is
    what [update] draws. *)
Definition item (grid_size : nat) (highlight_keys highlight_values : option (list pyval))
    (i : nat) (kv : pyval * pyval) : list (Artist no_drawing) :=
  let '(key, value) := kv in
  let grid_width := (1 / of_nat grid_size)%Q in
  let grid_height := (1 / of_nat grid_size)%Q in
  let row := i / grid_size in
  let col := i mod grid_size in
  let x := (of_nat col * grid_width)%Q in
  let y := (1 - (of_nat row + 1) * grid_height)%Q in
  let key_color :=
    if given highlight_keys && contains highlight_keys key
    then "#ffcf75" else "#f0f0f0" in
  let value_color :=
    if given highlight_values && contains highlight_values value
    then "#8dc7f3" else "#f0f0f0" in
  [ Rectangle (x, y + grid_height / 2)%Q grid_width (grid_height / 2)%Q
      [("facecolor", key_color); ("edgecolor", "black")];
    Rectangle (x, y) grid_width (grid_height / 2)%Q
      [("facecolor", value_color); ("edgecolor", "black")];
    Text (x + grid_width / 2)%Q (y + 3 * grid_height / 4)%Q (str key)
      [("ha", "center"); ("va", "center"); ("fontsize", "9")];
    Text (x + grid_width / 2)%Q (y + grid_height / 4)%Q (str value)
      [("ha", "center"); ("va", "center"); ("fontsize", "9")] ].

Definition grid (highlight_keys highlight_values : option (list pyval))
    (items : list (pyval * pyval)) : list (Artist no_drawing) :=
  let n_items := length items in
  if n_items =? 0 then
    [ Text (1#2) (1#2) "Empty Dictionary" [("ha", "center"); ("va", "center")] ]
  else
    let grid_size := ceil_sqrt n_items in
    concat (imap (item grid_size highlight_keys highlight_values) items).

Definition display_snapshot (tracer : DataStructureTracer (list (pyval * pyval)))
    (step : Z) (highlight_keys highlight_values : option (list pyval))
    (title : option string)
  : result (Outcome (Frame no_drawing)) :=
  '(data, metadata) ← get_snapshot tracer step;
  match data with
  | None => Ok (Printed "No data available")
  | Some data =>
      let items := data in
      let drawn := grid highlight_keys highlight_values items in
      t ← display_title str title metadata;
      Ok (Shown {| f_artists := drawn;
                   f_title := Some t;
                   f_xlim := Some (0, 1)%Q;
                   f_ylim := Some (0, 1)%Q;
                   f_axis_off := true;
                   f_code := None |})
  end.

Definition create_animation (tracer : DataStructureTracer (list (pyval * pyval)))
    (interval : Z) (repeat : bool)
  : Outcome (FuncAnimation (nat → result (Frame no_drawing))) :=
  match snapshots tracer with
  | [] => Printed "No snapshots available"
  | _ :: _ =>
      let update (frame : nat) : result (Frame no_drawing) :=
        data ← from_opt IndexError (snapshots tracer !! frame);
        metadata ← from_opt IndexError (metadata tracer !! frame);
        let items := data in
        let drawn := grid None None items in
        t ← update_title str metadata;
        Ok {| f_artists := drawn;
              f_title := Some t;
              f_xlim := Some (0, 1)%Q;
              f_ylim := Some (0, 1)%Q;
              f_axis_off := true;
              f_code := None |} in
      Shown {| func := update;
               frames := length (snapshots tracer);
               interval := interval;
               repeat := repeat |}
  end.

End Visualizer.
End DictionaryVisualizer.

(** ** Graph drawings *)

(** The arguments of one [nx.draw] call, with the labels of the
    [nx.draw_networkx_labels] call that follows it in tree.py. *)
Record NxDraw (Gr Pos : Type) := {
  d_graph : Gr;
  d_pos : Pos;
  d_node_color : Colors;
  d_edge_color : Colors;
  d_kw : kwargs;
  d_labels : option (list (nat * string))
}.
Arguments d_graph {Gr Pos} _.
Arguments d_pos {Gr Pos} _.
Arguments d_node_color {Gr Pos} _.
Arguments d_edge_color {Gr Pos} _.
Arguments d_kw {Gr Pos} _.
Arguments d_labels {Gr Pos} _.

(** What iterating [G.edges] yields for an edge: the pair [(u, v)] in a
    [Graph] or a [DiGraph], the triple [(u, v, key)] in a [MultiGraph] or
    a [MultiDiGraph]. *)
Inductive NxEdge :=
| Pair (u v : pyval)
| Keyed (u v key : pyval).

Definition ends (e : NxEdge) : pyval * pyval :=
  match e with
  | Pair u v | Keyed u v _ => (u, v)
  end.

(** A [networkx] graph as the graph visualizer reads it: what [G.nodes]
    and [G.edges] enumerate. *)
Record NxGraph := {
  g_nodes : list pyval;
  g_edges : list NxEdge
}.

(** A snapshot of the graph store: a graph, or a value that fails
    [isinstance(data, nx.Graph)], [None] among them. *)
Inductive GraphData :=
| IsGraph (G : NxGraph)
| NotGraph (v : pyval).

(** ** graph.py *)

Module GraphVisualizer.
Section Visualizer.
Variable str : pyval → string.
Variable py_eq : pyval → pyval → bool.
(** [x in c] for a container [c] read from the metadata *)
Variable py_in : pyval → pyval → result bool.
(** The layouts of [networkx]; [spring_layout] draws from the global
    random state [RNG] and leaves it advanced. *)
Variables Pos RNG : Type.
Variable spring_layout : NxGraph → RNG → Pos * RNG.
Variables circular_layout kamada_kawai_layout shell_layout : NxGraph → Pos.

Definition GFrame := Frame (NxDraw NxGraph Pos).

(** The [# Select layout algorithm] block (the same in both methods) *)
Definition select_layout (layout : string) (G : NxGraph) (rng : RNG) : Pos * RNG :=
  if String.eqb layout "spring" then spring_layout G rng
  else if String.eqb layout "circular" then (circular_layout G, rng)
  else if String.eqb layout "kamada_kawai" then (kamada_kawai_layout G, rng)
  else if String.eqb layout "shell" then (shell_layout G, rng)
  else spring_layout G rng.

(** [edge == (u, v)] for a tuple [G.edges] yields: tuples of different
    lengths are never equal. *)
Definition edge_eq (e : NxEdge) (e' : pyval * pyval) : bool :=
  match e with
  | Pair u v => py_eq u e'.1 && py_eq v e'.2
  | Keyed _ _ _ => false
  end.

(** The [# Set up edge colors] block of [display_snapshot].  Building
    the set hashes every pair of the highlight list, which raises
    [TypeError] when an end point cannot be hashed; [edge in
    highlight_edges_set] then finds an equal pair of the set (equal values
    have equal hashes). *)
Definition edge_colors (G : NxGraph) (highlight_edges : option (list (pyval * pyval)))
  : result (list string) :=
  if given highlight_edges then
    let hl := default [] highlight_edges in
    if forallb (λ '(u, v), hashable u && hashable v) hl then
      let highlight_edges_set :=
        map (λ '(u, v), (u, v)) hl ++ map (λ '(u, v), (v, u)) hl in
      Ok (map (λ edge, if existsb (edge_eq edge) highlight_edges_set
                       then "red" else "#666666") (g_edges G))
    else Raise TypeError
  else Ok (replicate (length (g_edges G)) "#666666").

Definition empty_frame (msg : string) : GFrame :=
  {| f_artists := [ Text (1#2) (1#2) msg [("ha", "center"); ("va", "center")] ];
     f_title := None;
     f_xlim := None;
     f_ylim := None;
     f_axis_off := true;
     f_code := None |}.

Definition display_snapshot (tracer : DataStructureTracer GraphData)
    (step : Z) (highlight_nodes : option (list pyval))
    (highlight_edges : option (list (pyval * pyval)))
    (layout : string) (title : option string) (show_code : bool) (rng : RNG)
  : result (Outcome GFrame) * RNG :=
  match get_snapshot tracer step with
  | Raise e => (Raise e, rng)
  | Ok (None, _) | Ok (Some (NotGraph PNone), _) =>
      (Ok (Printed "No data available"), rng)
  | Ok (Some (NotGraph _), _) => (Ok (Printed "Unsupported graph type"), rng)
  | Ok (Some (IsGraph G), metadata) =>
      match g_nodes G with
      | [] => (Ok (Shown (empty_frame "Empty Graph")), rng)
      | _ :: _ =>
          let '(pos, rng) := select_layout layout G rng in
          let node_colors :=
            map (λ node,
                   if given highlight_nodes
                      && existsb (py_eq node) (default [] highlight_nodes)
                   then "#ff7f7f" else "#aed9e6") (g_nodes G) in
          (edge_colors ← edge_colors G highlight_edges;
           let drawing :=
             {| d_graph := G; d_pos := pos;
                d_node_color := ColorList node_colors;
                d_edge_color := ColorList edge_colors;
                d_kw := [("node_size", "1500"); ("with_labels", "True");
                         ("font_size", "10")];
                d_labels := None |} in
           t ← display_title str title metadata;
           Ok (Shown {| f_artists := [Drawing drawing];
                        f_title := Some t;
                        f_xlim := None;
                        f_ylim := None;
                        f_axis_off := true;
                        f_code := if show_code then Some metadata else None |}),
           rng)
      end
  end.

(** The [# Precompute layouts for consistency across frames] loop *)
Fixpoint precompute (layout : string) (snaps : list GraphData) (rng : RNG)
  : list (option Pos) * RNG :=
  match snaps with
  | [] => ([], rng)
  | IsGraph G :: snaps' =>
      let '(pos, rng) := select_layout layout G rng in
      let '(pos_frames, rng) := precompute layout snaps' rng in
      (Some pos :: pos_frames, rng)
  | NotGraph _ :: snaps' =>
      let '(pos_frames, rng) := precompute layout snaps' rng in
      (None :: pos_frames, rng)
  end.

Definition node_colors_of (highlight_nodes : pyval) (ns : list pyval)
  : result (list string) :=
  mapM (M := result) (λ node,
          b ← py_in node highlight_nodes;
          Ok (if b : bool then "#ff7f7f" else "#aed9e6")) ns.

Definition create_animation (tracer : DataStructureTracer GraphData)
    (interval : Z) (repeat : bool) (layout : string) (rng : RNG)
  : Outcome (FuncAnimation (nat → result GFrame)) * RNG :=
  match snapshots tracer with
  | [] => (Printed "No snapshots available", rng)
  | _ :: _ =>
      let '(pos_frames, rng) := precompute layout (snapshots tracer) rng in
      let update (frame : nat) : result GFrame :=
        data ← from_opt IndexError (snapshots tracer !! frame);
        metadata ← from_opt IndexError (metadata tracer !! frame);
        pos ← from_opt IndexError (pos_frames !! frame);
        match data, pos with
        | IsGraph G, Some pos =>
            match g_nodes G with
            | [] => Ok (empty_frame "Empty Graph")
            | _ :: _ =>
                let highlight_nodes := default (PList []) (metadata !! "highlight_nodes") in
                node_colors ← node_colors_of highlight_nodes (g_nodes G);
                let drawing :=
                  {| d_graph := G; d_pos := pos;
                     d_node_color := ColorList node_colors;
                     d_edge_color := OneColor "#666666";
                     d_kw := [("node_size", "1500"); ("with_labels", "True");
                              ("font_size", "10")];
                     d_labels := None |} in
                t ← update_title str metadata;
                Ok {| f_artists := [Drawing drawing];
                      f_title := Some t;
                      f_xlim := None;
                      f_ylim := None;
                      f_axis_off := true;
                      f_code := None |}
            end
        | _, _ => Ok (empty_frame "Unsupported Graph Type")
        end in
      (Shown {| func := update;
                frames := length (snapshots tracer);
                interval := interval;
                repeat := repeat |}, rng)
  end.

End Visualizer.
End GraphVisualizer.

(** ** tree.py: the visualizer *)

Module TreeVisualizer.
Section Visualizer.
Variable str : pyval → string.
(** Nested calls the interpreter allows when the builder starts *)
Variable limit : nat.
(** [nx.spring_layout] draws from the global random state;
    [graphviz_layout] is [None] when the call raises (no pygraphviz). *)
Variables Pos RNG : Type.
Variable spring_layout : DiGraph → RNG → Pos * RNG.
Variable circular_layout : DiGraph → Pos.
Variable graphviz_layout : DiGraph → option Pos.

Definition TFrame := Frame (NxDraw DiGraph Pos).

Definition _tree_to_networkx := TreeBuilder._tree_to_networkx str limit.

(** The [# Create layout] block (the same in both methods) *)
Definition create_layout (layout : string) (G : DiGraph) (rng : RNG) : Pos * RNG :=
  if String.eqb layout "dot" then
    match graphviz_layout G with
    | Some pos => (pos, rng)
    | None => spring_layout G rng
    end
  else if String.eqb layout "circular" then (circular_layout G, rng)
  else spring_layout G rng.

Definition empty_tree : TFrame :=
  {| f_artists := [ Text (1#2) (1#2) "Empty Tree" [("ha", "center"); ("va", "center")] ];
     f_title := None;
     f_xlim := None;
     f_ylim := None;
     f_axis_off := true;
     f_code := None |}.

(** [{node: G.nodes[node].get('label', '') for node in G.nodes}] *)
Definition node_labels (G : DiGraph) : list (nat * string) :=
  map (λ '(node, label), (node, default "" label)) (nodes G).

Definition display_snapshot (tracer : DataStructureTracer pyval)
    (step : Z) (highlight_nodes : option (list pyval))
    (layout : string) (title : option string) (rng : RNG)
  : result (Outcome TFrame) * RNG :=
  match get_snapshot tracer step with
  | Raise e => (Raise e, rng)
  | Ok (None, _) | Ok (Some PNone, _) => (Ok (Printed "No data available"), rng)
  | Ok (Some data, metadata) =>
      match _tree_to_networkx data with
      | Raise e => (Raise e, rng)
      | Ok G =>
          match nodes G with
          | [] => (Ok (Shown empty_tree), rng)
          | _ :: _ =>
              let node_colors :=
                map (λ '(node, label_attr),
                       let label := default "" label_attr in
                       if given highlight_nodes
                          && bool_decide (label ∈ map str (default [] highlight_nodes))
                       then "#ff7f7f" else "#aed9e6") (nodes G) in
              let '(pos, rng) := create_layout layout G rng in
              let drawing :=
                {| d_graph := G; d_pos := pos;
                   d_node_color := ColorList node_colors;
                   d_edge_color := OneColor "#666666";
                   d_kw := [("node_size", "2500"); ("arrows", "True");
                            ("with_labels", "False")];
                   d_labels := Some (node_labels G) |} in
              (t ← display_title str title metadata;
               Ok (Shown {| f_artists := [Drawing drawing];
                            f_title := Some t;
                            f_xlim := None;
                            f_ylim := None;
                            f_axis_off := true;
                            f_code := None |}),
               rng)
          end
      end
  end.

(** The [update] closure: the layout is created inside it, on every call. *)
Definition update (tracer : DataStructureTracer pyval) (layout : string)
    (frame : nat) (rng : RNG) : result TFrame * RNG :=
  match snapshots tracer !! frame, metadata tracer !! frame with
  | Some data, Some metadata =>
      match _tree_to_networkx data with
      | Raise e => (Raise e, rng)
      | Ok G =>
          match nodes G with
          | [] => (Ok empty_tree, rng)
          | _ :: _ =>
              let '(pos, rng) := create_layout layout G rng in
              let drawing :=
                {| d_graph := G; d_pos := pos;
                   d_node_color := OneColor "#aed9e6";
                   d_edge_color := OneColor "#666666";
                   d_kw := [("node_size", "2500"); ("arrows", "True");
                            ("with_labels", "False")];
                   d_labels := Some (node_labels G) |} in
              (t ← update_title str metadata;
               Ok {| f_artists := [Drawing drawing];
                     f_title := Some t;
                     f_xlim := None;
                     f_ylim := None;
                     f_axis_off := true;
                     f_code := None |},
               rng)
          end
      end
  | _, _ => (Raise IndexError, rng)
  end.

Definition create_animation (tracer : DataStructureTracer pyval)
    (interval : Z) (repeat : bool) (layout : string)
  : Outcome (FuncAnimation (nat → RNG → result TFrame * RNG)) :=
  match snapshots tracer with
  | [] => Printed "No snapshots available"
  | _ :: _ =>
      Shown {| func := update tracer layout;
               frames := length (snapshots tracer);
               interval := interval;
               repeat := repeat |}
  end.

End Visualizer.
End TreeVisualizer.

(** ** tracer.py: capture, over a heap of mutable objects *)

Module TraceStore.

(** Live data structures are objects on a heap: a value is an immutable
    atom or a reference, an object has a tag (its type) and fields that
    are values.  Objects may share other objects and may reach
    themselves. *)
Definition loc := positive.

Inductive hval :=
| HAtom (a : pyval)
| HRef (l : loc).

Record hobj := {
  tag : string;
  fields : list hval
}.

#[global] Instance hobj_inhabited : Inhabited hobj :=
  populate {| tag := ""; fields := [] |}.

(** What a value looks like from outside, read through the references
    down to a depth; [CBelow] stands for what lies deeper, [CNothing] for
    a reference to no object.  The content of a value is what it looks
    like to every depth. *)
Inductive content :=
| CAtom (a : pyval)
| CObj (t : string) (cs : list content)
| CBelow
| CNothing.

Fixpoint unfold (depth : nat) (h : gmap loc hobj) (v : hval) : content :=
  match v with
  | HAtom a => CAtom a
  | HRef l =>
      match depth with
      | 0 => CBelow
      | S depth' =>
          match h !! l with
          | Some o => CObj (tag o) (map (unfold depth' h) (fields o))
          | None => CNothing
          end
      end
  end.

(** The objects a value and an object refer to. *)
Definition targets (v : hval) : gset loc :=
  match v with
  | HRef l => {[l]}
  | HAtom _ => ∅
  end.

Definition refs (o : hobj) : gset loc := ⋃ (targets <$> fields o).

(** A heap as a running program has it: no reference to an object that
    is not there. *)
Definition closed (h : gmap loc hobj) : Prop :=
  map_Forall (λ _ o, refs o ⊆ dom h) h.

#[global] Instance closed_dec (h : gmap loc hobj) : Decision (closed h) :=
  ltac:(unfold closed; apply _).

(** The objects reachable from a value: those it refers to, then those
    they refer to, and so on, as many times as the heap has objects. *)
Definition expand (h : gmap loc hobj) (X : gset loc) : gset loc :=
  X ∪ set_bind (SB := gset loc) (λ l, from_option refs ∅ (h !! l)) X.

Definition reach (h : gmap loc hobj) (v : hval) : gset loc :=
  Nat.iter (size (dom h)) (expand h) (targets v).

Definition rename (memo : gmap loc loc) (v : hval) : hval :=
  match v with
  | HRef l => HRef (default l (memo !! l))
  | HAtom a => HAtom a
  end.

Definition rename_obj (memo : gmap loc loc) (o : hobj) : hobj :=
  {| tag := tag o; fields := rename memo <$> fields o |}.

(** Modelled from the spec: the deep structural copy [capture] stores
    (spec 4.1), with a memo as [copy.deepcopy] keeps one.  Every object
    reachable from the state ([copied]) gets one new object ([made]); the
    references between the copies follow the [memo], so that an object
    shared in the state is shared in the copy, and a state that reaches
    itself is copied like any other. *)
Definition copied (h : gmap loc hobj) (state : hval) : list loc :=
  elements (reach h state).

Definition made (h : gmap loc hobj) (state : hval) : list loc :=
  fresh_list (length (copied h state)) (dom h).

Definition memo (h : gmap loc hobj) (state : hval) : gmap loc loc :=
  list_to_map (zip (copied h state) (made h state)).

Definition copies (h : gmap loc hobj) (state : hval) : gmap loc hobj :=
  list_to_map (zip (made h state)
                 ((λ l, rename_obj (memo h state) (h !!! l)) <$> copied h state)).

Definition deepcopy (h : gmap loc hobj) (state : hval) : hval * gmap loc hobj :=
  (rename (memo h state) state, copies h state ∪ h).

(** The heap, the locations of the caller's live objects, and the
    store. *)
Record world := {
  heap : gmap loc hobj;
  live : gset loc;
  tracer : DataStructureTracer hval
}.

(** Modelled from the spec: [capture(state, metadata)] of the absent
    [tracer.py] (spec 4.1): appends a deep copy of [state] and the
    caller's metadata merged with the auto-assigned [step], the index of
    the new entry. *)
Definition capture (w : world) (state : hval) (md : Metadata) : world :=
  let '(copy, h') := deepcopy (heap w) state in
  let step := length (snapshots (tracer w)) in
  {| heap := h';
     live := live w;
     tracer := {| snapshots := snapshots (tracer w) ++ [copy];
                  metadata := metadata (tracer w)
                              ++ [<["step" := PInt (Z.of_nat step)]> md] |} |}.

(** What the caller does between captures: change a live object in
    place, or make a new one. *)
Definition mutate (w : world) (l : loc) (o : hobj) : world :=
  {| heap := <[l := o]> (heap w); live := live w; tracer := tracer w |}.

Definition new (w : world) (o : hobj) : world :=
  let l := fresh (dom (heap w)) in
  {| heap := <[l := o]> (heap w); live := {[l]} ∪ live w; tracer := tracer w |}.

Inductive op :=
| Capture (state : hval) (md : Metadata)
| Mutate (l : loc) (o : hobj)
| New (o : hobj).

Definition step (w : world) (o : op) : world :=
  match o with
  | Capture state md => capture w state md
  | Mutate l o => mutate w l o
  | New o => new w o
  end.

Definition run (ops : list op) (w : world) : world := foldl step w ops.

(** What a caller can do: it holds references to objects that exist
    only, and it changes its own objects, not the copies in the store. *)
Definition allowed (w : world) (o : op) : bool :=
  match o with
  | Capture state _ => bool_decide (targets state ⊆ dom (heap w))
  | Mutate l o => bool_decide (l ∈ live w) && bool_decide (refs o ⊆ dom (heap w))
  | New o => bool_decide (refs o ⊆ dom (heap w))
  end.

Fixpoint permitted (ops : list op) (w : world) : bool :=
  match ops with
  | [] => true
  | o :: ops' => allowed w o && permitted ops' (step w o)
  end.

Definition is_capture (o : op) : bool :=
  match o with Capture _ _ => true | _ => false end.

Definition captures (ops : list op) : nat :=
  length (List.filter is_capture ops).

(** A new store next to the caller's objects, all of them live. *)
Definition start (h : gmap loc hobj) : world :=
  {| heap := h; live := dom h; tracer := {| snapshots := []; metadata := [] |} |}.

(** What the store holds, entry by entry: the stored copy, the captured
    state with the heap of that moment, and the stored metadata.  Every
    copy has the content the captured state had, in every heap that
    agrees with the present one outside the live objects. *)
Definition kept (w : world) (log : list (hval * (hval * gmap loc hobj) * Metadata))
  : Prop :=
  closed (heap w)
  ∧ live w ⊆ dom (heap w)
  ∧ snapshots (tracer w) = log.*1.*1
  ∧ metadata (tracer w) = log.*2
  ∧ ∀ copy state h0 md, (copy, (state, h0), md) ∈ log →
      ∀ h2 : gmap loc hobj,
        (∀ l, l ∈ dom (heap w) → l ∉ live w → h2 !! l = heap w !! l) →
        ∀ depth, unfold depth h2 copy = unfold depth h0 state.

End TraceStore.

(** ** Vocabulary of the properties of the builder *)

(** The three tree shapes as the builder tests for them: both a [left]
    and a [right] attribute; a [children] attribute, whatever its value;
    a mapping with a ['value'] entry. *)
Definition exposes_left_right (t : pyval) : Prop :=
  ∃ l r, py_getattr t "left" = Some l ∧ py_getattr t "right" = Some r.

Definition exposes_children (t : pyval) : Prop :=
  ∃ c, py_getattr t "children" = Some c.

Definition mapping_with_value (t : pyval) : Prop :=
  ∃ d v, t = PDict d ∧ entry "value" d = Some v.

(** The second shape as the specification words it: a node with a
    children list. *)
Definition children_list (t : pyval) : Prop :=
  ∃ items, py_getattr t "children" = Some (PList items).

Inductive shape := Binary | Children | Mapping.

(** The shape the builder treats a root as. *)
Definition shape_of (t : pyval) : option shape :=
  if hasattr t "left" && hasattr t "right" then Some Binary
  else if hasattr t "children" then Some Children
  else if isinstance_dict t && dict_contains t "value" then Some Mapping
  else None.

(** The children a visit of [node] goes on to, in order: the non-null
    [left] then [right]; the non-null members of the children list. *)
Definition children_of (s : shape) (node : pyval) : result (list pyval) :=
  match s with
  | Binary =>
      l ← attr node "left";
      r ← attr node "right";
      Ok (List.filter truthy [l; r])
  | Children =>
      c ← attr node "children";
      if truthy c then items ← py_iter c; Ok (List.filter truthy items)
      else Ok []
  | Mapping =>
      _ ← dict_get node "value" (PStr "");
      c ← dict_get node "children" (PList []);
      items ← py_iter c;
      Ok (List.filter truthy items)
  end.

(** [preorder s t ns]: a preorder walk of [t] visits exactly [ns], in
    this order. *)
Inductive preorder (s : shape) : pyval → list pyval → Prop :=
| preorder_node node kids below :
    children_of s node = Ok kids →
    Forall2 (preorder s) kids below →
    preorder s node (node :: concat below).

Section Labels.
Variable str : pyval → string.

(** The label as the specification words it: the string form of the
    [val] attribute if present, else of the [value] attribute, else of the
    node itself. *)
Definition stated_label (node : pyval) : string :=
  match py_getattr node "val" with
  | Some v => str v
  | None =>
      match py_getattr node "value" with
      | Some v => str v
      | None => str node
      end
  end.

(** The string form of a mapping's [value] entry, of the empty string
    when it has none. *)
Definition entry_label (node : pyval) : string :=
  match node with
  | PDict d => str (default (PStr "") (entry "value" d))
  | _ => str (PStr "")
  end.

Definition label_of (s : shape) (node : pyval) : string :=
  match s with
  | Binary | Children => stated_label node
  | Mapping => entry_label node
  end.

(** Nodes [ns] numbered from [start] on, each with its label. *)
Definition numbered (s : shape) (start : nat) (ns : list pyval)
  : list (nat * option string) :=
  imap (λ i n, (start + i, Some (label_of s n))) ns.

(** Node ids are the numbers below the node count, in order. *)
Definition dense (l : list (nat * option string)) : Prop :=
  l.*1 = seq 0 (length l).

(** The state in which a visit of node [id] starts: the nodes before it
    are [pre], and [id] is either absent (the root) or the last node,
    put there by [add_edge]. *)
Definition entering (pre : list (nat * option string)) (id : nat) (G : DiGraph) : Prop :=
  dense pre ∧ id = length pre ∧ (nodes G = pre ∨ ∃ a, nodes G = pre ++ [(id, a)]).

(** What a correct [add_nodes] does to the node dictionary. *)
Definition visits (s : shape) (add : pyval → nat → DiGraph → result DiGraph) : Prop :=
  ∀ node id G G' pre,
    entering pre id G → is_None node = false → add node id G = Ok G' →
    ∃ ns, preorder s node ns ∧ nodes G' = pre ++ numbered s id ns.

End Labels.

(** Binary trees of [TreeNode] instances, by height. *)
Inductive binary_tree : nat → pyval → Prop :=
| binary_none : binary_tree 0 PNone
| binary_node name val l r hl hr :
    binary_tree hl l → binary_tree hr r →
    binary_tree (S (max hl hr))
      (PObj name [("val", PInt val); ("left", l); ("right", r)]).

(** ** Example inputs *)

(** The tree of examples/tree.py after its last capture: root 1 with left
    2 and right 3, and 4 as the right child of 2. *)
Definition TreeNode (name : string) (val : Z) (left right : pyval) : pyval :=
  PObj name [("val", PInt val); ("left", left); ("right", right)].

Definition example_tree : pyval :=
  TreeNode "<TreeNode 1>" 1
    (TreeNode "<TreeNode 2>" 2 PNone (TreeNode "<TreeNode 4>" 4 PNone PNone))
    (TreeNode "<TreeNode 3>" 3 PNone PNone).

(** A mapping tree whose child has no ['value'] entry. *)
Definition example_mapping : pyval :=
  PDict [(PStr "value", PInt 1);
         (PStr "children", PList [PDict [(PStr "id", PInt 2)]])].



(** [==] on atoms: numbers by value ([True == 1]), strings by text, [None]
    with itself; used where a concrete equality is needed. *)
Definition py_eq_atoms (x y : pyval) : bool :=
  let number v :=
    match v with
    | PInt z => Some z
    | PBool b => Some (if b then 1 else 0)%Z
    | _ => None
    end in
  match x, y with
  | PNone, PNone => true
  | PStr a, PStr b => String.eqb a b
  | _, _ =>
      match number x, number y with
      | Some a, Some b => (a =? b)%Z
      | _, _ => false
      end
  end.

Definition one_step {S} (data : S) (md : Metadata) : DataStructureTracer S :=
  {| snapshots := [data]; metadata := [md] |}.

Definition no_steps {S} : DataStructureTracer S :=
  {| snapshots := []; metadata := [] |}.

(** A five-element list, captured once. *)
Definition five_elements : DataStructureTracer (list pyval) :=
  one_step [PInt 10; PInt 20; PInt 30; PInt 40; PInt 50] {["step" := PInt 0]}.

(** The first capture of examples/queue.py and examples/stack.py: the
    empty container, described as the initial state. *)
Definition initial_state : DataStructureTracer (list pyval) :=
  one_step [] (<["description" := PStr "Initial state"]> {["step" := PInt 0]}).

(** A stack captured without a description. *)
Definition undescribed_stack : DataStructureTracer (list pyval) :=
  one_step [PInt 1] {["step" := PInt 0]}.

(** A list at location 1 that holds 10, a second list, the same second
    list again, and itself; captured, grown by 20 in place, and captured
    again. *)
Definition list_object (items : list TraceStore.hval) : TraceStore.hobj :=
  {| TraceStore.tag := "list"; TraceStore.fields := items |}.

Definition live_list : gmap TraceStore.loc TraceStore.hobj :=
  <[1%positive :=
      list_object [TraceStore.HAtom (PInt 10); TraceStore.HRef 2%positive;
                   TraceStore.HRef 2%positive; TraceStore.HRef 1%positive]]>
    {[2%positive := list_object [TraceStore.HAtom (PInt 7)]]}.

Definition capture_grow_capture : list TraceStore.op :=
  [TraceStore.Capture (TraceStore.HRef 1%positive) ∅;
   TraceStore.Mutate 1%positive
     (list_object [TraceStore.HAtom (PInt 10); TraceStore.HRef 2%positive;
                   TraceStore.HRef 2%positive; TraceStore.HRef 1%positive;
                   TraceStore.HAtom (PInt 20)]);
   TraceStore.Capture (TraceStore.HRef 1%positive) ∅].

(** A graph on the nodes 2 and 1 whose only edge is stored as (2, 1). *)
Definition edge_2_1 : DataStructureTracer GraphData :=
  one_step (IsGraph {| g_nodes := [PInt 2; PInt 1];
                       g_edges := [Pair (PInt 2) (PInt 1)] |})
           {["step" := PInt 0]}.

(** A multigraph on the nodes 1 and 2 with one edge between them, whose
    key is 0. *)
Definition multi_edge_1_2 : DataStructureTracer GraphData :=
  one_step (IsGraph {| g_nodes := [PInt 1; PInt 2];
                       g_edges := [Keyed (PInt 1) (PInt 2) (PInt 0)] |})
           {["step" := PInt 0]}.

(** A graph without nodes, as [nx.Graph()] gives it, captured once. *)
Definition empty_graph_step : DataStructureTracer GraphData :=
  one_step (IsGraph {| g_nodes := []; g_edges := [] |}) {["step" := PInt 0]}.

(** The example tree, captured once. *)
Definition tree_step : DataStructureTracer pyval :=
  one_step example_tree {["step" := PInt 0]}.

(** A stand-in for a randomised layout: the position it gives is the
    random state it was called in, and the call advances the state. *)
Definition seeded_layout {Gr} (G : Gr) (rng : nat) : nat * nat := (rng, S rng).
(** ** Further vocabulary *)

(** Every edge ends in a node of the graph. *)
Definition closed (G : DiGraph) : Prop :=
  Forall (λ e : nat * nat, e.2 < length (nodes G)) (edges G).

(** What a correct [add_nodes] does to the edges: the visit of node [id]
    appends one edge into each node it adds below [id], in the order of
    their ids, each from a node of the visit with a smaller id. *)
Definition links (add : pyval → nat → DiGraph → result DiGraph) : Prop :=
  ∀ node id G G' pre,
    entering pre id G → closed G → is_None node = false → add node id G = Ok G' →
    ∃ E, edges G' = edges G ++ E
         ∧ E.*2 = seq (S id) (length (nodes G') - S id)
         ∧ Forall (λ e : nat * nat, id ≤ e.1 ∧ e.1 < e.2) E.

(** A stack, or a queue, of two elements, captured once. *)
Definition two_elements : DataStructureTracer (list pyval) :=
  one_step [PInt 10; PInt 20] {["step" := PInt 0]}.

(** The dictionary of examples/dict.py after its last capture. *)
Definition two_entries : DataStructureTracer (list (pyval * pyval)) :=
  one_step [(PStr "age", PInt 30); (PStr "name", PStr "Alice")]
           (<["description" := PStr "name -> Alice"]> {["step" := PInt 2]}).

(** The graph on 1, 2, 3 with the edges 1-2 and 2-3, captured once with
    the nodes 2 and 3 to highlight, as in examples/graph.py. *)
Definition path_graph : NxGraph :=
  {| g_nodes := [PInt 1; PInt 2; PInt 3];
     g_edges := [Pair (PInt 1) (PInt 2); Pair (PInt 2) (PInt 3)] |}.

Definition path_metadata : Metadata :=
  <["highlight_nodes" := PList [PInt 2; PInt 3]]>
    (<["highlight_edges" := PList []]> {["step" := PInt 3]}).

Definition path_step : DataStructureTracer GraphData :=
  one_step (IsGraph path_graph) path_metadata.

(** [x in c] for a list [c], by [==] on atoms. *)
Definition py_in_list (x c : pyval) : result bool :=
  match c with
  | PList items => Ok (existsb (py_eq_atoms x) items)
  | _ => Raise TypeError
  end.

(** A tree store whose first snapshot is the number 5, stored with empty
    metadata, and whose second is the example tree. *)
Definition leaf_then_tree : DataStructureTracer pyval :=
  {| snapshots := [PInt 5; example_tree];
     metadata := [∅; {["step" := PInt 1]}] |}.

(** * Properties *)

(** ** The error monad *)

Lemma bind_Ok {A B} (r : result A) (f : A → result B) (b : B) :
  r ≫= f = Ok b → ∃ a, r = Ok a ∧ f a = Ok b.
Proof. destruct r as [a|e]; simpl; [eauto | discriminate]. Qed.

Lemma from_opt_Ok {A} (e : PyErr) (o : option A) (a : A) :
  from_opt e o = Ok a → o = Some a.
Proof. destruct o; simpl; congruence. Qed.

Ltac ok_inv H :=
  let a := fresh "a" in
  let Ha := fresh "Ha" in
  apply bind_Ok in H as (a & Ha & H).

(** ** The canonical graph builder *)

Section BuilderFacts.
Variable str : pyval → string.

Lemma numbered_cons s start n ns :
  numbered str s start (n :: ns)
  = (start, Some (label_of str s n)) :: numbered str s (S start) ns.
Proof.
  unfold numbered. simpl. f_equal; [by rewrite Nat.add_0_r |].
  apply imap_ext. intros i x _. simpl. f_equal. lia.
Qed.

Lemma numbered_app s start a b :
  numbered str s start (a ++ b)
  = numbered str s start a ++ numbered str s (start + length a) b.
Proof.
  unfold numbered. rewrite imap_app. f_equal.
  apply imap_ext. intros i x _. simpl. f_equal. lia.
Qed.

Lemma numbered_length s start ns : length (numbered str s start ns) = length ns.
Proof. unfold numbered. by rewrite length_imap. Qed.

Lemma numbered_fst s start ns : (numbered str s start ns).*1 = seq start (length ns).
Proof.
  revert start. induction ns as [|n ns IH]; intros start; [done |].
  rewrite numbered_cons. simpl. by rewrite IH.
Qed.

Lemma dense_elem l n : dense l → n ∈ l.*1 ↔ n < length l.
Proof.
  intros ->. rewrite list_elem_of_In, in_seq. lia.
Qed.

Lemma dense_numbered pre s ns :
  dense pre → dense (pre ++ numbered str s (length pre) ns).
Proof.
  unfold dense. intros Hpre.
  rewrite fmap_app, length_app, numbered_fst, numbered_length, Hpre.
  by rewrite seq_app.
Qed.

Lemma dense_snoc pre a : dense pre → dense (pre ++ [(length pre, a)]).
Proof.
  unfold dense. intros Hpre.
  rewrite fmap_app, length_app, Hpre. simpl.
  by rewrite seq_app.
Qed.

Lemma set_label_last pre n a label :
  n ∉ pre.*1 → set_label n label (pre ++ [(n, a)]) = pre ++ [(n, Some label)].
Proof.
  induction pre as [|[m b] pre IH]; simpl; intros Hn.
  - by rewrite Nat.eqb_refl.
  - apply not_elem_of_cons in Hn as [Hne Hn].
    destruct (Nat.eqb_spec m n) as [->|_]; [done |]. by rewrite IH.
Qed.

Lemma add_node_entering pre id G label :
  entering pre id G → nodes (add_node G id label) = pre ++ [(id, Some label)].
Proof.
  intros (Hd & -> & [Hn | [a Hn]]); unfold add_node, has_node; rewrite Hn.
  - rewrite bool_decide_eq_false_2; [done |].
    rewrite (dense_elem _ _ Hd). lia.
  - rewrite bool_decide_eq_true_2.
    + simpl. apply set_label_last. rewrite (dense_elem _ _ Hd). lia.
    + rewrite fmap_app. set_solver.
Qed.

Lemma add_edge_nodes G p :
  dense (nodes G) → p < length (nodes G) →
  nodes (add_edge G p (length (nodes G))) = nodes G ++ [(length (nodes G), None)].
Proof.
  intros Hd Hp. unfold add_edge, touch, has_node. simpl.
  rewrite (bool_decide_eq_true_2 (p ∈ (nodes G).*1)) by (rewrite (dense_elem _ _ Hd); lia).
  rewrite bool_decide_eq_false_2; [done |].
  rewrite (dense_elem _ _ Hd). lia.
Qed.

Lemma child_step s add p child G G' :
  visits str s add → dense (nodes G) → p < length (nodes G) →
  (if truthy child
   then add child (length (nodes G)) (add_edge G p (length (nodes G)))
   else Ok G) = Ok G' →
  ∃ below, Forall2 (preorder s) (List.filter truthy [child]) below
           ∧ nodes G' = nodes G ++ numbered str s (length (nodes G)) (concat below).
Proof.
  intros Hadd Hd Hp Hrun. simpl. destruct (truthy child) eqn:Ht.
  - destruct (Hadd child (length (nodes G)) (add_edge G p (length (nodes G))) G'
                (nodes G)) as (ns & Hpre & Hn); [| by destruct child | done |].
    + split; [done |]. split; [done |]. right. eexists. by apply add_edge_nodes.
    + exists [ns]. split; [by repeat constructor |]. simpl. by rewrite app_nil_r.
  - injection Hrun as <-. exists []. split; [constructor |].
    simpl. by rewrite app_nil_r.
Qed.

Lemma children_loop s add p items : ∀ G G',
  visits str s add → dense (nodes G) → p < length (nodes G) →
  for_each (λ child G,
    if truthy child
    then add child (length (nodes G)) (add_edge G p (length (nodes G)))
    else Ok G) items G = Ok G' →
  ∃ below, Forall2 (preorder s) (List.filter truthy items) below
           ∧ nodes G' = nodes G ++ numbered str s (length (nodes G)) (concat below).
Proof.
  induction items as [|child items IH]; intros G G' Hadd Hd Hp Hrun.
  - injection Hrun as <-. exists []. split; [constructor |].
    simpl. by rewrite app_nil_r.
  - simpl in Hrun. ok_inv Hrun.
    destruct (child_step s add p child G a Hadd Hd Hp Ha) as (b1 & Hb1 & Hn1).
    destruct (IH a G' Hadd) with (3 := Hrun) as (b2 & Hb2 & Hn2).
    + rewrite Hn1. by apply dense_numbered.
    + rewrite Hn1, length_app. lia.
    + exists (b1 ++ b2). split.
      * change (child :: items) with ([child] ++ items).
        rewrite List.filter_app. by apply Forall2_app.
      * rewrite Hn2, Hn1, concat_app, numbered_app, length_app, numbered_length.
        by rewrite <-app_assoc.
Qed.

Lemma stated_label_getattr node :
  str (getattr node "val" (getattr node "value" node)) = stated_label str node.
Proof.
  unfold stated_label, getattr.
  by destruct (py_getattr node "val"), (py_getattr node "value").
Qed.

Lemma entered pre id label :
  dense pre → id = length pre →
  dense (pre ++ [(id, Some label)]) ∧ id < length (pre ++ [(id, Some label)]).
Proof.
  intros Hd ->. split; [by apply dense_snoc |]. rewrite length_app. simpl. lia.
Qed.

Lemma visit_result s pre id node below (l : list (nat * option string)) :
  id = length pre →
  l = (pre ++ [(id, Some (label_of str s node))])
      ++ numbered str s (length (pre ++ [(id, Some (label_of str s node))])) (concat below) →
  l = pre ++ numbered str s id (node :: concat below).
Proof.
  intros -> ->. rewrite numbered_cons, length_app. simpl.
  rewrite <-app_assoc. simpl. do 3 f_equal. lia.
Qed.

Lemma add_nodes_binary_visits depth :
  visits str Binary (TreeBuilder.add_nodes_binary str depth).
Proof.
  induction depth as [|depth IH]; intros node id G G' pre Hin Hnn Hrun;
    [discriminate |].
  simpl in Hrun. rewrite Hnn in Hrun.
  rewrite stated_label_getattr in Hrun.
  set (G1 := add_node G id (stated_label str node)) in *.
  assert (Hn1 : nodes G1 = pre ++ [(id, Some (stated_label str node))])
    by (by apply add_node_entering).
  destruct Hin as (Hd & Hid & _).
  destruct (entered pre id (stated_label str node) Hd Hid) as [Hd1 Hp1].
  rewrite <-Hn1 in Hd1, Hp1.
  ok_inv Hrun. rename a into l, Ha into Hl.
  ok_inv Hrun. rename a into G2, Ha into Hleft.
  ok_inv Hrun. rename a into r, Ha into Hr.
  destruct (child_step Binary _ id l G1 G2 IH Hd1 Hp1 Hleft) as (b1 & Hb1 & Hn2).
  destruct (child_step Binary _ id r G2 G' IH) with (3 := Hrun) as (b2 & Hb2 & Hn3).
  { rewrite Hn2. by apply dense_numbered. }
  { rewrite Hn2, length_app. lia. }
  exists (node :: concat (b1 ++ b2)). split.
  - apply preorder_node with (kids := List.filter truthy [l; r]).
    + simpl. by rewrite Hl, Hr.
    + change [l; r] with ([l] ++ [r]). rewrite List.filter_app. by apply Forall2_app.
  - apply (visit_result Binary pre id node (b1 ++ b2)); [done |].
    simpl label_of. rewrite <-Hn1, Hn3, Hn2.
    rewrite concat_app, numbered_app, length_app, numbered_length.
    by rewrite <-app_assoc.
Qed.

Lemma add_nodes_children_visits depth :
  visits str Children (TreeBuilder.add_nodes_children str depth).
Proof.
  induction depth as [|depth IH]; intros node id G G' pre Hin Hnn Hrun;
    [discriminate |].
  simpl in Hrun. rewrite Hnn in Hrun.
  rewrite stated_label_getattr in Hrun.
  set (G1 := add_node G id (stated_label str node)) in *.
  assert (Hn1 : nodes G1 = pre ++ [(id, Some (stated_label str node))])
    by (by apply add_node_entering).
  destruct Hin as (Hd & Hid & _).
  destruct (entered pre id (stated_label str node) Hd Hid) as [Hd1 Hp1].
  rewrite <-Hn1 in Hd1, Hp1.
  ok_inv Hrun. rename a into c, Ha into Hc.
  destruct (truthy c) eqn:Htc.
  - ok_inv Hrun. rename a into items, Ha into Hitems.
    destruct (children_loop Children _ id items G1 G' IH Hd1 Hp1 Hrun)
      as (below & Hbelow & Hn2).
    exists (node :: concat below). split.
    + apply preorder_node with (kids := List.filter truthy items); [| done].
      simpl. rewrite Hc. simpl. rewrite Htc, Hitems. done.
    + apply (visit_result Children pre id node below); [done |].
      simpl label_of. by rewrite <-Hn1.
  - injection Hrun as <-. exists (node :: concat []). split.
    + apply preorder_node with (kids := []); [| constructor].
      simpl. rewrite Hc. simpl. by rewrite Htc.
    + apply (visit_result Children pre id node []); [done |].
      simpl. by rewrite app_nil_r.
Qed.

Lemma dict_get_value node value :
  dict_get node "value" (PStr "") = Ok value → str value = entry_label str node.
Proof.
  destruct node; simpl; try discriminate.
  - by intros [= <-].
  - by case_bool_decide.
Qed.

Lemma add_nodes_dict_visits depth :
  visits str Mapping (TreeBuilder.add_nodes_dict str depth).
Proof.
  induction depth as [|depth IH]; intros node id G G' pre Hin Hnn Hrun;
    [discriminate |].
  simpl in Hrun. rewrite Hnn in Hrun.
  ok_inv Hrun. rename a into value, Ha into Hvalue.
  rewrite (dict_get_value _ _ Hvalue) in Hrun.
  set (G1 := add_node G id (entry_label str node)) in *.
  assert (Hn1 : nodes G1 = pre ++ [(id, Some (entry_label str node))])
    by (by apply add_node_entering).
  destruct Hin as (Hd & Hid & _).
  destruct (entered pre id (entry_label str node) Hd Hid) as [Hd1 Hp1].
  rewrite <-Hn1 in Hd1, Hp1.
  ok_inv Hrun. rename a into c, Ha into Hc.
  ok_inv Hrun. rename a into items, Ha into Hitems.
  destruct (children_loop Mapping _ id items G1 G' IH Hd1 Hp1 Hrun)
    as (below & Hbelow & Hn2).
  exists (node :: concat below). split.
  - apply preorder_node with (kids := List.filter truthy items); [| done].
    simpl. rewrite Hvalue. simpl. rewrite Hc. simpl. by rewrite Hitems.
  - apply (visit_result Mapping pre id node below); [done |].
    simpl label_of. by rewrite <-Hn1.
Qed.

(** On a binary tree of [TreeNode] instances the builder returns, as soon
    as the interpreter allows as many nested calls as the tree is high. *)
Lemma add_nodes_binary_returns h t :
  binary_tree h t → ∀ limit id G,
    h ≤ limit → truthy t = true →
    ∃ G', TreeBuilder.add_nodes_binary str limit t id G = Ok G'.
Proof.
  induction 1 as [|name val l r hl hr Hl IHl Hr IHr]; intros limit id G Hh Ht;
    [discriminate |].
  destruct limit as [|limit]; [lia |].
  assert (Hstep : ∀ c hc G0,
            binary_tree hc c → hc ≤ limit →
            (∀ limit id G, hc ≤ limit → truthy c = true →
               ∃ G', TreeBuilder.add_nodes_binary str limit c id G = Ok G') →
            ∃ G1, (if truthy c
                   then TreeBuilder.add_nodes_binary str limit c (length (nodes G0))
                          (add_edge G0 id (length (nodes G0)))
                   else Ok G0) = Ok G1).
  { intros c hc G0 _ Hc IH. destruct (truthy c) eqn:Htc; [by apply IH | eauto]. }
  simpl.
  destruct (Hstep l hl (add_node G id (str (getattr (TreeNode name val l r) "val"
              (getattr (TreeNode name val l r) "value" (TreeNode name val l r)))))
              Hl ltac:(lia) IHl) as [G1 HG1].
  unfold TreeNode in HG1. simpl in HG1. rewrite HG1. simpl.
  apply (Hstep r hr G1 Hr ltac:(lia) IHr).
Qed.

Lemma entering_empty : entering [] 0 empty_graph.
Proof. split; [done |]. split; [done |]. by left. Qed.

Lemma shape_not_None t s : shape_of t = Some s → is_None t = false.
Proof. by destruct t. Qed.

End BuilderFacts.

(** C1, as stated: the example tree gets the ids root 0, left 1, right 2,
    left.right 3 and the edges (0,1), (0,2), (1,3).  The builder numbers
    in preorder, so left.right is numbered before right: the stated graph
    is not the one it builds. *)
Lemma C1_stated_ids_refuted :
  ¬ ∃ limit G,
      TreeBuilder._tree_to_networkx py_str limit example_tree = Ok G
      ∧ (∀ x, x ∈ nodes G
              ↔ x ∈ [(0, Some "1"); (1, Some "2"); (2, Some "3"); (3, Some "4")])
      ∧ (∀ e, e ∈ edges G ↔ e ∈ [(0, 1); (0, 2); (1, 3)]).
Proof.
  intros (limit & G & Hrun & _ & Hedges).
  destruct limit as [|[|[|limit]]]; try discriminate.
  vm_compute in Hrun. injection Hrun as <-.
  assert (Hin : (0, 2) ∈ [(0, 1); (1, 2); (0, 3)])
    by (apply Hedges; rewrite !elem_of_cons; auto).
  rewrite !elem_of_cons, elem_of_nil in Hin.
  destruct Hin as [|[|[|[]]]]; discriminate.
Qed.

(** C1, amended: with room for three nested calls the example tree gets
    four nodes, numbered in preorder root 0, left 1, left.right 2,
    right 3, and exactly the edges (0,1), (1,2), (0,3). *)
Theorem C1_example_tree_preorder (str : pyval → string) (limit : nat) :
  3 ≤ limit →
  TreeBuilder._tree_to_networkx str limit example_tree
  = Ok {| nodes := [(0, Some (str (PInt 1))); (1, Some (str (PInt 2)));
                    (2, Some (str (PInt 4))); (3, Some (str (PInt 3)))];
          edges := [(0, 1); (1, 2); (0, 3)] |}.
Proof.
  intros Hlimit. destruct limit as [|[|[|limit]]]; [lia .. |]. reflexivity.
Qed.

Lemma C1_example_tree_preorder_witness :
  TreeBuilder._tree_to_networkx py_str 1000 example_tree
  = Ok {| nodes := [(0, Some "1"); (1, Some "2"); (2, Some "4"); (3, Some "3")];
          edges := [(0, 1); (1, 2); (0, 3)] |}.
Proof. apply (C1_example_tree_preorder py_str 1000). lia. Defined.

(** C7, as stated: an input that is null or matches none of the three
    shapes as the specification words them (left/right attributes; a
    children list; a mapping with a ['value'] entry) gives the empty
    graph, and no error.  A node whose [children] attribute is the number
    5 has no children list; the builder takes it for the second shape all
    the same and raises the type error. *)
Lemma C7_stated_shapes_refuted :
  ¬ ∀ (str : pyval → string) (limit : nat) (t : pyval),
      t = PNone
      ∨ (¬ exposes_left_right t ∧ ¬ children_list t ∧ ¬ mapping_with_value t) →
      TreeBuilder._tree_to_networkx str limit t = Ok empty_graph.
Proof.
  intros H.
  assert (Hno : PObj "<Node>" [("children", PInt 5)] = PNone
                ∨ (¬ exposes_left_right (PObj "<Node>" [("children", PInt 5)])
                   ∧ ¬ children_list (PObj "<Node>" [("children", PInt 5)])
                   ∧ ¬ mapping_with_value (PObj "<Node>" [("children", PInt 5)]))).
  { right. repeat split; [intros (? & ? & ? & ?) | intros (? & ?) | intros (? & ? & ? & ?)];
      discriminate. }
  specialize (H py_str 1000 _ Hno). discriminate H.
Qed.

(** So does a node whose [children] attribute is [None]: the builder
    returns a graph of one node for it, not the empty graph. *)
Lemma children_none_one_node :
  ¬ children_list (PObj "<Node>" [("val", PInt 1); ("children", PNone)])
  ∧ TreeBuilder._tree_to_networkx py_str 1000
      (PObj "<Node>" [("val", PInt 1); ("children", PNone)])
    = Ok {| nodes := [(0, Some "1")]; edges := [] |}.
Proof. split; [intros (? & ?); discriminate | reflexivity]. Qed.

(** C7, amended: a root that is null, or that has none of the three
    shapes as the builder tests for them (both a [left] and a [right]
    attribute; a [children] attribute, whatever its value; a mapping with
    a ['value'] entry), gives the empty graph, and no error. *)
Theorem C7_no_shape_empty_graph (str : pyval → string) (limit : nat) (t : pyval) :
  t = PNone
  ∨ (¬ exposes_left_right t ∧ ¬ exposes_children t ∧ ¬ mapping_with_value t) →
  TreeBuilder._tree_to_networkx str limit t = Ok empty_graph.
Proof.
  intros [-> | (Hlr & Hch & Hmap)]; [done |].
  unfold TreeBuilder._tree_to_networkx, hasattr.
  destruct (py_getattr t "left") as [l|] eqn:Hl, (py_getattr t "right") as [r|] eqn:Hr;
    try (exfalso; apply Hlr; by exists l, r).
  all: destruct (py_getattr t "children") as [c|] eqn:Hc;
    try (exfalso; apply Hch; by exists c).
  all: rewrite ?bool_decide_eq_true_2 by eauto; rewrite ?bool_decide_eq_false_2
    by (intros [? ?]; discriminate); simpl.
  all: destruct t as [| | | |items|d|name attrs]; try done; simpl.
  all: destruct (entry "value" d) as [v|] eqn:Hv;
    [exfalso; apply Hmap; by exists d, v |].
  all: rewrite bool_decide_eq_false_2 by (intros [? ?]; discriminate); done.
Qed.

Lemma C7_no_shape_empty_graph_witness :
  TreeBuilder._tree_to_networkx py_str 1000 (PInt 5) = Ok empty_graph
  ∧ TreeBuilder._tree_to_networkx py_str 1000 (PDict [(PStr "key", PInt 1)])
    = Ok empty_graph.
Proof.
  split; apply C7_no_shape_empty_graph; right.
  - repeat split; [intros (? & ? & ? & ?) | intros (? & ?) | intros (? & ? & ? & ?)];
      discriminate.
  - repeat split; [intros (? & ? & ? & ?) | intros (? & ?) |]; try discriminate.
    intros (d & v & [= <-] & Hv). discriminate.
Defined.

(** C9, as stated: under each of the three shapes every visited node is
    labelled with the string form of its [val] attribute, else of its
    [value] attribute, else of itself.  Under the mapping shape the label
    comes from the ['value'] entry, and is the empty string without one. *)
Lemma C9_stated_label_refuted :
  ¬ ∀ (str : pyval → string) (limit : nat) (t : pyval) (s : shape) (G : DiGraph),
      shape_of t = Some s →
      TreeBuilder._tree_to_networkx str limit t = Ok G →
      ∃ ns, preorder s t ns
            ∧ nodes G = imap (λ i n, (i, Some (stated_label str n))) ns.
Proof.
  intros H.
  destruct (H py_str 2 example_mapping Mapping
              {| nodes := [(0, Some "1"); (1, Some "")]; edges := [(0, 1)] |})
    as (ns & Hpre & Hnodes); [done | done |].
  inversion Hpre as [node kids below Hkids Hbelow]; subst.
  vm_compute in Hkids. injection Hkids as <-.
  inversion Hbelow as [|kid ns1 kids' below' Hkid Hrest]; subst.
  inversion Hrest; subst.
  inversion Hkid as [node kids below Hkids Hbelow']; subst.
  vm_compute in Hkids. injection Hkids as <-.
  inversion Hbelow'; subst.
  vm_compute in Hnodes. discriminate.
Qed.

(** The child of that tree is labelled with the empty string, which is
    neither an attribute nor an entry of it nor its own string form. *)
Lemma mapping_child_without_value :
  TreeBuilder._tree_to_networkx py_str 2 example_mapping
  = Ok {| nodes := [(0, Some "1"); (1, Some "")]; edges := [(0, 1)] |}
  ∧ py_str (PDict [(PStr "id", PInt 2)]) = "{'id': 2}".
Proof. split; vm_compute; reflexivity. Qed.

(** C9, amended: the nodes of the graph are the nodes a preorder walk
    visits, numbered from 0 in that order; under the left/right and the
    children-list shapes a node is labelled with the string form of its
    [val] attribute, else of its [value] attribute, else of itself; under
    the mapping shape with the string form of its ['value'] entry, of the
    empty string when it has none. *)
Theorem C9_labels (str : pyval → string) (limit : nat) (t : pyval) (s : shape)
    (G : DiGraph) :
  shape_of t = Some s →
  TreeBuilder._tree_to_networkx str limit t = Ok G →
  ∃ ns, preorder s t ns
        ∧ nodes G = imap (λ i n, (i, Some (match s with
                                           | Binary | Children => stated_label str n
                                           | Mapping => entry_label str n
                                           end))) ns.
Proof.
  intros Hs Hrun. pose proof (shape_not_None t s Hs) as Hnn.
  unfold shape_of in Hs. unfold TreeBuilder._tree_to_networkx in Hrun.
  destruct (hasattr t "left" && hasattr t "right");
    [| destruct (hasattr t "children");
       [| destruct (isinstance_dict t && dict_contains t "value")]];
    try discriminate; injection Hs as <-.
  - apply (add_nodes_binary_visits str limit t 0 _ G [] entering_empty Hnn Hrun).
  - apply (add_nodes_children_visits str limit t 0 _ G [] entering_empty Hnn Hrun).
  - apply (add_nodes_dict_visits str limit t 0 _ G [] entering_empty Hnn Hrun).
Qed.

(** On a binary tree of [TreeNode] instances no higher than the nesting
    the interpreter allows, the builder returns a graph, whose nodes are
    those of the preorder walk with their labels. *)
Lemma binary_tree_graph (str : pyval → string) (limit h : nat) (t : pyval) :
  binary_tree h t → t ≠ PNone → h ≤ limit →
  ∃ G ns, TreeBuilder._tree_to_networkx str limit t = Ok G
          ∧ preorder Binary t ns
          ∧ nodes G = numbered str Binary 0 ns.
Proof.
  intros Ht Hnn Hh. destruct Ht as [|name val l r hl hr Hl Hr]; [done |].
  destruct (add_nodes_binary_returns str _ _ (binary_node name val l r hl hr Hl Hr)
              limit 0 empty_graph Hh eq_refl) as [G HG].
  destruct (add_nodes_binary_visits str limit
              (PObj name [("val", PInt val); ("left", l); ("right", r)]) 0
              empty_graph G [] entering_empty eq_refl HG)
    as (ns & Hpre & Hnodes).
  exists G, ns. split; [exact HG | done].
Qed.

Lemma C9_labels_witness :
  ∃ ns, preorder Binary example_tree ns
        ∧ [(0, Some "1"); (1, Some "2"); (2, Some "4"); (3, Some "3")]
          = imap (λ i n, (i, Some (stated_label py_str n))) ns.
Proof.
  apply (C9_labels py_str 1000 example_tree Binary
           {| nodes := [(0, Some "1"); (1, Some "2"); (2, Some "4"); (3, Some "3")];
              edges := [(0, 1); (1, 2); (0, 3)] |}).
  - reflexivity.
  - vm_compute. reflexivity.
Defined.

(** ** The visualizers *)

Lemma get_snapshot_empty {S} (tracer : DataStructureTracer S) (step : Z) :
  snapshots tracer = [] → get_snapshot tracer step = Ok (None, ∅).
Proof. unfold get_snapshot. by intros ->. Qed.

(** C10: when the snapshot shown is an empty stack or an empty queue,
    [display_snapshot] of the stack and of the queue visualizer raise the
    unbound-local error at the axis limits, so no frame is produced. *)
Theorem C10_empty_stack_queue_unbound (str : pyval → string)
    (tracer : DataStructureTracer (list pyval)) (step : Z) (md : Metadata)
    (highlight show_code : bool) (title : option string) :
  get_snapshot tracer step = Ok (Some [], md) →
  StackVisualizer.display_snapshot str tracer step highlight title
  = Raise UnboundLocalError
  ∧ QueueVisualizer.display_snapshot str tracer step highlight show_code title
    = Raise UnboundLocalError.
Proof.
  intros Hsnap.
  unfold StackVisualizer.display_snapshot, QueueVisualizer.display_snapshot.
  rewrite Hsnap. split; reflexivity.
Qed.

Lemma C10_empty_stack_queue_unbound_witness :
  StackVisualizer.display_snapshot py_str initial_state 0 true None
  = Raise UnboundLocalError
  ∧ QueueVisualizer.display_snapshot py_str initial_state 0 true true None
    = Raise UnboundLocalError.
Proof.
  apply (C10_empty_stack_queue_unbound py_str initial_state 0
           (<["description" := PStr "Initial state"]> {["step" := PInt 0]})).
  reflexivity.
Defined.

Section ListRanges.
Variable str : pyval → string.
Variable py_eq : pyval → pyval → bool.




End ListRanges.


Section GraphEdges.
Variable str : pyval → string.
Variable py_eq : pyval → pyval → bool.
Variable py_in : pyval → pyval → result bool.
Variables Pos RNG : Type.
Variable spring_layout : NxGraph → RNG → Pos * RNG.
Variables circular_layout kamada_kawai_layout shell_layout : NxGraph → Pos.

Lemma edge_colors_length (G : NxGraph) (highlight_edges : option (list (pyval * pyval)))
    (colors : list string) :
  GraphVisualizer.edge_colors py_eq G highlight_edges = Ok colors →
  length colors = length (g_edges G).
Proof.
  unfold GraphVisualizer.edge_colors. destruct (given highlight_edges).
  - destruct (forallb _ _); [| discriminate]. intros [= <-]. by rewrite length_map.
  - intros [= <-]. by rewrite length_replicate.
Qed.

Lemma edge_colors_red (G : NxGraph) (highlight_edges : option (list (pyval * pyval)))
    (colors : list string) (i : nat) (e : NxEdge) :
  GraphVisualizer.edge_colors py_eq G highlight_edges = Ok colors →
  g_edges G !! i = Some e →
  (colors !! i = Some "red"
   ↔ ∃ u v, (u, v) ∈ default [] highlight_edges
            ∧ (GraphVisualizer.edge_eq py_eq e (u, v) = true
               ∨ GraphVisualizer.edge_eq py_eq e (v, u) = true))
  ∧ (colors !! i = Some "red" ∨ colors !! i = Some "#666666").
Proof.
  intros Hcolors He. unfold GraphVisualizer.edge_colors in Hcolors.
  destruct highlight_edges as [[|uv hl]|]; simpl given in Hcolors; cbv iota in Hcolors.
  2: {
    remember (uv :: hl) as hl' eqn:Hhl'. clear Hhl'. simpl default in *.
    destruct (forallb _ _); [| discriminate]. injection Hcolors as <-.
    rewrite list_lookup_fmap, He. simpl.
    destruct (existsb _ _) eqn:Hex.
    - split; [| by left]. split; [intros _ | done].
      apply existsb_exists in Hex as ([a b] & Hin & Heq).
      apply in_app_iff in Hin as [Hin | Hin];
        apply in_map_iff in Hin as ([u v] & [= <- <-] & Hin);
        apply list_elem_of_In in Hin; eauto.
    - split; [| by right]. split; [discriminate |]. intros (u & v & Hin & Heq).
      apply list_elem_of_In in Hin.
      assert (existsb (GraphVisualizer.edge_eq py_eq e)
                (map (λ '(u, v), (u, v)) hl' ++ map (λ '(u, v), (v, u)) hl') = true)
        as Hex'; [| congruence].
      apply existsb_exists. destruct Heq as [Heq | Heq].
      + exists (u, v). split; [| done]. apply in_app_iff. left.
        apply in_map_iff. by exists (u, v).
      + exists (v, u). split; [| done]. apply in_app_iff. right.
        apply in_map_iff. by exists (u, v).
  }
  all: injection Hcolors as <-; simpl default.
  all: assert (Hi : replicate (length (g_edges G)) "#666666" !! i = Some "#666666")
    by (apply lookup_replicate_2; by eapply lookup_lt_Some).
  all: rewrite Hi; split; [| by right].
  all: split; [discriminate | intros (u & v & Hin & _); by apply elem_of_nil in Hin].
Qed.

Lemma edge_colors_unhashable (G : NxGraph) (highlight_edges : option (list (pyval * pyval)))
    (u v : pyval) :
  (u, v) ∈ default [] highlight_edges → hashable u && hashable v = false →
  GraphVisualizer.edge_colors py_eq G highlight_edges = Raise TypeError.
Proof.
  intros Hin Hhash. unfold GraphVisualizer.edge_colors.
  destruct highlight_edges as [[|uv hl]|]; simpl in Hin; try by apply elem_of_nil in Hin.
  remember (uv :: hl) as hl' eqn:Hhl'. simpl given. rewrite Hhl' at 1. cbv iota.
  simpl default. clear Hhl'.
  destruct (forallb _ _) eqn:Hall; [| done].
  rewrite forallb_forall in Hall. apply list_elem_of_In in Hin.
  specialize (Hall _ Hin). simpl in Hall. congruence.
Qed.

(** C5, amended: in the frame [display_snapshot] shows for a graph with
    nodes, every edge is coloured red or in the default colour.  An edge
    [G.edges] yields as a pair (a [Graph], a [DiGraph]) is red exactly
    when its end points are those of a pair of the highlight list, in
    that order or the other; an edge it yields with a key (a
    [MultiGraph]) is never red.  No frame is shown when an end point of
    the highlight list cannot be hashed: the call raises the type error. *)
Theorem C5_edge_highlight_undirected
    (tracer : DataStructureTracer GraphData) (step : Z) (G : NxGraph) (md : Metadata)
    (highlight_nodes : option (list pyval))
    (highlight_edges : option (list (pyval * pyval)))
    (layout : string) (title : option string) (show_code : bool) (rng rng' : RNG)
    (frame : GraphVisualizer.GFrame Pos) :
  get_snapshot tracer step = Ok (Some (IsGraph G), md) →
  g_nodes G ≠ [] →
  (GraphVisualizer.display_snapshot str py_eq Pos RNG spring_layout circular_layout
     kamada_kawai_layout shell_layout tracer step highlight_nodes highlight_edges
     layout title show_code rng = (Ok (Shown frame), rng') →
   ∃ d colors,
     f_artists frame = [Drawing d] ∧ d_graph d = G
     ∧ d_edge_color d = ColorList colors
     ∧ length colors = length (g_edges G)
     ∧ ∀ i e, g_edges G !! i = Some e →
         (colors !! i = Some "red" ∨ colors !! i = Some "#666666")
         ∧ (∀ a b, e = Pair a b →
              colors !! i = Some "red"
              ↔ ∃ u v, (u, v) ∈ default [] highlight_edges
                       ∧ (py_eq a u && py_eq b v = true
                          ∨ py_eq a v && py_eq b u = true))
         ∧ (∀ a b key, e = Keyed a b key → colors !! i = Some "#666666"))
  ∧ (∀ u v, (u, v) ∈ default [] highlight_edges →
       hashable u && hashable v = false →
       (GraphVisualizer.display_snapshot str py_eq Pos RNG spring_layout
          circular_layout kamada_kawai_layout shell_layout tracer step
          highlight_nodes highlight_edges layout title show_code rng).1
       = Raise TypeError).
Proof.
  intros Hsnap Hnodes. unfold GraphVisualizer.display_snapshot. rewrite Hsnap.
  destruct (g_nodes G) as [|n ns] eqn:Hn; [done |].
  destruct (GraphVisualizer.select_layout _ _ _ _ _ _ _ _ _) as [pos rng1].
  split.
  - intros Hshow.
    destruct (GraphVisualizer.edge_colors py_eq G highlight_edges) as [colors|err]
      eqn:Hcolors; simpl in Hshow; [| congruence].
    destruct (display_title str title md) as [t|err]; simpl in Hshow; [| congruence].
    injection Hshow as <- <-. simpl.
    eexists _, _. split; [reflexivity |]. simpl. split; [done |]. split; [done |].
    split; [by eapply edge_colors_length |].
    intros i e He.
    destruct (edge_colors_red _ _ _ i e Hcolors He) as [Hred Heither].
    split; [done |]. split.
    + intros a b ->. rewrite Hred. by simpl.
    + intros a b key ->. destruct Heither as [Hr | Hd]; [| done].
      apply Hred in Hr as (u & v & _ & [Hf | Hf]); discriminate.
  - intros u v Hin Hhash.
    by rewrite (edge_colors_unhashable G highlight_edges u v Hin Hhash).
Qed.

End GraphEdges.

(** Highlighting (1, 2) colours the edge stored as (2, 1). *)
Example highlight_1_2_matches_2_1 :
  GraphVisualizer.edge_colors py_eq_atoms
    {| g_nodes := [PInt 2; PInt 1]; g_edges := [Pair (PInt 2) (PInt 1)] |}
    (Some [(PInt 1, PInt 2)]) = Ok ["red"].
Proof. reflexivity. Qed.

(** C5, as stated: for every graph snapshot, a stored edge is coloured
    as highlighted exactly when its end points are (u, v) or (v, u) for
    some (u, v) of the highlight list.  A [MultiGraph] is a graph
    snapshot, and its edge between 1 and 2 stays in the default colour
    when (1, 2) is highlighted. *)
Lemma C5_multigraph_edge_not_highlighted :
  ¬ ∀ (tracer : DataStructureTracer GraphData) (step : Z) (G : NxGraph) (md : Metadata)
      (highlight_edges : option (list (pyval * pyval))) (rng rng' : nat)
      (frame : GraphVisualizer.GFrame nat),
      get_snapshot tracer step = Ok (Some (IsGraph G), md) →
      g_nodes G ≠ [] →
      GraphVisualizer.display_snapshot py_str py_eq_atoms nat nat seeded_layout
        (λ _, 0) (λ _, 0) (λ _, 0) tracer step None highlight_edges "spring" None
        false rng = (Ok (Shown frame), rng') →
      ∃ d colors,
        f_artists frame = [Drawing d]
        ∧ d_edge_color d = ColorList colors
        ∧ ∀ i e, g_edges G !! i = Some e →
            (colors !! i = Some "red"
             ↔ ∃ u v, (u, v) ∈ default [] highlight_edges
                      ∧ (py_eq_atoms (ends e).1 u && py_eq_atoms (ends e).2 v = true
                         ∨ py_eq_atoms (ends e).1 v && py_eq_atoms (ends e).2 u = true)).
Proof.
  intros H.
  destruct (H multi_edge_1_2 0%Z
              {| g_nodes := [PInt 1; PInt 2];
                 g_edges := [Keyed (PInt 1) (PInt 2) (PInt 0)] |}
              {["step" := PInt 0]} (Some [(PInt 1, PInt 2)]) 0 1 _
              eq_refl ltac:(discriminate) eq_refl)
    as (d & colors & Hd & Hc & Hred).
  injection Hd as <-. injection Hc as <-.
  destruct (Hred 0 (Keyed (PInt 1) (PInt 2) (PInt 0)) eq_refl) as [_ Hback].
  discriminate Hback. exists (PInt 1), (PInt 2). split; [| by left].
  by apply list_elem_of_singleton.
Qed.

Lemma C5_edge_highlight_undirected_witness :
  (∃ d colors,
     f_artists
       {| f_artists :=
            [Drawing {| d_graph := {| g_nodes := [PInt 2; PInt 1];
                                      g_edges := [Pair (PInt 2) (PInt 1)] |};
                        d_pos := 0;
                        d_node_color := ColorList ["#aed9e6"; "#aed9e6"];
                        d_edge_color := ColorList ["red"];
                        d_kw := [("node_size", "1500"); ("with_labels", "True");
                                 ("font_size", "10")];
                        d_labels := None |}];
          f_title := Some "Step 0"; f_xlim := None; f_ylim := None;
          f_axis_off := true; f_code := None |} = [Drawing d]
     ∧ d_graph d = {| g_nodes := [PInt 2; PInt 1];
                      g_edges := [Pair (PInt 2) (PInt 1)] |}
     ∧ d_edge_color d = ColorList colors
     ∧ length colors = 1
     ∧ ∀ i e, [Pair (PInt 2) (PInt 1)] !! i = Some e →
         (colors !! i = Some "red" ∨ colors !! i = Some "#666666")
         ∧ (∀ a b, e = Pair a b →
              colors !! i = Some "red"
              ↔ ∃ u v, (u, v) ∈ [(PInt 1, PInt 2)]
                       ∧ (py_eq_atoms a u && py_eq_atoms b v = true
                          ∨ py_eq_atoms a v && py_eq_atoms b u = true))
         ∧ (∀ a b key, e = Keyed a b key → colors !! i = Some "#666666"))
  ∧ (GraphVisualizer.display_snapshot py_str py_eq_atoms nat nat seeded_layout
       (λ _, 0) (λ _, 0) (λ _, 0) edge_2_1 0 None (Some [(PList [PInt 1], PInt 2)])
       "spring" None false 0).1
    = Raise TypeError.
Proof.
  split.
  - apply (C5_edge_highlight_undirected py_str py_eq_atoms nat nat
             seeded_layout (λ _, 0) (λ _, 0) (λ _, 0) edge_2_1 0
             {| g_nodes := [PInt 2; PInt 1]; g_edges := [Pair (PInt 2) (PInt 1)] |}
             {["step" := PInt 0]} None (Some [(PInt 1, PInt 2)]) "spring" None false
             0 1).
    + reflexivity.
    + discriminate.
    + reflexivity.
  - apply (C5_edge_highlight_undirected py_str py_eq_atoms nat nat
             seeded_layout (λ _, 0) (λ _, 0) (λ _, 0) edge_2_1 0
             {| g_nodes := [PInt 2; PInt 1]; g_edges := [Pair (PInt 2) (PInt 1)] |}
             {["step" := PInt 0]} None (Some [(PList [PInt 1], PInt 2)]) "spring"
             None false 0 1
             (GraphVisualizer.empty_frame nat "") eq_refl ltac:(discriminate))
      with (u := PList [PInt 1]) (v := PInt 2).
    + by apply list_elem_of_singleton.
    + reflexivity.
Defined.

Section NoData.
Variable str : pyval → string.
Variable py_eq : pyval → pyval → bool.
Variable py_in : pyval → pyval → result bool.
Variable limit : nat.
Variables GPos TPos RNG : Type.
Variable g_spring : NxGraph → RNG → GPos * RNG.
Variables g_circular g_kamada_kawai g_shell : NxGraph → GPos.
Variable t_spring : DiGraph → RNG → TPos * RNG.
Variable t_circular : DiGraph → TPos.
Variable t_graphviz : DiGraph → option TPos.

(** C6: on an empty trace store every visualizer's [display_snapshot]
    prints its no-data message and shows no frame, and every
    [create_animation] prints its message and returns no animation; none
    of the calls raises. *)
Theorem C6_empty_store_no_data
    (lists : DataStructureTracer (list pyval))
    (dicts : DataStructureTracer (list (pyval * pyval)))
    (graphs : DataStructureTracer GraphData)
    (trees : DataStructureTracer pyval)
    (step interval : Z) (repeat flag show_code : bool) (title : option string)
    (layout : string) (rng : RNG)
    (highlight_indices : option (list Z))
    (highlight_values highlight_keys highlight_nodes : option (list pyval))
    (highlight_range : option (list (Z * Z)))
    (highlight_edges : option (list (pyval * pyval))) :
  snapshots lists = [] → snapshots dicts = [] →
  snapshots graphs = [] → snapshots trees = [] →
  (ListVisualizer.display_snapshot str py_eq lists step highlight_indices
     highlight_values highlight_range title flag
   = Ok (Printed "No data available")
   ∧ ListVisualizer.create_animation str lists interval repeat flag
     = Printed "No snapshots available")
  ∧ (StackVisualizer.display_snapshot str lists step flag title
     = Ok (Printed "No data available")
     ∧ StackVisualizer.create_animation str lists interval repeat
       = Printed "No snapshots available")
  ∧ (QueueVisualizer.display_snapshot str lists step flag show_code title
     = Ok (Printed "No data available")
     ∧ QueueVisualizer.create_animation str lists interval repeat show_code
       = Printed "No snapshots available")
  ∧ (DictionaryVisualizer.display_snapshot str py_eq dicts step highlight_keys
       highlight_values title
     = Ok (Printed "No data available")
     ∧ DictionaryVisualizer.create_animation str py_eq dicts interval repeat
       = Printed "No snapshots available")
  ∧ (GraphVisualizer.display_snapshot str py_eq GPos RNG g_spring g_circular
       g_kamada_kawai g_shell graphs step highlight_nodes highlight_edges layout
       title show_code rng
     = (Ok (Printed "No data available"), rng)
     ∧ GraphVisualizer.create_animation str py_in GPos RNG g_spring g_circular
         g_kamada_kawai g_shell graphs interval repeat layout rng
       = (Printed "No snapshots available", rng))
  ∧ (TreeVisualizer.display_snapshot str limit TPos RNG t_spring t_circular
       t_graphviz trees step highlight_nodes layout title rng
     = (Ok (Printed "No data available"), rng)
     ∧ TreeVisualizer.create_animation str limit TPos RNG t_spring t_circular
         t_graphviz trees interval repeat layout
       = Printed "No snapshots available").
Proof.
  intros Hl Hd Hg Ht.
  unfold ListVisualizer.display_snapshot, StackVisualizer.display_snapshot,
    QueueVisualizer.display_snapshot, DictionaryVisualizer.display_snapshot,
    GraphVisualizer.display_snapshot, TreeVisualizer.display_snapshot,
    ListVisualizer.create_animation, StackVisualizer.create_animation,
    QueueVisualizer.create_animation, DictionaryVisualizer.create_animation,
    GraphVisualizer.create_animation, TreeVisualizer.create_animation.
  rewrite (get_snapshot_empty lists step Hl), (get_snapshot_empty dicts step Hd),
    (get_snapshot_empty graphs step Hg), (get_snapshot_empty trees step Ht).
  rewrite Hl, Hd, Hg, Ht. repeat split.
Qed.

End NoData.

Lemma C6_empty_store_no_data_witness :
  (ListVisualizer.display_snapshot py_str py_eq_atoms no_steps 0 None None None None
     true
   = Ok (Printed "No data available")
   ∧ ListVisualizer.create_animation py_str no_steps 1000 false true
     = Printed "No snapshots available")
  ∧ (StackVisualizer.display_snapshot py_str no_steps 0 true None
     = Ok (Printed "No data available")
     ∧ StackVisualizer.create_animation py_str no_steps 1000 false
       = Printed "No snapshots available")
  ∧ (QueueVisualizer.display_snapshot py_str no_steps 0 true true None
     = Ok (Printed "No data available")
     ∧ QueueVisualizer.create_animation py_str no_steps 1000 false true
       = Printed "No snapshots available")
  ∧ (DictionaryVisualizer.display_snapshot py_str py_eq_atoms no_steps 0 None None
       None
     = Ok (Printed "No data available")
     ∧ DictionaryVisualizer.create_animation py_str py_eq_atoms no_steps 1000 false
       = Printed "No snapshots available")
  ∧ (GraphVisualizer.display_snapshot py_str py_eq_atoms nat nat seeded_layout
       (λ _, 0) (λ _, 0) (λ _, 0) no_steps 0 None None "spring" None true 0
     = (Ok (Printed "No data available"), 0)
     ∧ GraphVisualizer.create_animation py_str (λ _ _, Ok false) nat nat
         seeded_layout (λ _, 0) (λ _, 0) (λ _, 0) no_steps 1000 false "spring" 0
       = (Printed "No snapshots available", 0))
  ∧ (TreeVisualizer.display_snapshot py_str 1000 nat nat seeded_layout (λ _, 0)
       (λ _, None) no_steps 0 None "spring" None 0
     = (Ok (Printed "No data available"), 0)
     ∧ TreeVisualizer.create_animation py_str 1000 nat nat seeded_layout (λ _, 0)
         (λ _, None) no_steps 1000 false "spring"
       = Printed "No snapshots available").
Proof.
  apply (C6_empty_store_no_data py_str py_eq_atoms (λ _ _, Ok false) 1000 nat nat nat
           seeded_layout (λ _, 0) (λ _, 0) (λ _, 0) seeded_layout (λ _, 0)
           (λ _, None) no_steps no_steps no_steps no_steps 0 1000 false true true
           None "spring" 0 None None None None None None);
    reflexivity.
Defined.

(** ** Titles *)

Lemma append_same (a s : string) : a +:+ s = a → s = "".
Proof.
  induction a as [|c a IH]; simpl; [done |]. intros [= H]. by apply IH.
Qed.

Lemma described_not_bare (n d : string) :
  "Step " +:+ n +:+ ": " +:+ d ≠ "Step " +:+ n.
Proof.
  intros [= H]. change (n +:+ ": " +:+ d = n) in H.
  apply append_same in H. discriminate.
Qed.

(** The title block shared by every [display_snapshot] and by the
    [update] of list, queue, dictionary, graph and tree follows the
    stated precedence. *)
Lemma title_precedence (str : pyval → string) (title : option string)
    (md : Metadata) (t : string) (step : pyval) :
  md !! "step" = Some step →
  (title = Some t → t ≠ "" → display_title str title md = Ok t)
  ∧ (title_given title = false → has_description md = false →
     display_title str title md = Ok ("Step " +:+ str step))
  ∧ (has_description md = false →
     update_title str md = Ok ("Step " +:+ str step))
  ∧ (∀ d, md !! "description" = Some d → truthy d = true →
     update_title str md = Ok ("Step " +:+ str step +:+ ": " +:+ str d)
     ∧ (title_given title = false →
        display_title str title md = Ok ("Step " +:+ str step +:+ ": " +:+ str d))).
Proof.
  intros Hstep. unfold display_title, update_title, step_only, step_description.
  rewrite Hstep. simpl. split; [| split; [| split; [| intros d Hd Ht; split]]].
  - intros -> Ht. simpl. destruct (String.eqb_spec t ""); done.
  - by intros -> ->.
  - by intros ->.
  - unfold has_description. rewrite Hd. simpl. by rewrite Ht.
  - intros ->. unfold has_description. rewrite Hd. simpl. by rewrite Ht.
Qed.

Section TitleFacts.
Variable str : pyval → string.

Lemma display_title_stated (title : option string) (md : Metadata) (t : string) :
  display_title str title md = Ok t → stated_title str title md t.
Proof.
  unfold display_title, step_description, step_only.
  destruct (title_given title) eqn:Hgiven.
  - destruct title as [t'|]; [| discriminate]. intros [= <-]. simpl.
    apply title_explicit; [done |]. simpl in Hgiven.
    intros ->. discriminate.
  - destruct (has_description md) eqn:Hdesc; intros Ht.
    + ok_inv Ht. ok_inv Ht. injection Ht as <-.
      apply from_opt_Ok in Ha, Ha0.
      apply title_described; try done.
      unfold has_description in Hdesc. by rewrite Ha0 in Hdesc.
    + ok_inv Ht. injection Ht as <-. apply from_opt_Ok in Ha.
      by apply title_bare.
Qed.

Lemma update_title_stated (md : Metadata) (t : string) :
  update_title str md = Ok t → stated_title str None md t.
Proof. apply (display_title_stated None). Qed.

End TitleFacts.

(** The stack animation does not follow the precedence: for a step
    captured without a description its frame is titled ["Step 0: "], with
    the colon, and not the bare ["Step 0"] that the title block of the
    other animations gives for the same metadata. *)
Lemma stack_animation_title_colon (str : pyval → string) :
  ∃ anim frame,
    StackVisualizer.create_animation str undescribed_stack 1000 false = Shown anim
    ∧ func anim 0 = Ok frame
    ∧ f_title frame = Some ("Step " +:+ str (PInt 0) +:+ ": " +:+ str (PStr ""))
    ∧ f_title frame ≠ Some ("Step " +:+ str (PInt 0))
    ∧ update_title str {["step" := PInt 0]} = Ok ("Step " +:+ str (PInt 0)).
Proof.
  eexists _, _. split; [reflexivity |]. split; [reflexivity |].
  split; [reflexivity |]. split; [| reflexivity].
  intros H. apply (f_equal (default "")) in H.
  exact (described_not_bare (str (PInt 0)) (str (PStr "")) H).
Qed.

(** C4, as stated: every frame of [display_snapshot] carries the caller's
    title when one is given.  The frame shown for a graph without nodes
    only says so and has no title. *)
Lemma C4_placeholder_untitled :
  ¬ ∀ (tracer : DataStructureTracer GraphData) (step : Z) (layout t : string)
      (show_code : bool) (rng rng' : nat) (frame : GraphVisualizer.GFrame nat),
      t ≠ "" →
      GraphVisualizer.display_snapshot py_str py_eq_atoms nat nat seeded_layout
        (λ _, 0) (λ _, 0) (λ _, 0) tracer step None None layout (Some t) show_code rng
      = (Ok (Shown frame), rng') →
      f_title frame = Some t.
Proof.
  intros H.
  specialize (H empty_graph_step 0%Z "spring" "My graph" false 0 0
                (GraphVisualizer.empty_frame nat "Empty Graph")).
  discriminate H; [discriminate | reflexivity].
Qed.

Section Titles.
Variable str : pyval → string.
Variable py_eq : pyval → pyval → bool.
Variable py_in : pyval → pyval → result bool.
Variable limit : nat.
Variables GPos TPos RNG : Type.
Variable g_spring : NxGraph → RNG → GPos * RNG.
Variables g_circular g_kamada_kawai g_shell : NxGraph → GPos.
Variable t_spring : DiGraph → RNG → TPos * RNG.
Variable t_circular : DiGraph → TPos.
Variable t_graphviz : DiGraph → option TPos.

Ltac shown H :=
  repeat (let a := fresh "a" in let Ha := fresh "Ha" in
          apply bind_Ok in H as (a & Ha & H));
  repeat match goal with
         | Hx : from_opt _ _ = Ok _ |- _ => apply from_opt_Ok in Hx
         end.

Lemma not_placeholder_nil {D} (frame : Frame D) :
  f_artists frame = [] → ¬ placeholder frame.
Proof. intros H (msg & _ & H'). rewrite H in H'. discriminate. Qed.

Lemma not_placeholder_rectangle {D} (frame : Frame D) xy w h kw rest :
  f_artists frame = Rectangle xy w h kw :: rest → ¬ placeholder frame.
Proof. intros H (msg & _ & H'). rewrite H in H'. discriminate. Qed.

Lemma not_placeholder_drawing {D} (frame : Frame D) d rest :
  f_artists frame = Drawing d :: rest → ¬ placeholder frame.
Proof. intros H (msg & _ & H'). rewrite H in H'. discriminate. Qed.

Lemma not_placeholder_text {D} (frame : Frame D) x y msg kw :
  f_artists frame = [Text x y msg kw] →
  msg ∉ ["Empty Graph"; "Empty Tree"; "Unsupported Graph Type"] →
  ¬ placeholder frame.
Proof.
  intros H Hmsg (msg' & Hin & H'). rewrite H in H'. injection H' as _ _ -> _.
  done.
Qed.

Lemma placeholder_titled {D} (title : option string) (md : Metadata) (msg : string) :
  msg ∈ ["Empty Graph"; "Empty Tree"; "Unsupported Graph Type"] →
  titled (D := D) str title md
    {| f_artists := [ Text (1#2) (1#2) msg [("ha", "center"); ("va", "center")] ];
       f_title := None; f_xlim := None; f_ylim := None; f_axis_off := true;
       f_code := None |}.
Proof. intros Hmsg. left. split; [by exists msg | done]. Qed.

Lemma no_boxes_on_empty (cell_width : Q) (ranges : list (Z * Z)) :
  concat (map (ListVisualizer.range_box 0 cell_width) ranges) = [].
Proof.
  induction ranges as [|[start end_] ranges IH]; [done |]. simpl. rewrite IH.
  unfold ListVisualizer.range_box.
  rewrite (bool_decide_eq_false_2 (0 ≤ start < Z.of_nat 0)%Z) by lia. done.
Qed.

Ltac drawn_by lem :=
  right; split; [| eexists; split; [reflexivity | by apply lem]].

Lemma list_display_titled tracer step data md hi hv hr title show frame :
  get_snapshot tracer step = Ok (Some data, md) →
  ListVisualizer.display_snapshot str py_eq tracer step hi hv hr title show
  = Ok (Shown frame) →
  titled str title md frame.
Proof.
  intros Hsnap H. unfold ListVisualizer.display_snapshot in H.
  rewrite Hsnap in H. cbn [mbind result_bind] in H. shown H. injection H as <-.
  drawn_by display_title_stated.
  destruct data as [|x xs].
  - apply not_placeholder_nil. cbn [f_artists length imap concat app].
    destruct (given hr); [apply no_boxes_on_empty | done].
  - eapply not_placeholder_rectangle. reflexivity.
Qed.

Lemma list_update_titled tracer interval repeat show anim i md frame :
  ListVisualizer.create_animation str tracer interval repeat show = Shown anim →
  metadata tracer !! i = Some md → func anim i = Ok frame →
  titled str None md frame.
Proof.
  unfold ListVisualizer.create_animation.
  destruct (snapshots tracer) eqn:Hs; [discriminate |]. intros [= <-] Hmd H.
  cbn [func] in H. rewrite Hmd in H. shown H. injection Ha0 as <-. injection H as <-.
  drawn_by update_title_stated.
  destruct a as [|x xs].
  - by apply not_placeholder_nil.
  - eapply not_placeholder_rectangle. reflexivity.
Qed.

Lemma stack_display_titled tracer step data md highlight title frame :
  get_snapshot tracer step = Ok (Some data, md) →
  StackVisualizer.display_snapshot str tracer step highlight title
  = Ok (Shown frame) →
  titled str title md frame.
Proof.
  intros Hsnap H. unfold StackVisualizer.display_snapshot in H.
  rewrite Hsnap in H. cbn [mbind result_bind] in H.
  destruct data as [|x xs]; [discriminate |].
  change (length (x :: xs) =? 0) with false in H.
  cbn [from_opt mbind result_bind] in H. shown H. injection H as <-.
  drawn_by display_title_stated.
  eapply not_placeholder_rectangle. reflexivity.
Qed.

Lemma queue_display_titled tracer step data md highlight show_code title frame :
  get_snapshot tracer step = Ok (Some data, md) →
  QueueVisualizer.display_snapshot str tracer step highlight show_code title
  = Ok (Shown frame) →
  titled str title md frame.
Proof.
  intros Hsnap H. unfold QueueVisualizer.display_snapshot in H.
  rewrite Hsnap in H. cbn [mbind result_bind] in H.
  destruct data as [|x xs]; [discriminate |].
  change (length (x :: xs) =? 0) with false in H.
  cbn [from_opt mbind result_bind] in H. shown H. injection H as <-.
  drawn_by display_title_stated.
  eapply not_placeholder_rectangle. reflexivity.
Qed.

Lemma queue_update_titled tracer interval repeat show_code anim i md frame :
  QueueVisualizer.create_animation str tracer interval repeat show_code = Shown anim →
  metadata tracer !! i = Some md → func anim i = Ok frame →
  titled str None md frame.
Proof.
  unfold QueueVisualizer.create_animation.
  destruct (snapshots tracer) eqn:Hs; [discriminate |]. intros [= <-] Hmd H.
  cbn [func] in H. rewrite Hmd in H. shown H. injection Ha0 as <-.
  destruct a as [|x xs]; [discriminate |].
  change (length (x :: xs) =? 0) with false in H.
  cbn [from_opt mbind result_bind] in H. shown H. injection H as <-.
  drawn_by update_title_stated.
  eapply not_placeholder_rectangle. reflexivity.
Qed.

Lemma dict_grid_not_placeholder (frame : Frame no_drawing) hk hv
    (items : list (pyval * pyval)) :
  f_artists frame = DictionaryVisualizer.grid str py_eq hk hv items →
  ¬ placeholder frame.
Proof.
  intros H. destruct items as [|[key value] items].
  - eapply not_placeholder_text; [exact H |].
    rewrite !elem_of_cons, elem_of_nil. intros [? | [? | [? | []]]]; discriminate.
  - eapply not_placeholder_rectangle. rewrite H. reflexivity.
Qed.

Lemma dict_display_titled tracer step data md hk hv title frame :
  get_snapshot tracer step = Ok (Some data, md) →
  DictionaryVisualizer.display_snapshot str py_eq tracer step hk hv title
  = Ok (Shown frame) →
  titled str title md frame.
Proof.
  intros Hsnap H. unfold DictionaryVisualizer.display_snapshot in H.
  rewrite Hsnap in H. cbn [mbind result_bind] in H. shown H. injection H as <-.
  drawn_by display_title_stated.
  by eapply dict_grid_not_placeholder.
Qed.

Lemma dict_update_titled tracer interval repeat anim i md frame :
  DictionaryVisualizer.create_animation str py_eq tracer interval repeat = Shown anim →
  metadata tracer !! i = Some md → func anim i = Ok frame →
  titled str None md frame.
Proof.
  unfold DictionaryVisualizer.create_animation.
  destruct (snapshots tracer) eqn:Hs; [discriminate |]. intros [= <-] Hmd H.
  cbn [func] in H. rewrite Hmd in H. shown H. injection Ha0 as <-. injection H as <-.
  drawn_by update_title_stated.
  by eapply dict_grid_not_placeholder.
Qed.

Lemma graph_display_titled tracer step data md hn he layout title show_code rng rng'
    frame :
  get_snapshot tracer step = Ok (Some data, md) →
  GraphVisualizer.display_snapshot str py_eq GPos RNG g_spring g_circular
    g_kamada_kawai g_shell tracer step hn he layout title show_code rng
  = (Ok (Shown frame), rng') →
  titled str title md frame.
Proof.
  intros Hsnap H. unfold GraphVisualizer.display_snapshot in H.
  rewrite Hsnap in H. destruct data as [G|v]; [| by destruct v].
  destruct (g_nodes G).
  - injection H as <- _. apply placeholder_titled. rewrite !elem_of_cons. auto.
  - destruct (GraphVisualizer.select_layout _ _ _ _ _ _ _ _ _) as [pos rng1].
    injection H as H _. shown H. injection H as <-.
    drawn_by display_title_stated.
    eapply not_placeholder_drawing. reflexivity.
Qed.

Lemma graph_update_titled tracer interval repeat layout rng rng' anim i md frame :
  GraphVisualizer.create_animation str py_in GPos RNG g_spring g_circular
    g_kamada_kawai g_shell tracer interval repeat layout rng = (Shown anim, rng') →
  metadata tracer !! i = Some md → func anim i = Ok frame →
  titled str None md frame.
Proof.
  unfold GraphVisualizer.create_animation.
  destruct (snapshots tracer) eqn:Hs; [discriminate |].
  destruct (GraphVisualizer.precompute _ _ _ _ _ _ _ _ _) as [pos_frames rng1].
  intros [= <- _] Hmd H. cbn [func] in H. rewrite Hmd in H.
  shown H. injection Ha0 as <-.
  destruct a as [G|v], a1 as [pos|];
    try (injection H as <-; apply placeholder_titled; rewrite !elem_of_cons; by auto).
  destruct (g_nodes G);
    [injection H as <-; apply placeholder_titled; rewrite !elem_of_cons; by auto |].
  shown H. injection H as <-.
  drawn_by update_title_stated.
  eapply not_placeholder_drawing. reflexivity.
Qed.

Lemma tree_display_titled tracer step data md hn layout title rng rng' frame :
  get_snapshot tracer step = Ok (Some data, md) →
  TreeVisualizer.display_snapshot str limit TPos RNG t_spring t_circular t_graphviz
    tracer step hn layout title rng = (Ok (Shown frame), rng') →
  titled str title md frame.
Proof.
  intros Hsnap H. unfold TreeVisualizer.display_snapshot in H.
  rewrite Hsnap in H. destruct data; try discriminate.
  all: destruct (TreeVisualizer._tree_to_networkx str limit _) as [G|e];
    [| discriminate].
  all: destruct (nodes G);
    [injection H as <- _; apply placeholder_titled; rewrite !elem_of_cons; by auto |].
  all: destruct (TreeVisualizer.create_layout _ _ _ _ _ _ _ _) as [pos rng1].
  all: injection H as H _; shown H; injection H as <-.
  all: drawn_by display_title_stated.
  all: eapply not_placeholder_drawing; reflexivity.
Qed.

Lemma tree_update_titled tracer interval repeat layout anim i md rng rng' frame :
  TreeVisualizer.create_animation str limit TPos RNG t_spring t_circular t_graphviz
    tracer interval repeat layout = Shown anim →
  metadata tracer !! i = Some md → func anim i rng = (Ok frame, rng') →
  titled str None md frame.
Proof.
  unfold TreeVisualizer.create_animation.
  destruct (snapshots tracer) eqn:Hs; [discriminate |]. intros [= <-] Hmd H.
  cbn [func] in H. unfold TreeVisualizer.update in H. rewrite Hmd in H.
  destruct (snapshots tracer !! i) as [data|]; [| discriminate].
  destruct (TreeVisualizer._tree_to_networkx str limit data) as [G|e];
    [| discriminate].
  destruct (nodes G).
  - injection H as <- _. apply placeholder_titled. rewrite !elem_of_cons. auto.
  - destruct (TreeVisualizer.create_layout _ _ _ _ _ _ _ _) as [pos rng1].
    injection H as H _. shown H. injection H as <-.
    drawn_by update_title_stated.
    eapply not_placeholder_drawing. reflexivity.
Qed.

(** C4, amended: a frame that [display_snapshot] shows is titled with
    the caller's title when that is a non-empty string, otherwise with
    ["Step {n}: {description}"] when the metadata of the step has a
    non-empty description, otherwise with the bare ["Step {n}"]; so is,
    without a caller title, a frame of the list, queue, dictionary, graph
    and tree animations; the frames that only say "Empty Graph", "Empty
    Tree" or "Unsupported Graph Type" have no title. *)
Theorem C4_title_precedence :
  (∀ tracer step data md hi hv hr title show frame,
     get_snapshot tracer step = Ok (Some data, md) →
     ListVisualizer.display_snapshot str py_eq tracer step hi hv hr title show
     = Ok (Shown frame) →
     titled str title md frame)
  ∧ (∀ tracer step data md highlight title frame,
       get_snapshot tracer step = Ok (Some data, md) →
       StackVisualizer.display_snapshot str tracer step highlight title
       = Ok (Shown frame) →
       titled str title md frame)
  ∧ (∀ tracer step data md highlight show_code title frame,
       get_snapshot tracer step = Ok (Some data, md) →
       QueueVisualizer.display_snapshot str tracer step highlight show_code title
       = Ok (Shown frame) →
       titled str title md frame)
  ∧ (∀ tracer step data md hk hv title frame,
       get_snapshot tracer step = Ok (Some data, md) →
       DictionaryVisualizer.display_snapshot str py_eq tracer step hk hv title
       = Ok (Shown frame) →
       titled str title md frame)
  ∧ (∀ tracer step data md hn he layout title show_code rng rng' frame,
       get_snapshot tracer step = Ok (Some data, md) →
       GraphVisualizer.display_snapshot str py_eq GPos RNG g_spring g_circular
         g_kamada_kawai g_shell tracer step hn he layout title show_code rng
       = (Ok (Shown frame), rng') →
       titled str title md frame)
  ∧ (∀ tracer step data md hn layout title rng rng' frame,
       get_snapshot tracer step = Ok (Some data, md) →
       TreeVisualizer.display_snapshot str limit TPos RNG t_spring t_circular
         t_graphviz tracer step hn layout title rng = (Ok (Shown frame), rng') →
       titled str title md frame)
  ∧ (∀ tracer interval repeat show anim i md frame,
       ListVisualizer.create_animation str tracer interval repeat show = Shown anim →
       metadata tracer !! i = Some md → func anim i = Ok frame →
       titled str None md frame)
  ∧ (∀ tracer interval repeat show_code anim i md frame,
       QueueVisualizer.create_animation str tracer interval repeat show_code
       = Shown anim →
       metadata tracer !! i = Some md → func anim i = Ok frame →
       titled str None md frame)
  ∧ (∀ tracer interval repeat anim i md frame,
       DictionaryVisualizer.create_animation str py_eq tracer interval repeat
       = Shown anim →
       metadata tracer !! i = Some md → func anim i = Ok frame →
       titled str None md frame)
  ∧ (∀ tracer interval repeat layout rng rng' anim i md frame,
       GraphVisualizer.create_animation str py_in GPos RNG g_spring g_circular
         g_kamada_kawai g_shell tracer interval repeat layout rng
       = (Shown anim, rng') →
       metadata tracer !! i = Some md → func anim i = Ok frame →
       titled str None md frame)
  ∧ (∀ tracer interval repeat layout anim i md rng rng' frame,
       TreeVisualizer.create_animation str limit TPos RNG t_spring t_circular
         t_graphviz tracer interval repeat layout = Shown anim →
       metadata tracer !! i = Some md → func anim i rng = (Ok frame, rng') →
       titled str None md frame).
Proof.
  repeat split; intros.
  - by eapply list_display_titled.
  - by eapply stack_display_titled.
  - by eapply queue_display_titled.
  - by eapply dict_display_titled.
  - by eapply graph_display_titled.
  - by eapply tree_display_titled.
  - by eapply list_update_titled.
  - by eapply queue_update_titled.
  - by eapply dict_update_titled.
  - by eapply graph_update_titled.
  - by eapply tree_update_titled.
Qed.

End Titles.

Lemma C4_title_precedence_witness :
  titled py_str (Some "Five") {["step" := PInt 0]}
    {| f_artists :=
         concat (imap (ListVisualizer.cell py_str py_eq_atoms (1 / of_nat 5)%Q
                         None None false)
                   [PInt 10; PInt 20; PInt 30; PInt 40; PInt 50]) ++ [];
       f_title := Some "Five"; f_xlim := Some (0, 1)%Q;
       f_ylim := Some (-(2#10), 7#10)%Q; f_axis_off := true;
       f_code := None |}.
Proof.
  pose proof (C4_title_precedence py_str py_eq_atoms (λ _ _, Ok false) 1000 nat nat nat
                seeded_layout (λ _, 0) (λ _, 0) (λ _, 0) seeded_layout (λ _, 0)
                (λ _, None)) as (Hlist & _).
  apply (Hlist five_elements 0%Z [PInt 10; PInt 20; PInt 30; PInt 40; PInt 50]
           {["step" := PInt 0]} None None None (Some "Five") false).
  - reflexivity.
  - reflexivity.
Defined.

(** ** Layouts in animations *)

Section GraphLayouts.
Variable str : pyval → string.
Variable py_in : pyval → pyval → result bool.
Variables Pos RNG : Type.
Variable spring_layout : NxGraph → RNG → Pos * RNG.
Variables circular_layout kamada_kawai_layout shell_layout : NxGraph → Pos.

(** The graph animation draws step [i] at the position computed for it
    when the animation was created. *)
Lemma graph_animation_cached_layout (tracer : DataStructureTracer GraphData)
    (interval : Z) (repeat : bool) (layout : string) (rng rng' : RNG)
    (anim : FuncAnimation (nat → result (GraphVisualizer.GFrame Pos)))
    (i : nat) (frame : GraphVisualizer.GFrame Pos) (d : NxDraw NxGraph Pos) :
  GraphVisualizer.create_animation str py_in Pos RNG spring_layout circular_layout
    kamada_kawai_layout shell_layout tracer interval repeat layout rng
  = (Shown anim, rng') →
  func anim i = Ok frame →
  f_artists frame = [Drawing d] →
  (GraphVisualizer.precompute Pos RNG spring_layout circular_layout
     kamada_kawai_layout shell_layout layout (snapshots tracer) rng).1 !! i
  = Some (Some (d_pos d)).
Proof.
  unfold GraphVisualizer.create_animation.
  destruct (snapshots tracer) as [|s0 ss] eqn:Hs; [discriminate |].
  destruct (GraphVisualizer.precompute _ _ _ _ _ _ _ _ _) as [pos_frames rng1].
  intros [= <- <-]. simpl. intros Hframe Hd.
  ok_inv Hframe. ok_inv Hframe. ok_inv Hframe.
  apply from_opt_Ok in Ha1. rewrite Ha1. f_equal.
  destruct a as [G|v], a1 as [pos|]; try (injection Hframe as <-; discriminate).
  destruct (g_nodes G); [injection Hframe as <-; discriminate |].
  ok_inv Hframe. ok_inv Hframe. injection Hframe as <-.
  simpl in Hd. by injection Hd as <-.
Qed.

End GraphLayouts.

(** Every call of the tree animation's [update] for the example tree
    lays it out by [spring_layout] in the random state of that call, and
    leaves the state advanced. *)
Lemma tree_update_lays_out_per_call (str : pyval → string) (Pos RNG : Type)
    (spring_layout : DiGraph → RNG → Pos * RNG) (circular_layout : DiGraph → Pos)
    (graphviz_layout : DiGraph → option Pos) (rng : RNG) :
  let G := {| nodes := [(0, Some (str (PInt 1))); (1, Some (str (PInt 2)));
                        (2, Some (str (PInt 4))); (3, Some (str (PInt 3)))];
              edges := [(0, 1); (1, 2); (0, 3)] |} in
  ∃ frame d,
    TreeVisualizer.update str 1000 Pos RNG spring_layout circular_layout
      graphviz_layout tree_step "spring" 0 rng
    = (Ok frame, (spring_layout G rng).2)
    ∧ f_artists frame = [Drawing d]
    ∧ d_pos d = (spring_layout G rng).1.
Proof.
  intros G.
  assert (Hbuild : TreeVisualizer._tree_to_networkx str 1000 example_tree = Ok G)
    by reflexivity.
  unfold TreeVisualizer.update.
  change (snapshots tree_step !! 0) with (Some example_tree).
  change (metadata tree_step !! 0) with (Some ({["step" := PInt 0]} : Metadata)).
  cbv beta iota. rewrite Hbuild.
  change (TreeVisualizer.create_layout Pos RNG spring_layout circular_layout
            graphviz_layout "spring" G rng) with (spring_layout G rng).
  destruct (spring_layout G rng) as [pos rng1].
  eexists _, _. split; [reflexivity |]. by split.
Qed.

(** C2 fails on the tree animation: [update] lays the tree out anew on
    every call, so with a layout that depends on the random state two
    renderings of step 0 place the nodes differently. *)
Theorem C2_tree_layout_recomputed :
  ∃ anim f1 f2 d1 d2 rng1 rng2,
    TreeVisualizer.create_animation py_str 1000 nat nat seeded_layout (λ _, 0)
      (λ _, None) tree_step 1000 true "spring" = Shown anim
    ∧ func anim 0 0 = (Ok f1, rng1)
    ∧ func anim 0 rng1 = (Ok f2, rng2)
    ∧ f_artists f1 = [Drawing d1]
    ∧ f_artists f2 = [Drawing d2]
    ∧ d_pos d1 ≠ d_pos d2.
Proof.
  eexists _, _, _, _, _, _, _.
  split; [reflexivity |]. split; [vm_compute; reflexivity |].
  split; [vm_compute; reflexivity |]. split; [reflexivity |].
  split; [reflexivity |]. simpl. discriminate.
Qed.

(** ** The trace store *)

Section StoreFacts.
Import TraceStore.

Lemma get_snapshot_at {S} (tr : DataStructureTracer S) (i : nat) (s : S) (md : Metadata) :
  snapshots tr !! i = Some s → metadata tr !! i = Some md →
  get_snapshot tr (Z.of_nat i) = Ok (Some s, md).
Proof.
  intros Hs Hmd. unfold get_snapshot.
  pose proof (lookup_lt_Some _ _ _ Hs) as Hlt.
  destruct (snapshots tr) as [|s0 ss] eqn:Hsn; [simpl in Hlt; lia |].
  rewrite <-Hsn in *.
  destruct (Z.eqb_spec (Z.of_nat i) (-1)); [lia |].
  rewrite bool_decide_eq_true_2 by lia.
  rewrite Nat2Z.id, Hs, Hmd. done.
Qed.

Lemma elem_of_refs (o : hobj) (l : loc) : l ∈ refs o ↔ HRef l ∈ fields o.
Proof.
  unfold refs. rewrite elem_of_union_list. split.
  - intros (X & HX & Hl). apply list_elem_of_fmap in HX as (v & -> & Hv).
    destruct v as [a|l']; simpl in Hl; [set_solver |].
    apply elem_of_singleton in Hl as ->. done.
  - intros Hin. exists {[l]}. split; [| set_solver].
    apply list_elem_of_fmap. by exists (HRef l).
Qed.

Section Reach.
Variable h : gmap loc hobj.
Hypothesis Hclosed : closed h.

Lemma expand_dom (X : gset loc) : X ⊆ dom h → expand h X ⊆ dom h.
Proof.
  intros HX x Hx. unfold expand in Hx. apply elem_of_union in Hx as [Hx | Hx]; [auto |].
  apply elem_of_set_bind in Hx as (l & Hl & Hx).
  destruct (h !! l) as [o|] eqn:Ho; simpl in Hx; [| set_solver].
  by apply (map_Forall_lookup_1 _ _ _ _ Hclosed Ho).
Qed.

Lemma iter_expand_dom (k : nat) (X : gset loc) :
  X ⊆ dom h → Nat.iter k (expand h) X ⊆ dom h.
Proof. intros HX. induction k; simpl; [done | by apply expand_dom]. Qed.

Lemma iter_expand_settles (k : nat) (X : gset loc) :
  expand h (Nat.iter k (expand h) X) = Nat.iter k (expand h) X
  ∨ k ≤ size (Nat.iter k (expand h) X).
Proof.
  induction k as [|k IH]; [right; lia |]. simpl.
  destruct (decide (expand h (Nat.iter k (expand h) X) = Nat.iter k (expand h) X))
    as [Heq | Hne].
  - left. by rewrite !Heq.
  - right. destruct IH as [? | Hk]; [done |].
    assert (Nat.iter k (expand h) X ⊂ expand h (Nat.iter k (expand h) X)) as Hsub.
    { split; [unfold expand; set_solver |].
      intros Hback. apply Hne. apply (anti_symm (⊆)); [done |].
      unfold expand. set_solver. }
    apply subset_size in Hsub. lia.
Qed.

Lemma reach_settled (v : hval) :
  targets v ⊆ dom h → expand h (reach h v) = reach h v.
Proof.
  intros Hv. unfold reach.
  destruct (iter_expand_settles (size (dom h)) (targets v)) as [Hfix | Hfull]; [done |].
  pose proof (iter_expand_dom (size (dom h)) (targets v) Hv) as Hdom.
  apply (anti_symm (⊆)); [| unfold expand; set_solver].
  rewrite (set_subseteq_size_eq _ _ Hdom Hfull). by apply expand_dom.
Qed.

Lemma reach_targets (v : hval) : targets v ⊆ reach h v.
Proof.
  unfold reach. induction (size (dom h)) as [|k IH]; simpl; [done |].
  unfold expand at 1. set_solver.
Qed.

Lemma reach_dom (v : hval) : targets v ⊆ dom h → reach h v ⊆ dom h.
Proof. apply iter_expand_dom. Qed.

Lemma reach_refs (v : hval) (l : loc) (o : hobj) :
  targets v ⊆ dom h → l ∈ reach h v → h !! l = Some o → refs o ⊆ reach h v.
Proof.
  intros Hv Hl Ho x Hx. rewrite <-(reach_settled v Hv). unfold expand.
  apply elem_of_union. right. apply elem_of_set_bind. exists l. split; [done |].
  by rewrite Ho.
Qed.

End Reach.

Section Copy.
Variable h : gmap loc hobj.
Variable state : hval.
Hypothesis Hclosed : closed h.
Hypothesis Hstate : targets state ⊆ dom h.

Local Abbreviation olds := (copied h state).
Local Abbreviation news := (made h state).
Local Abbreviation memo := (memo h state).
Local Abbreviation copies := (copies h state).
Local Abbreviation copy_at := (λ l : loc, rename_obj memo (h !!! l)).

Lemma memo_copies (l : loc) :
  l ∈ reach h state →
  ∃ l' o, memo !! l = Some l' ∧ l' ∈ news ∧ h !! l = Some o
          ∧ copies !! l' = Some (rename_obj memo o).
Proof.
  intros Hl.
  assert (Hlen : length olds = length news) by (unfold made; by rewrite length_fresh_list).
  assert (Ho : l ∈ olds) by (by apply elem_of_elements).
  apply list_elem_of_lookup in Ho as (i & Hi).
  destruct (lookup_lt_is_Some_2 news i) as [l' Hl'].
  { rewrite <-Hlen. by eapply lookup_lt_Some. }
  assert (Hdom : l ∈ dom h) by (by apply (reach_dom h Hclosed state Hstate)).
  apply elem_of_dom in Hdom as [o Hobj].
  exists l', o. split; [| split; [| split]].
  - apply elem_of_list_to_map_1.
    + rewrite fst_zip by lia. apply NoDup_elements.
    + apply list_elem_of_lookup. exists i. apply lookup_zip_with_Some. eauto.
  - by eapply list_elem_of_lookup_2.
  - done.
  - apply elem_of_list_to_map_1.
    + rewrite fst_zip by (rewrite length_fmap; lia). apply NoDup_fresh_list.
    + apply list_elem_of_lookup. exists i. apply lookup_zip_with_Some.
      exists l', (copy_at l). split; [| split; [done |]].
      * by rewrite (lookup_total_correct _ _ _ Hobj).
      * by rewrite list_lookup_fmap, Hi.
Qed.

Lemma news_fresh (l' : loc) : l' ∈ news → l' ∉ dom h.
Proof. unfold made. apply fresh_list_is_fresh. Qed.

Lemma copies_dom : dom copies = list_to_set news.
Proof.
  unfold TraceStore.copies. rewrite dom_list_to_map_L, fst_zip; [done |].
  rewrite length_fmap. unfold made. by rewrite length_fresh_list.
Qed.

Lemma copies_keep (l : loc) : l ∈ dom h → (copies ∪ h) !! l = h !! l.
Proof.
  intros Hl. apply lookup_union_r. apply not_elem_of_dom.
  rewrite copies_dom, elem_of_list_to_set. intros Hn. by apply news_fresh in Hn.
Qed.

Lemma copies_closed : closed (copies ∪ h).
Proof.
  apply map_Forall_lookup. intros l o Hl.
  apply lookup_union_Some_raw in Hl as [Hl | [_ Hl]].
  - apply elem_of_list_to_map_2 in Hl.
    apply list_elem_of_lookup in Hl as (i & Hi).
    apply lookup_zip_with_Some in Hi as (l1 & o1 & [= <- <-] & Hn & Ho).
    rewrite list_lookup_fmap in Ho. destruct (olds !! i) as [l0|] eqn:Hl0; [| done].
    injection Ho as <-.
    assert (Hr : l0 ∈ reach h state)
      by (apply elem_of_elements; by eapply list_elem_of_lookup_2).
    destruct (memo_copies l0 Hr) as (_ & o0 & _ & _ & Ho0 & _).
    rewrite (lookup_total_correct _ _ _ Ho0).
    intros x Hx. apply elem_of_refs in Hx. simpl in Hx.
    apply list_elem_of_fmap in Hx as (v & Hv & Hin).
    destruct v as [a|l2]; [done |]. injection Hv as ->.
    assert (Hl2 : l2 ∈ reach h state).
    { apply (reach_refs h Hclosed state l0 o0 Hstate Hr Ho0). by apply elem_of_refs. }
    destruct (memo_copies l2 Hl2) as (l2' & o2 & -> & Hnew & _ & _). simpl.
    rewrite dom_union_L, copies_dom. apply elem_of_union. left.
    by apply elem_of_list_to_set.
  - pose proof (map_Forall_lookup_1 _ _ _ _ Hclosed Hl) as Hrefs.
    rewrite dom_union_L. set_solver.
Qed.

Lemma copy_content (h2 : gmap loc hobj) :
  (∀ l', l' ∈ news → h2 !! l' = (copies ∪ h) !! l') →
  ∀ depth v, targets v ⊆ reach h state →
    unfold depth h2 (rename memo v) = unfold depth h v.
Proof.
  intros Hagree. induction depth as [|depth IH]; intros [a|l] Hv; try done.
  assert (Hl : l ∈ reach h state) by set_solver.
  destruct (memo_copies l Hl) as (l' & o & Hmemo & Hnew & Ho & Hcopy).
  simpl. rewrite Hmemo. simpl. rewrite Ho, (Hagree l' Hnew).
  rewrite (lookup_union_Some_l _ _ _ _ Hcopy). simpl. f_equal.
  rewrite <-list_fmap_compose. apply list_fmap_ext. intros j v Hj. simpl.
  apply IH. intros x Hx.
  apply (reach_refs h Hclosed state l o Hstate Hl Ho).
  apply elem_of_refs. destruct v as [a|l2]; simpl in Hx; [set_solver |].
  apply elem_of_singleton in Hx as ->. by eapply list_elem_of_lookup_2.
Qed.

End Copy.

Lemma kept_start h : closed h → kept (start h) [].
Proof.
  intros Hc. repeat split; try done. intros ? ? ? ? Hin. by apply elem_of_nil in Hin.
Qed.

Lemma capture_kept w log state md :
  kept w log → targets state ⊆ dom (heap w) →
  kept (capture w state md)
    (log ++ [((deepcopy (heap w) state).1, (state, heap w),
              <["step" := PInt (Z.of_nat (length log))]> md)]).
Proof.
  intros (Hclosed & Hlive & Hsnap & Hmeta & Hcont) Hstate.
  unfold capture, deepcopy.
  unfold kept. cbn [heap live tracer snapshots metadata].
  split; [by apply copies_closed |].
  split; [rewrite dom_union_L; set_solver |].
  split; [by rewrite Hsnap, !fmap_app |].
  split.
  { rewrite Hmeta, !fmap_app. simpl. do 4 f_equal.
    by rewrite Hsnap, !length_fmap. }
  intros copy st h0 md0 Hin h2 Hagree depth.
  apply elem_of_app in Hin as [Hin | Hin].
  - apply (Hcont _ _ _ _ Hin). intros l Hl Hnl.
    rewrite Hagree; [by apply copies_keep | | done].
    rewrite dom_union_L. set_solver.
  - apply list_elem_of_singleton in Hin. injection Hin as -> -> -> ->.
    apply (copy_content (heap w) state Hclosed Hstate); [| by apply reach_targets].
    intros l' Hnew. apply Hagree.
    + rewrite dom_union_L. apply elem_of_union. left.
      rewrite copies_dom. by apply elem_of_list_to_set.
    + intros Hl. apply (news_fresh (heap w) state l' Hnew). by apply Hlive.
Qed.

Lemma step_kept w log o :
  kept w log → allowed w o = true →
  ∃ extra, kept (step w o) (log ++ extra)
           ∧ length extra = (if is_capture o then 1 else 0).
Proof.
  intros Hkept Hallowed. destruct o as [state md | l o | o]; simpl in *.
  - apply bool_decide_eq_true in Hallowed. eexists [_]. split; [| done].
    by apply capture_kept.
  - apply andb_true_iff in Hallowed as [Hl Ho].
    apply bool_decide_eq_true in Hl, Ho.
    exists []. rewrite app_nil_r. split; [| done].
    destruct Hkept as (Hclosed & Hlive & Hsnap & Hmeta & Hcont).
    assert (Hdom : dom (<[l := o]> (heap w)) = dom (heap w)).
    { rewrite dom_insert_L. apply subseteq_union_1_L, singleton_subseteq_l.
      by apply Hlive. }
    unfold kept, mutate. cbn [heap live tracer]. rewrite Hdom.
    split; [| repeat split; try done].
    + apply map_Forall_insert_2; [by rewrite Hdom |].
      eapply map_Forall_impl; [exact Hclosed |]. intros ? ? ?. by rewrite Hdom.
    + intros copy st h0 md Hin h2 Hagree. apply (Hcont _ _ _ _ Hin).
      intros l' Hl' Hnl'. rewrite Hagree by done.
      apply lookup_insert_ne. by intros ->.
  - apply bool_decide_eq_true in Hallowed.
    exists []. rewrite app_nil_r. split; [| done].
    destruct Hkept as (Hclosed & Hlive & Hsnap & Hmeta & Hcont).
    unfold kept, new. cbn [heap live tracer]. rewrite dom_insert_L.
    split; [| split; [by apply union_mono_l | repeat split; try done]].
    + apply map_Forall_insert_2; [set_solver |].
      eapply map_Forall_impl; [exact Hclosed |]. intros ? ? ?. set_solver.
    + intros copy st h0 md Hin h2 Hagree. apply (Hcont _ _ _ _ Hin).
      intros l' Hl' Hnl'.
      assert (Hne : l' ≠ fresh (dom (heap w)))
        by (intros ->; by apply is_fresh in Hl').
      rewrite Hagree; [by apply lookup_insert_ne | apply elem_of_union; by right |].
      by rewrite not_elem_of_union, not_elem_of_singleton.
Qed.

Lemma run_kept ops : ∀ w log,
  kept w log → permitted ops w = true →
  ∃ extra, kept (run ops w) (log ++ extra) ∧ length extra = captures ops.
Proof.
  induction ops as [|o ops IH]; intros w log Hkept Hok; simpl in Hok.
  - exists []. by rewrite app_nil_r.
  - apply andb_true_iff in Hok as [Ho Hok].
    destruct (step_kept _ _ _ Hkept Ho) as (e1 & Hk1 & Hl1).
    destruct (IH _ _ Hk1 Hok) as (e2 & Hk2 & Hl2).
    exists (e1 ++ e2). rewrite app_assoc. split; [done |].
    rewrite length_app, Hl1, Hl2. unfold captures. simpl.
    by destruct (is_capture o).
Qed.

Lemma run_app a b w : run (a ++ b) w = run b (run a w).
Proof. apply foldl_app. Qed.

Lemma run_capture before state md after w :
  run (before ++ Capture state md :: after) w
  = run after (capture (run before w) state md).
Proof. by rewrite run_app. Qed.

Lemma permitted_app a b w :
  permitted (a ++ b) w = permitted a w && permitted b (run a w).
Proof.
  revert w. induction a as [|o a IH]; intros w; simpl; [done |].
  by rewrite IH, andb_assoc.
Qed.

Lemma copy_is_new (h : gmap loc hobj) (state : hval) :
  closed h → targets state ⊆ dom h → targets (deepcopy h state).1 ## dom h.
Proof.
  intros Hclosed Hstate. destruct state as [a|l]; simpl; [apply disjoint_empty_l |].
  assert (Hl : l ∈ reach h (HRef l))
    by (apply (reach_targets h Hclosed (HRef l)); simpl; by apply elem_of_singleton).
  destruct (memo_copies h (HRef l) Hclosed Hstate l Hl) as (l' & o & -> & Hnew & _).
  simpl. apply disjoint_singleton_l. by apply (news_fresh h (HRef l)).
Qed.

(** C3 (store modelled from the specification): [capture] stores a copy
    of every state, one that shares objects or reaches itself included.
    After any run of captures and changes to live objects, the heap the
    caller started with being any heap without a reference to a missing
    object, the store holds one entry per capture; and the entry of each
    capture, read back by its index, is the deep copy made at that
    capture, with that index as its step: it is made of objects that did
    not exist before the capture, and to every depth it still has the
    content the captured state had at the moment of the capture, whatever
    was done to live objects since. *)
Theorem C3_snapshots_keep_captured_content
    (h : gmap loc hobj) (ops : list op) :
  closed h → permitted ops (start h) = true →
  length (snapshots (tracer (run ops (start h)))) = captures ops
  ∧ ∀ before state md after,
      ops = before ++ Capture state md :: after →
      let then_ := heap (run before (start h)) in
      let copy := (deepcopy then_ state).1 in
      get_snapshot (tracer (run ops (start h))) (Z.of_nat (captures before))
      = Ok (Some copy, <["step" := PInt (Z.of_nat (captures before))]> md)
      ∧ targets copy ## dom then_
      ∧ ∀ depth,
          unfold depth (heap (run ops (start h))) copy = unfold depth then_ state.
Proof.
  intros Hclosed Hok. split.
  - destruct (run_kept _ _ _ (kept_start h Hclosed) Hok)
      as (log & (_ & _ & Hsnap & _) & Hlen).
    by rewrite Hsnap, !length_fmap.
  - intros before state md after -> then_ copy.
    rewrite permitted_app in Hok. apply andb_true_iff in Hok as [Hbefore Hrest].
    simpl in Hrest. apply andb_true_iff in Hrest as [Hcap Hafter].
    apply bool_decide_eq_true in Hcap.
    destruct (run_kept _ _ _ (kept_start h Hclosed) Hbefore) as (log1 & Hk1 & Hl1).
    simpl in Hk1.
    pose proof (capture_kept _ _ state md Hk1 Hcap) as Hk2.
    destruct (run_kept _ _ _ Hk2 Hafter) as (log3 & (_ & _ & Hsnap & Hmeta & Hcont) & _).
    rewrite run_capture, <-Hl1. split; [| split].
    + apply get_snapshot_at.
      * rewrite Hsnap, !list_lookup_fmap, lookup_app_l
          by (rewrite length_app; simpl; lia).
        by rewrite lookup_app_r, Nat.sub_diag by lia.
      * rewrite Hmeta, !list_lookup_fmap, lookup_app_l
          by (rewrite length_app; simpl; lia).
        by rewrite lookup_app_r, Nat.sub_diag by lia.
    + apply copy_is_new; [by destruct Hk1 | done].
    + intros depth. eapply Hcont; [| done]. rewrite elem_of_app, elem_of_app.
      left. right. by apply list_elem_of_singleton.
Qed.

End StoreFacts.

Lemma C3_snapshots_keep_captured_content_witness :
  length (snapshots (TraceStore.tracer
                       (TraceStore.run capture_grow_capture
                          (TraceStore.start live_list))))
  = TraceStore.captures capture_grow_capture
  ∧ ∀ before state md after,
      capture_grow_capture = before ++ TraceStore.Capture state md :: after →
      let then_ :=
        TraceStore.heap (TraceStore.run before (TraceStore.start live_list)) in
      let copy := (TraceStore.deepcopy then_ state).1 in
      get_snapshot (TraceStore.tracer
                      (TraceStore.run capture_grow_capture
                         (TraceStore.start live_list)))
        (Z.of_nat (TraceStore.captures before))
      = Ok (Some copy, <["step" := PInt (Z.of_nat (TraceStore.captures before))]> md)
      ∧ TraceStore.targets copy ## dom then_
      ∧ ∀ depth,
          TraceStore.unfold depth
            (TraceStore.heap (TraceStore.run capture_grow_capture
                                (TraceStore.start live_list))) copy
          = TraceStore.unfold depth then_ state.
Proof.
  apply (C3_snapshots_keep_captured_content live_list capture_grow_capture).
  - apply (bool_decide_unpack _). vm_compute. reflexivity.
  - vm_compute. reflexivity.
Defined.

(** In that run the first stored copy is a list of its own that holds
    10, twice one and the same copy of the second list, and itself, and
    not the 20 the live list has got since. *)
Lemma first_copy_unchanged :
  ∃ copy md,
    let w := TraceStore.run capture_grow_capture (TraceStore.start live_list) in
    get_snapshot (TraceStore.tracer w) 0 = Ok (Some (TraceStore.HRef copy), md)
    ∧ TraceStore.fields <$> TraceStore.heap w !! 1%positive
      = Some [TraceStore.HAtom (PInt 10); TraceStore.HRef 2%positive;
              TraceStore.HRef 2%positive; TraceStore.HRef 1%positive;
              TraceStore.HAtom (PInt 20)]
    ∧ ∃ inner,
        TraceStore.fields <$> TraceStore.heap w !! copy
        = Some [TraceStore.HAtom (PInt 10); TraceStore.HRef inner;
                TraceStore.HRef inner; TraceStore.HRef copy]
        ∧ copy ≠ 1%positive ∧ inner ≠ 2%positive
        ∧ TraceStore.fields <$> TraceStore.heap w !! inner
          = Some [TraceStore.HAtom (PInt 7)].
Proof.
  eexists _, _. cbv zeta. split; [vm_compute; reflexivity |].
  split; [vm_compute; reflexivity |]. eexists.
  split; [vm_compute; reflexivity |]. split; [discriminate |].
  split; [discriminate |]. vm_compute. reflexivity.
Qed.

(** * Further properties of the code *)

(** ** The canonical graph builder: ids, labels and edges *)

Section BuilderGraph.
Variable str : pyval → string.

Lemma numbered_labelled s start ns :
  Forall (λ n : nat * option string, is_Some n.2) (numbered str s start ns).
Proof.
  unfold numbered. apply list.Forall_forall. intros [i l] Hin.
  apply elem_of_lookup_imap in Hin as (j & n & [= -> ->] & _).
  simpl. eauto.
Qed.

Lemma preorder_nonempty s t ns : preorder s t ns → 0 < length ns.
Proof. destruct 1. simpl. lia. Qed.

(** X1: the nodes of a graph the builder returns are numbered 0, 1, ...
    without a gap, in the order they were added, and every one of them
    carries a label. *)
Theorem builder_ids_dense_and_labelled (limit : nat) (t : pyval) (G : DiGraph) :
  TreeBuilder._tree_to_networkx str limit t = Ok G →
  (nodes G).*1 = seq 0 (length (nodes G))
  ∧ Forall (λ n : nat * option string, is_Some n.2) (nodes G).
Proof.
  intros Hrun. unfold TreeBuilder._tree_to_networkx in Hrun.
  assert (Hvisited : (∃ s ns, nodes G = numbered str s 0 ns) ∨ G = empty_graph).
  { destruct (hasattr t "left" && hasattr t "right") eqn:H1;
      [| destruct (hasattr t "children") eqn:H2;
         [| destruct (isinstance_dict t && dict_contains t "value") eqn:H3]].
    - left. exists Binary.
      destruct (add_nodes_binary_visits str limit t 0 empty_graph G []
                  entering_empty) as (ns & _ & Hn); [by destruct t | done | eauto].
    - left. exists Children.
      destruct (add_nodes_children_visits str limit t 0 empty_graph G []
                  entering_empty) as (ns & _ & Hn); [by destruct t | done | eauto].
    - left. exists Mapping.
      destruct (add_nodes_dict_visits str limit t 0 empty_graph G []
                  entering_empty) as (ns & _ & Hn); [by destruct t | done | eauto].
    - right. by injection Hrun as <-. }
  destruct Hvisited as [(s & ns & ->) | ->].
  - split; [| apply numbered_labelled].
    by rewrite numbered_fst, numbered_length.
  - split; [done | constructor].
Qed.

End BuilderGraph.

Lemma builder_ids_dense_and_labelled_witness :
  [0; 1; 2; 3] = seq 0 4
  ∧ Forall (λ n : nat * option string, is_Some n.2)
      [(0, Some "1"); (1, Some "2"); (2, Some "4"); (3, Some "3")].
Proof.
  apply (builder_ids_dense_and_labelled py_str 1000 example_tree
           {| nodes := [(0, Some "1"); (1, Some "2"); (2, Some "4"); (3, Some "3")];
              edges := [(0, 1); (1, 2); (0, 3)] |}).
  vm_compute. reflexivity.
Defined.

Section BuilderEdges.
Variable str : pyval → string.

Lemma add_node_edges G id label : edges (add_node G id label) = edges G.
Proof. unfold add_node. by destruct (has_node G id). Qed.

Lemma touch_edges G n : edges (touch G n) = edges G.
Proof. unfold touch. by destruct (has_node G n). Qed.

Lemma add_edge_edges G p :
  closed G →
  edges (add_edge G p (length (nodes G))) = edges G ++ [(p, length (nodes G))].
Proof.
  intros Hc. unfold add_edge. simpl. rewrite !touch_edges.
  rewrite bool_decide_eq_false_2; [done |].
  intros Hin. apply (proj1 (list.Forall_forall _ _) Hc) in Hin. simpl in Hin. lia.
Qed.

Lemma closed_extend G G' E a n :
  closed G → edges G' = edges G ++ E → E.*2 = seq a n →
  length (nodes G) ≤ length (nodes G') → a + n ≤ length (nodes G') →
  closed G'.
Proof.
  intros Hc HE Hseq Hlen Hn. unfold closed. rewrite HE. apply Forall_app. split.
  - eapply Forall_impl; [exact Hc |]. simpl. intros e He. lia.
  - apply list.Forall_forall. intros e He.
    assert (Hin : e.2 ∈ E.*2) by (apply list_elem_of_fmap; eauto).
    rewrite Hseq in Hin. apply list_elem_of_In, in_seq in Hin. lia.
Qed.

Lemma child_step_links s add p child G G' :
  visits str s add → links add →
  dense (nodes G) → closed G → p < length (nodes G) →
  (if truthy child
   then add child (length (nodes G)) (add_edge G p (length (nodes G)))
   else Ok G) = Ok G' →
  ∃ E, edges G' = edges G ++ E
       ∧ E.*2 = seq (length (nodes G)) (length (nodes G') - length (nodes G))
       ∧ Forall (λ e : nat * nat, p ≤ e.1 ∧ e.1 < e.2) E
       ∧ length (nodes G) ≤ length (nodes G').
Proof.
  intros Hadd Hlinks Hd Hc Hp Hrun. destruct (truthy child) eqn:Ht.
  - set (len := length (nodes G)) in *. set (G1 := add_edge G p len) in *.
    assert (Hn1 : nodes G1 = nodes G ++ [(len, None)]) by (by apply add_edge_nodes).
    assert (He1 : edges G1 = edges G ++ [(p, len)]) by (by apply add_edge_edges).
    assert (Hin : entering (nodes G) len G1)
      by (split; [done |]; split; [done |]; right; eauto).
    assert (Hc1 : closed G1).
    { apply (closed_extend G G1 [(p, len)] len 1); try done.
      - rewrite Hn1, length_app. lia.
      - rewrite Hn1, length_app. simpl. fold len. lia. }
    assert (Hnn : is_None child = false) by (by destruct child).
    destruct (Hadd child len G1 G' (nodes G) Hin Hnn Hrun) as (ns & Hpre & Hn).
    destruct (Hlinks child len G1 G' (nodes G) Hin Hc1 Hnn Hrun) as (E & HE & Hseq & HF).
    apply preorder_nonempty in Hpre.
    assert (Hlen : length (nodes G') = len + length ns)
      by (by rewrite Hn, length_app, numbered_length).
    exists ((p, len) :: E). repeat split.
    + by rewrite HE, He1, <-app_assoc.
    + rewrite fmap_cons, Hseq, Hlen.
      replace (len + length ns - len) with (S (len + length ns - S len)) by lia.
      done.
    + constructor; [simpl; lia |].
      eapply Forall_impl; [exact HF |]. simpl. intros e He. lia.
    + lia.
  - injection Hrun as <-. exists []. rewrite app_nil_r, Nat.sub_diag.
    repeat split; [constructor | lia].
Qed.

Lemma links_chain (G G1 G2 : DiGraph) (E1 E2 : list (nat * nat)) :
  edges G1 = edges G ++ E1 → edges G2 = edges G1 ++ E2 →
  E1.*2 = seq (length (nodes G)) (length (nodes G1) - length (nodes G)) →
  E2.*2 = seq (length (nodes G1)) (length (nodes G2) - length (nodes G1)) →
  length (nodes G) ≤ length (nodes G1) → length (nodes G1) ≤ length (nodes G2) →
  edges G2 = edges G ++ (E1 ++ E2)
  ∧ (E1 ++ E2).*2 = seq (length (nodes G)) (length (nodes G2) - length (nodes G)).
Proof.
  intros H1 H2 Hs1 Hs2 Hl1 Hl2. split; [by rewrite H2, H1, <-app_assoc |].
  rewrite fmap_app, Hs1, Hs2.
  replace (length (nodes G2) - length (nodes G))
    with ((length (nodes G1) - length (nodes G))
          + (length (nodes G2) - length (nodes G1))) by lia.
  rewrite seq_app. do 2 f_equal. lia.
Qed.

Lemma children_loop_links s add p items : ∀ G G',
  visits str s add → links add →
  dense (nodes G) → closed G → p < length (nodes G) →
  for_each (λ child G,
    if truthy child
    then add child (length (nodes G)) (add_edge G p (length (nodes G)))
    else Ok G) items G = Ok G' →
  ∃ E, edges G' = edges G ++ E
       ∧ E.*2 = seq (length (nodes G)) (length (nodes G') - length (nodes G))
       ∧ Forall (λ e : nat * nat, p ≤ e.1 ∧ e.1 < e.2) E
       ∧ length (nodes G) ≤ length (nodes G').
Proof.
  induction items as [|child items IH]; intros G G' Hadd Hlinks Hd Hc Hp Hrun.
  - injection Hrun as <-. exists []. rewrite app_nil_r, Nat.sub_diag.
    repeat split; [constructor | lia].
  - simpl in Hrun. ok_inv Hrun. rename a into G1.
    destruct (child_step str s add p child G G1 Hadd Hd Hp Ha) as (b1 & _ & Hn1).
    destruct (child_step_links s add p child G G1 Hadd Hlinks Hd Hc Hp Ha)
      as (E1 & HE1 & Hs1 & HF1 & Hl1).
    assert (Hd1 : dense (nodes G1)) by (rewrite Hn1; by apply dense_numbered).
    assert (Hc1 : closed G1).
    { apply (closed_extend G G1 E1 _ _ Hc HE1 Hs1 Hl1). lia. }
    destruct (IH G1 G' Hadd Hlinks Hd1 Hc1 ltac:(lia) Hrun)
      as (E2 & HE2 & Hs2 & HF2 & Hl2).
    destruct (links_chain G G1 G' E1 E2 HE1 HE2 Hs1 Hs2 Hl1 Hl2) as [HE Hs].
    exists (E1 ++ E2). repeat split; [done | done | by apply Forall_app | lia].
Qed.

(** The state after [add_node] at the start of a visit. *)
Lemma visit_start pre id G label :
  entering pre id G → closed G →
  let G1 := add_node G id label in
  dense (nodes G1) ∧ closed G1 ∧ id < length (nodes G1)
  ∧ length (nodes G1) = S id ∧ edges G1 = edges G.
Proof.
  intros Hin Hc G1.
  assert (Hn : nodes G1 = pre ++ [(id, Some label)]) by (by apply add_node_entering).
  destruct Hin as (Hd & -> & Hnodes).
  assert (Hlen : length (nodes G1) = S (length pre))
    by (rewrite Hn, length_app; simpl; lia).
  assert (He : edges G1 = edges G) by apply add_node_edges.
  repeat split; try done.
  - rewrite Hn. by apply dense_snoc.
  - unfold closed. rewrite He, Hlen.
    eapply Forall_impl; [exact Hc |]. simpl. intros e Hlt.
    destruct Hnodes as [Hr | [a Hr]]; rewrite Hr in Hlt;
      [| rewrite length_app in Hlt; simpl in Hlt]; lia.
  - lia.
Qed.

Lemma visit_links id (G G1 G' : DiGraph) (E : list (nat * nat)) :
  length (nodes G1) = S id → edges G1 = edges G →
  edges G' = edges G1 ++ E →
  E.*2 = seq (length (nodes G1)) (length (nodes G') - length (nodes G1)) →
  Forall (λ e : nat * nat, id ≤ e.1 ∧ e.1 < e.2) E →
  ∃ E, edges G' = edges G ++ E
       ∧ E.*2 = seq (S id) (length (nodes G') - S id)
       ∧ Forall (λ e : nat * nat, id ≤ e.1 ∧ e.1 < e.2) E.
Proof. intros Hlen He HE Hs HF. exists E. by rewrite <-He, <-Hlen. Qed.

Lemma add_nodes_binary_links depth : links (TreeBuilder.add_nodes_binary str depth).
Proof.
  induction depth as [|depth IH]; intros node id G G' pre Hin Hc Hnn Hrun;
    [discriminate |].
  simpl in Hrun. rewrite Hnn in Hrun.
  set (label := str _) in Hrun.
  destruct (visit_start pre id G label Hin Hc) as (Hd1 & Hc1 & Hp1 & Hlen1 & He1).
  set (G1 := add_node G id label) in *.
  ok_inv Hrun. rename a into l. ok_inv Hrun. rename a into G2, Ha0 into Hleft.
  ok_inv Hrun. rename a into r.
  pose proof (add_nodes_binary_visits str depth) as Hv.
  destruct (child_step str Binary _ id l G1 G2 Hv Hd1 Hp1 Hleft) as (b1 & _ & Hn2).
  destruct (child_step_links Binary _ id l G1 G2 Hv IH Hd1 Hc1 Hp1 Hleft)
    as (E1 & HE1 & Hs1 & HF1 & Hl1).
  assert (Hd2 : dense (nodes G2)) by (rewrite Hn2; by apply dense_numbered).
  assert (Hc2 : closed G2) by (apply (closed_extend G1 G2 E1 _ _ Hc1 HE1 Hs1 Hl1); lia).
  destruct (child_step_links Binary _ id r G2 G' Hv IH Hd2 Hc2 ltac:(lia) Hrun)
    as (E2 & HE2 & Hs2 & HF2 & Hl2).
  destruct (links_chain G1 G2 G' E1 E2 HE1 HE2 Hs1 Hs2 Hl1 Hl2) as [HE Hs].
  apply (visit_links id G G1 G' (E1 ++ E2)); try done. by apply Forall_app.
Qed.

Lemma add_nodes_children_links depth : links (TreeBuilder.add_nodes_children str depth).
Proof.
  induction depth as [|depth IH]; intros node id G G' pre Hin Hc Hnn Hrun;
    [discriminate |].
  simpl in Hrun. rewrite Hnn in Hrun.
  set (label := str _) in Hrun.
  destruct (visit_start pre id G label Hin Hc) as (Hd1 & Hc1 & Hp1 & Hlen1 & He1).
  set (G1 := add_node G id label) in *.
  ok_inv Hrun. rename a into c.
  pose proof (add_nodes_children_visits str depth) as Hv.
  destruct (truthy c).
  - ok_inv Hrun. rename a into items.
    destruct (children_loop_links Children _ id items G1 G' Hv IH Hd1 Hc1 Hp1 Hrun)
      as (E & HE & Hs & HF & _).
    by apply (visit_links id G G1 G' E).
  - injection Hrun as <-. exists []. rewrite app_nil_r, Hlen1, Nat.sub_diag.
    repeat split; [done | constructor].
Qed.

Lemma add_nodes_dict_links depth : links (TreeBuilder.add_nodes_dict str depth).
Proof.
  induction depth as [|depth IH]; intros node id G G' pre Hin Hc Hnn Hrun;
    [discriminate |].
  simpl in Hrun. rewrite Hnn in Hrun.
  ok_inv Hrun. rename a into value.
  destruct (visit_start pre id G (str value) Hin Hc) as (Hd1 & Hc1 & Hp1 & Hlen1 & He1).
  set (G1 := add_node G id (str value)) in *.
  ok_inv Hrun. rename a into c. ok_inv Hrun. rename a into items.
  pose proof (add_nodes_dict_visits str depth) as Hv.
  destruct (children_loop_links Mapping _ id items G1 G' Hv IH Hd1 Hc1 Hp1 Hrun)
    as (E & HE & Hs & HF & _).
  by apply (visit_links id G G1 G' E).
Qed.

(** X2: the edges of a graph the builder returns make it a tree rooted
    at node 0: in the order they were added there is exactly one edge
    into each of the nodes 1, 2, ..., and none into node 0, and every
    edge goes from a parent to a child with a larger id. *)
Theorem builder_edges_form_tree (limit : nat) (t : pyval) (G : DiGraph) :
  TreeBuilder._tree_to_networkx str limit t = Ok G →
  (edges G).*2 = seq 1 (length (nodes G) - 1)
  ∧ Forall (λ e : nat * nat, e.1 < e.2) (edges G).
Proof.
  intros Hrun. unfold TreeBuilder._tree_to_networkx in Hrun.
  assert (Hclosed : closed empty_graph) by constructor.
  assert (Hnn : shape_of t ≠ None → is_None t = false) by (by destruct t).
  unfold shape_of in Hnn.
  assert (Hvisited :
    (∃ E, edges G = [] ++ E ∧ E.*2 = seq 1 (length (nodes G) - 1)
          ∧ Forall (λ e : nat * nat, 0 ≤ e.1 ∧ e.1 < e.2) E)
    ∨ G = empty_graph).
  { destruct (hasattr t "left" && hasattr t "right");
      [| destruct (hasattr t "children");
         [| destruct (isinstance_dict t && dict_contains t "value")]].
    - left. by apply (add_nodes_binary_links limit t 0 empty_graph G []
                        entering_empty Hclosed (Hnn ltac:(done))).
    - left. by apply (add_nodes_children_links limit t 0 empty_graph G []
                        entering_empty Hclosed (Hnn ltac:(done))).
    - left. by apply (add_nodes_dict_links limit t 0 empty_graph G []
                        entering_empty Hclosed (Hnn ltac:(done))).
    - right. by injection Hrun as <-. }
  destruct Hvisited as [(E & -> & Hs & HF) | ->].
  - split; [done |]. eapply Forall_impl; [exact HF |]. simpl. intros e He. lia.
  - split; [done | constructor].
Qed.

End BuilderEdges.

Lemma builder_edges_form_tree_witness :
  [1; 2; 3] = seq 1 (4 - 1)
  ∧ Forall (λ e : nat * nat, e.1 < e.2) [(0, 1); (1, 2); (0, 3)].
Proof.
  apply (builder_edges_form_tree py_str 1000 example_tree
           {| nodes := [(0, Some "1"); (1, Some "2"); (2, Some "4"); (3, Some "3")];
              edges := [(0, 1); (1, 2); (0, 3)] |}).
  vm_compute. reflexivity.
Defined.

(** ** The canonical graph builder: when it returns and when it raises *)

Section BuilderErrors.
Variable str : pyval → string.

Lemma binary_tree_truthy h t : binary_tree (S h) t → truthy t = true.
Proof. by inversion 1. Qed.

Lemma binary_tree_none t : binary_tree 0 t → t = PNone.
Proof. by inversion 1. Qed.

Lemma add_nodes_binary_too_deep h t :
  binary_tree h t → ∀ limit id G,
    limit < h →
    TreeBuilder.add_nodes_binary str limit t id G = Raise RecursionError.
Proof.
  induction 1 as [|name val l r hl hr Hl IHl Hr IHr]; intros limit id G Hh; [lia |].
  destruct limit as [|limit]; [done |]. simpl.
  set (G1 := add_node G id _).
  destruct (le_lt_dec hl limit) as [Hfit | Hdeep].
  - assert (Hleft : ∃ G2,
              (if truthy l
               then TreeBuilder.add_nodes_binary str limit l (length (nodes G1))
                      (add_edge G1 id (length (nodes G1)))
               else Ok G1) = Ok G2).
    { destruct (truthy l) eqn:Htl; [| eauto].
      by apply (add_nodes_binary_returns str hl l Hl). }
    destruct Hleft as [G2 ->]. simpl.
    destruct hr as [|hr]; [lia |].
    rewrite (binary_tree_truthy _ _ Hr). apply IHr. lia.
  - destruct hl as [|hl]; [lia |].
    rewrite (binary_tree_truthy _ _ Hl), IHl by lia. done.
Qed.

(** X3: on a binary tree of [TreeNode] instances that is higher than the
    number of nested [add_nodes] calls the interpreter allows, the builder
    raises the recursion error, however the tree is shaped: one of its
    branches takes one nested call per level. *)
Theorem builder_raises_beyond_the_limit (limit h : nat) (t : pyval) :
  binary_tree h t → limit < h →
  TreeBuilder._tree_to_networkx str limit t = Raise RecursionError.
Proof.
  intros Ht Hh. destruct Ht as [|name val l r hl hr Hl Hr]; [lia |].
  apply (add_nodes_binary_too_deep _ _ (binary_node name val l r hl hr Hl Hr)
           limit 0 empty_graph Hh).
Qed.

Lemma add_nodes_binary_step depth node node_id G :
  TreeBuilder.add_nodes_binary str (S depth) node node_id G
  = if is_None node then Ok G else
    let label := str (getattr node "val" (getattr node "value" node)) in
    let G := add_node G node_id label in
    left ← attr node "left";
    G ← (if truthy left then
           let left_id := length (nodes G) in
           TreeBuilder.add_nodes_binary str depth left left_id
             (add_edge G node_id left_id)
         else Ok G);
    right ← attr node "right";
    if truthy right then
      let right_id := length (nodes G) in
      TreeBuilder.add_nodes_binary str depth right right_id
        (add_edge G node_id right_id)
    else Ok G.
Proof. reflexivity. Qed.

(** X4: under the left/right shape, a left child that is a true value
    but has no [left] attribute (a number, a text, a list, a mapping, an
    instance of another class) makes the builder raise the attribute
    error, whatever the rest of the tree is. *)
Theorem binary_child_without_left_raises (limit : nat) (t l r : pyval) :
  py_getattr t "left" = Some l → py_getattr t "right" = Some r →
  truthy l = true → py_getattr l "left" = None →
  TreeBuilder._tree_to_networkx str (S (S limit)) t = Raise AttributeError.
Proof.
  intros Hl Hr Htl Hll. unfold TreeBuilder._tree_to_networkx, hasattr.
  rewrite Hl, Hr, !bool_decide_eq_true_2 by eauto.
  assert (Hnn : is_None t = false) by (by destruct t).
  assert (Hnl : is_None l = false) by (by destruct l).
  assert (Hal : attr t "left" = Ok l) by (unfold attr; by rewrite Hl).
  assert (Hall : attr l "left" = Raise AttributeError)
    by (unfold attr; by rewrite Hll).
  cbn [andb]. rewrite add_nodes_binary_step, Hnn. cbv zeta.
  rewrite Hal. cbn [mbind result_bind]. rewrite Htl.
  rewrite add_nodes_binary_step, Hnl. cbv zeta. by rewrite Hall.
Qed.

(** X5: under the children-list shape, a [children] attribute that is a
    true value but cannot be iterated (a number, [True], an instance)
    makes the builder raise the type error. *)
Theorem children_not_iterable_raises (limit : nat) (t c : pyval) :
  hasattr t "left" && hasattr t "right" = false →
  py_getattr t "children" = Some c →
  truthy c = true → py_iter c = Raise TypeError →
  TreeBuilder._tree_to_networkx str (S limit) t = Raise TypeError.
Proof.
  intros Hlr Hc Htc Hiter. unfold TreeBuilder._tree_to_networkx.
  rewrite Hlr. unfold hasattr. rewrite Hc, bool_decide_eq_true_2 by eauto.
  assert (Hnn : is_None t = false) by (by destruct t).
  simpl. rewrite Hnn. unfold attr. rewrite Hc. simpl. by rewrite Htc, Hiter.
Qed.

(** X6: under the mapping shape, a first child that is a true value but
    no mapping (a number, a text, a list) makes the builder raise the
    attribute error: it has no [get]. *)
Theorem mapping_child_not_mapping_raises (limit : nat)
    (d : list (pyval * pyval)) (v child : pyval) (rest : list pyval) :
  entry "value" d = Some v →
  entry "children" d = Some (PList (child :: rest)) →
  truthy child = true →
  isinstance_dict child = false → py_getattr child "get" = None →
  TreeBuilder._tree_to_networkx str (S (S limit)) (PDict d) = Raise AttributeError.
Proof.
  intros Hv Hc Htc Hnd Hget. unfold TreeBuilder._tree_to_networkx, hasattr.
  simpl py_getattr. rewrite !bool_decide_eq_false_2 by (intros [? ?]; discriminate).
  simpl. rewrite Hv, bool_decide_eq_true_2 by eauto. simpl.
  rewrite Hc. simpl. rewrite Htc.
  assert (Hnn : is_None child = false) by (by destruct child).
  rewrite Hnn.
  destruct child as [| | | | |d'|name attrs]; try done.
  simpl in Hget. simpl. rewrite bool_decide_eq_false_2; [done |].
  rewrite Hget. intros [? ?]; discriminate.
Qed.

End BuilderErrors.

Lemma example_tree_height : binary_tree 3 example_tree.
Proof.
  apply (binary_node _ _ _ _ 2 1).
  - apply (binary_node _ _ _ _ 0 1); [constructor |].
    apply (binary_node _ _ _ _ 0 0); constructor.
  - apply (binary_node _ _ _ _ 0 0); constructor.
Qed.

Lemma builder_raises_beyond_the_limit_witness :
  TreeBuilder._tree_to_networkx py_str 2 example_tree = Raise RecursionError.
Proof.
  apply (builder_raises_beyond_the_limit py_str 2 3 example_tree).
  - exact example_tree_height.
  - lia.
Defined.

Lemma binary_child_without_left_raises_witness :
  TreeBuilder._tree_to_networkx py_str 2 (TreeNode "<TreeNode 1>" 1 (PInt 5) PNone)
  = Raise AttributeError.
Proof.
  apply (binary_child_without_left_raises py_str 0 _ (PInt 5) PNone); reflexivity.
Defined.

Lemma children_not_iterable_raises_witness :
  TreeBuilder._tree_to_networkx py_str 1
    (PObj "<Node>" [("value", PInt 1); ("children", PInt 5)])
  = Raise TypeError.
Proof.
  apply (children_not_iterable_raises py_str 0 _ (PInt 5)); reflexivity.
Defined.

Lemma mapping_child_not_mapping_raises_witness :
  TreeBuilder._tree_to_networkx py_str 2
    (PDict [(PStr "value", PInt 1); (PStr "children", PList [PInt 2])])
  = Raise AttributeError.
Proof.
  apply (mapping_child_not_mapping_raises py_str 0 _ (PInt 1) (PInt 2) []);
    reflexivity.
Defined.

(** ** Drawing lists of cells *)

Lemma elem_of_concat_imap {A B} (f : nat → A → list B) (l : list A) (x : B) :
  x ∈ concat (imap f l) ↔ ∃ i a, l !! i = Some a ∧ x ∈ f i a.
Proof.
  revert f. induction l as [|a l IH]; intros f; simpl.
  - split; [by intros ?%elem_of_nil | by intros (i & a & ? & _)].
  - rewrite elem_of_app, IH. split.
    + intros [Hx | (i & b & Hl & Hx)]; [by exists 0, a | by exists (S i), b].
    + intros ([|i] & b & Hl & Hx); [left; by injection Hl as -> | right; eauto].
Qed.

Lemma length_concat_imap {A B} (f : nat → A → list B) (l : list A) (n : nat) :
  (∀ i a, length (f i a) = n) → length (concat (imap f l)) = n * length l.
Proof.
  intros Hf. revert f Hf. induction l as [|a l IH]; intros f Hf; simpl; [lia |].
  rewrite length_app, Hf, (IH (f ∘ S)); [lia |]. intros i b. apply Hf.
Qed.

Lemma of_nat_pos (n : nat) : 0 < n → ¬ (of_nat n == 0)%Q.
Proof. unfold of_nat, Qeq. simpl. lia. Qed.




(** ** list.py: what [display_snapshot] draws *)

Section ListDrawing.
Variable str : pyval → string.
Variable py_eq : pyval → pyval → bool.

Lemma list_display_artists tracer step data md hi hv hr title show frame :
  get_snapshot tracer step = Ok (Some data, md) →
  ListVisualizer.display_snapshot str py_eq tracer step hi hv hr title show
  = Ok (Shown frame) →
  f_artists frame
  = concat (imap (ListVisualizer.cell str py_eq
                    (1 / of_nat (max (length data) 1))%Q hi hv show) data)
    ++ concat (map (ListVisualizer.range_box (length data)
                      (1 / of_nat (max (length data) 1))%Q) (default [] hr)).
Proof.
  intros Hsnap H. unfold ListVisualizer.display_snapshot in H.
  rewrite Hsnap in H. cbn [mbind result_bind] in H.
  ok_inv H. injection H as <-. cbn [f_artists]. f_equal.
  by destruct hr as [[|r rs]|].
Qed.

Lemma list_cell_drawn tracer step data md hi hv hr title show frame i val :
  get_snapshot tracer step = Ok (Some data, md) →
  ListVisualizer.display_snapshot str py_eq tracer step hi hv hr title show
  = Ok (Shown frame) →
  data !! i = Some val →
  ∀ a, a ∈ ListVisualizer.cell str py_eq (1 / of_nat (max (length data) 1))%Q
             hi hv show i val →
       a ∈ f_artists frame.
Proof.
  intros Hsnap Hshow Hi a Ha.
  rewrite (list_display_artists _ _ _ _ _ _ _ _ _ _ Hsnap Hshow).
  apply elem_of_app. left. apply elem_of_concat_imap. by exists i, val.
Qed.

(** X7: the cell of element [i] is drawn in the value-highlight colour
    when its value is among the highlight values, else in the
    index-highlight colour when [i] is among the highlight indices, else
    in the default colour: a value highlight overrides an index
    highlight. *)
Theorem list_value_highlight_overrides_index
    tracer step data md hi hv hr title show frame (i : nat) (val : pyval) :
  get_snapshot tracer step = Ok (Some data, md) →
  ListVisualizer.display_snapshot str py_eq tracer step hi hv hr title show
  = Ok (Shown frame) →
  data !! i = Some val →
  let cell_width := (1 / of_nat (max (length data) 1))%Q in
  let colour :=
    if existsb (py_eq val) (default [] hv) then "#8dc7f3"
    else if bool_decide (Z.of_nat i ∈ default [] hi) then "#ffcf75"
    else "#f0f0f0" in
  Rectangle (of_nat i * cell_width, 0)%Q cell_width (1#2)
    [("facecolor", colour); ("edgecolor", "black")] ∈ f_artists frame
  ∧ Text ((of_nat i + (1#2)) * cell_width)%Q (1#4) (str val)
      [("ha", "center"); ("va", "center"); ("color", "black")] ∈ f_artists frame.
Proof.
  intros Hsnap Hshow Hi cell_width colour.
  assert (Hcolour :
    colour = (if given hv && ListVisualizer.contains py_eq hv val then "#8dc7f3"
              else if given hi && bool_decide (Z.of_nat i ∈ default [] hi)
                   then "#ffcf75" else "#f0f0f0")).
  { unfold colour, ListVisualizer.contains.
    destruct hv as [[|v vs]|], hi as [[|j js]|]; simpl; try done;
      by destruct (_ || _). }
  split; apply (list_cell_drawn _ _ _ _ _ _ _ _ _ _ _ _ Hsnap Hshow Hi);
    unfold ListVisualizer.cell; rewrite <-Hcolour;
    rewrite !elem_of_app, !elem_of_cons; auto.
Qed.

(** X9: the red boxes of a frame are exactly the highlight ranges with
    both ends inside the list, each drawn from the start of cell [start]
    over [end - start + 1] cells. *)
Theorem list_red_boxes_are_in_bounds_ranges
    tracer step data md hi hv hr title show frame (xy : Q * Q) (width : Q) :
  get_snapshot tracer step = Ok (Some data, md) →
  ListVisualizer.display_snapshot str py_eq tracer step hi hv hr title show
  = Ok (Shown frame) →
  let cell_width := (1 / of_nat (max (length data) 1))%Q in
  Rectangle xy width (1#2)
    [("fill", "False"); ("edgecolor", "red"); ("linewidth", "2")] ∈ f_artists frame
  ↔ ∃ start end_ : Z,
      (start, end_) ∈ default [] hr
      ∧ (0 ≤ start < Z.of_nat (length data))%Z
      ∧ (0 ≤ end_ < Z.of_nat (length data))%Z
      ∧ xy = (inject_Z start * cell_width, 0)%Q
      ∧ width = (inject_Z (end_ - start + 1) * cell_width)%Q.
Proof.
  intros Hsnap Hshow cell_width.
  rewrite (list_display_artists _ _ _ _ _ _ _ _ _ _ Hsnap Hshow).
  fold cell_width. rewrite elem_of_app. split.
  - intros [Hcell | Hbox].
    + apply elem_of_concat_imap in Hcell as (i & val & _ & Hin).
      unfold ListVisualizer.cell in Hin.
      destruct show;
        rewrite !elem_of_app, !elem_of_cons, !elem_of_nil in Hin;
        exfalso; intuition discriminate.
    + apply list_elem_of_In, in_concat in Hbox as (box & Hmap & Hin).
      apply in_map_iff in Hmap as ([start end_] & <- & Hr).
      unfold ListVisualizer.range_box in Hin.
      destruct (bool_decide (0 ≤ start < _)%Z) eqn:H1;
        destruct (bool_decide (0 ≤ end_ < _)%Z) eqn:H2;
        simpl in Hin; try done.
      destruct Hin as [[= <- <-]|[]].
      apply bool_decide_eq_true_1 in H1, H2. apply list_elem_of_In in Hr.
      by exists start, end_.
  - intros (start & end_ & Hr & H1 & H2 & -> & ->). right.
    apply list_elem_of_In, in_concat.
    exists (ListVisualizer.range_box (length data) cell_width (start, end_)). split.
    + apply in_map. by apply list_elem_of_In.
    + unfold ListVisualizer.range_box.
      rewrite !bool_decide_eq_true_2 by done. by left.
Qed.

End ListDrawing.

(** The five-element list shown with index 2 and value 30 (at index 2)
    both highlighted, and the ranges (1, 3) and (2, 10). *)
Lemma list_value_highlight_overrides_index_witness :
  ∃ frame,
    ListVisualizer.display_snapshot py_str py_eq_atoms five_elements 0
      (Some [2%Z]) (Some [PInt 30]) (Some [(1, 3)%Z; (2, 10)%Z]) None true
    = Ok (Shown frame)
    ∧ Rectangle (of_nat 2 * (1 / of_nat 5), 0)%Q (1 / of_nat 5)%Q (1#2)
        [("facecolor", "#8dc7f3"); ("edgecolor", "black")] ∈ f_artists frame
    ∧ Text ((of_nat 2 + (1#2)) * (1 / of_nat 5))%Q (1#4) "30"
        [("ha", "center"); ("va", "center"); ("color", "black")] ∈ f_artists frame.
Proof.
  eexists. split; [reflexivity |].
  apply (list_value_highlight_overrides_index py_str py_eq_atoms five_elements 0
           [PInt 10; PInt 20; PInt 30; PInt 40; PInt 50] {["step" := PInt 0]}
           (Some [2%Z]) (Some [PInt 30]) (Some [(1, 3)%Z; (2, 10)%Z]) None true _
           2 (PInt 30)); reflexivity.
Defined.

Lemma list_red_boxes_are_in_bounds_ranges_witness :
  ∃ frame,
    ListVisualizer.display_snapshot py_str py_eq_atoms five_elements 0
      None None (Some [(1, 3)%Z; (2, 10)%Z]) None true = Ok (Shown frame)
    ∧ (Rectangle (inject_Z 1 * (1 / of_nat 5), 0)%Q
         (inject_Z (3 - 1 + 1) * (1 / of_nat 5))%Q (1#2)
         [("fill", "False"); ("edgecolor", "red"); ("linewidth", "2")]
       ∈ f_artists frame
       ↔ ∃ start end_ : Z,
           (start, end_) ∈ [(1, 3)%Z; (2, 10)%Z]
           ∧ (0 ≤ start < 5)%Z ∧ (0 ≤ end_ < 5)%Z
           ∧ (inject_Z 1 * (1 / of_nat 5), 0)%Q
             = (inject_Z start * (1 / of_nat 5), 0)%Q
           ∧ (inject_Z (3 - 1 + 1) * (1 / of_nat 5))%Q
             = (inject_Z (end_ - start + 1) * (1 / of_nat 5))%Q).
Proof.
  eexists. split; [reflexivity |].
  apply (list_red_boxes_are_in_bounds_ranges py_str py_eq_atoms five_elements 0
           [PInt 10; PInt 20; PInt 30; PInt 40; PInt 50] {["step" := PInt 0]}
           None None (Some [(1, 3)%Z; (2, 10)%Z]) None true); reflexivity.
Defined.

(** ** list.py: the animation and the interactive player *)

Section ListPlayback.
Variable str : pyval → string.
Variable py_eq : pyval → pyval → bool.

(** X10: the list animation has one frame per stored step; [update]
    raises the index error beyond them, and on a stored step whose
    metadata has a step number it draws every element of that snapshot
    (a cell and a value, and an index when asked for). *)
Theorem list_animation_one_frame_per_step
    (tracer : DataStructureTracer (list pyval)) (interval : Z)
    (repeat show_indices : bool)
    (anim : FuncAnimation (nat → result (Frame no_drawing))) :
  ListVisualizer.create_animation str tracer interval repeat show_indices
  = Shown anim →
  frames anim = length (snapshots tracer)
  ∧ (∀ i, length (snapshots tracer) ≤ i → func anim i = Raise IndexError)
  ∧ (∀ i data md n,
       snapshots tracer !! i = Some data → metadata tracer !! i = Some md →
       md !! "step" = Some n →
       ∃ frame, func anim i = Ok frame
                ∧ length (f_artists frame)
                  = (if show_indices then 3 else 2) * length data).
Proof.
  unfold ListVisualizer.create_animation.
  destruct (snapshots tracer) as [|s0 ss] eqn:Hs; [discriminate |].
  rewrite <-Hs. intros [= <-]. cbn [frames func]. split; [done |]. split.
  - intros i Hi. by rewrite (lookup_ge_None_2 _ _ Hi).
  - intros i data md n Hdata Hmd Hn. rewrite Hdata, Hmd. cbn [from_opt mbind result_bind].
    assert (Htitle : ∃ t, update_title str md = Ok t).
    { unfold update_title, step_description, step_only. rewrite Hn. simpl.
      unfold has_description. destruct (md !! "description") as [d|]; simpl;
        [destruct (truthy d) |]; eauto. }
    destruct Htitle as [t ->]. eexists. split; [reflexivity |]. cbn [f_artists].
    apply length_concat_imap. intros j a. unfold ListVisualizer.plain_cell.
    by destruct show_indices.
Qed.

(** X11: on a store whose every entry has its metadata with a step
    number, the interactive player's slider runs over the stored steps
    only, and at every position [show_step] displays a frame without
    raising, and prints the step with its description exactly when the
    entry has a non-empty one. *)
Theorem player_slider_within_stored_steps
    (tracer : DataStructureTracer (list pyval))
    (least greatest first : nat)
    (show : nat → result (Outcome (Frame no_drawing) * option string)) :
  ListVisualizer.interactive_player str py_eq tracer
  = Shown (least, greatest, first, show) →
  (∀ i data, snapshots tracer !! i = Some data →
     ∃ md n, metadata tracer !! i = Some md ∧ md !! "step" = Some n) →
  least = 0 ∧ first = 0 ∧ S greatest = length (snapshots tracer)
  ∧ ∀ step, least ≤ step ≤ greatest →
      ∃ frame md,
        metadata tracer !! step = Some md
        ∧ show step
          = Ok (Shown frame,
                if has_description md
                then Some ("Step " +:+ str (PInt (Z.of_nat step)) +:+ ": "
                           +:+ str (default PNone (md !! "description")))
                else None).
Proof.
  unfold ListVisualizer.interactive_player.
  destruct (snapshots tracer) as [|s0 ss] eqn:Hs; [discriminate |].
  rewrite <-Hs. intros [= <- <- <- <-] Hmeta.
  assert (Hlen : 0 < length (snapshots tracer)) by (rewrite Hs; simpl; lia).
  split; [done |]. split; [done |]. split; [lia |].
  intros step Hstep.
  destruct (lookup_lt_is_Some_2 (snapshots tracer) step ltac:(lia)) as [data Hdata].
  destruct (Hmeta step data Hdata) as (md & n & Hmd & Hn).
  unfold ListVisualizer.show_step, ListVisualizer.display_snapshot.
  rewrite (get_snapshot_at tracer step data md Hdata Hmd).
  cbn [mbind result_bind]. unfold display_title, title_given.
  unfold step_description, step_only. rewrite Hn, Hmd. cbn [from_opt mbind result_bind].
  unfold has_description.
  destruct (md !! "description") as [d|] eqn:Hd; simpl;
    [destruct (truthy d) eqn:Ht |]; simpl;
    eexists _, md; (split; [done |]); rewrite Hd; simpl; rewrite ?Ht; reflexivity.
Qed.

End ListPlayback.

Lemma list_animation_one_frame_per_step_witness :
  ∃ anim,
    ListVisualizer.create_animation py_str five_elements 1000 false true = Shown anim
    ∧ frames anim = 1
    ∧ (∀ i, 1 ≤ i → func anim i = Raise IndexError)
    ∧ (∀ i data md n,
         snapshots five_elements !! i = Some data →
         metadata five_elements !! i = Some md →
         md !! "step" = Some n →
         ∃ frame, func anim i = Ok frame
                  ∧ length (f_artists frame) = 3 * length data).
Proof.
  eexists. split; [reflexivity |].
  apply (list_animation_one_frame_per_step py_str five_elements 1000 false true).
  reflexivity.
Defined.

Lemma player_slider_within_stored_steps_witness :
  ∃ show,
    ListVisualizer.interactive_player py_str py_eq_atoms five_elements
    = Shown (0, 0, 0, show)
    ∧ 0 = 0 ∧ 0 = 0 ∧ 1 = length (snapshots five_elements)
    ∧ ∀ step, 0 ≤ step ≤ 0 →
        ∃ frame md,
          metadata five_elements !! step = Some md
          ∧ show step
            = Ok (Shown frame,
                  if has_description md
                  then Some ("Step " +:+ py_str (PInt (Z.of_nat step)) +:+ ": "
                             +:+ py_str (default PNone (md !! "description")))
                  else None).
Proof.
  eexists. split; [reflexivity |].
  apply (player_slider_within_stored_steps py_str py_eq_atoms five_elements 0 0 0).
  - reflexivity.
  - intros [|i] data Hdata; [| discriminate].
    exists {["step" := PInt 0]}, (PInt 0). split; reflexivity.
Defined.

(** ** stack.py and que.py *)

Section StackQueue.
Variable str : pyval → string.

(** X12: the stack animation draws every stored step whose metadata has
    a step number, an empty stack too: two artists for each element and
    two for the Top marker of a non-empty stack, nothing for an empty
    one; the title always has the colon, followed by the description or
    by nothing. *)
Theorem stack_animation_draws_every_step
    (tracer : DataStructureTracer (list pyval)) (interval : Z) (repeat : bool)
    (anim : FuncAnimation (nat → result (Frame no_drawing)))
    (i : nat) (stack : list pyval) (md : Metadata) (n : pyval) :
  StackVisualizer.create_animation str tracer interval repeat = Shown anim →
  snapshots tracer !! i = Some stack → metadata tracer !! i = Some md →
  md !! "step" = Some n →
  ∃ frame,
    func anim i = Ok frame
    ∧ length (f_artists frame)
      = 2 * length stack + (if 0 <? length stack then 2 else 0)
    ∧ f_title frame
      = Some ("Step " +:+ str n +:+ ": "
              +:+ str (default (PStr "") (md !! "description"))).
Proof.
  unfold StackVisualizer.create_animation.
  destruct (snapshots tracer) as [|s0 ss] eqn:Hs; [discriminate |].
  rewrite <-Hs. intros [= <-] Hstack Hmd Hn. cbn [func].
  rewrite Hstack, Hmd. cbn [from_opt mbind result_bind]. rewrite Hn.
  cbn [from_opt mbind result_bind]. eexists. split; [reflexivity |].
  cbn [f_artists f_title]. split; [| done].
  rewrite length_app, (length_concat_imap _ _ 2) by done.
  by destruct (0 <? length stack).
Qed.

Lemma stack_display_artists tracer step data md highlight title frame :
  get_snapshot tracer step = Ok (Some data, md) →
  StackVisualizer.display_snapshot str tracer step highlight title
  = Ok (Shown frame) →
  data ≠ []
  ∧ f_artists frame
    = concat (imap (StackVisualizer.element str ((8#10) / of_nat (length data))%Q) data)
      ++ (if highlight
          then StackVisualizer.top_mark (length data) ((8#10) / of_nat (length data))%Q
          else []).
Proof.
  intros Hsnap H. unfold StackVisualizer.display_snapshot in H.
  rewrite Hsnap in H. cbn [mbind result_bind] in H.
  destruct data as [|x data]; [discriminate |]. split; [done |].
  cbn [length Nat.eqb] in H. cbn [from_opt mbind result_bind] in H.
  ok_inv H. injection H as <-. cbn [f_artists]. by rewrite andb_true_r.
Qed.

(** X13: in the frame [display_snapshot] shows for a stack, the last
    element of the snapshot is drawn as the uppermost rectangle, at
    height [(N - 1) * 0.8 / N], and the Top marker, drawn exactly when
    [highlight_top] is set, is a rectangle at the same place and of the
    same size. *)
Theorem stack_top_marks_last_element
    (tracer : DataStructureTracer (list pyval)) (step : Z)
    (below : list pyval) (x : pyval) (md : Metadata)
    (highlight_top : bool) (title : option string) (frame : Frame no_drawing) :
  get_snapshot tracer step = Ok (Some (below ++ [x]), md) →
  StackVisualizer.display_snapshot str tracer step highlight_top title
  = Ok (Shown frame) →
  let N := length (below ++ [x]) in
  let element_height := ((8#10) / of_nat N)%Q in
  let y := (of_nat (N - 1) * element_height)%Q in
  Rectangle (1#10, y) (8#10) element_height
    [("facecolor", "lightblue"); ("edgecolor", "black")] ∈ f_artists frame
  ∧ Text (1#2) (y + element_height / 2)%Q (str x)
      [("ha", "center"); ("va", "center")] ∈ f_artists frame
  ∧ (Rectangle (1#10, y) (8#10) element_height
       [("facecolor", "yellow"); ("edgecolor", "black"); ("alpha", "0.5")]
     ∈ f_artists frame ↔ highlight_top = true).
Proof.
  intros Hsnap Hshow N element_height y.
  destruct (stack_display_artists _ _ _ _ _ _ _ Hsnap Hshow) as [_ ->].
  fold N element_height.
  assert (HN : N - 1 = length below) by (unfold N; rewrite length_app; simpl; lia).
  assert (Hlast : (below ++ [x]) !! (N - 1) = Some x)
    by (rewrite HN; apply list_lookup_middle; done).
  split; [| split].
  - apply elem_of_app. left. apply elem_of_concat_imap. exists (N - 1), x.
    split; [done |]. unfold StackVisualizer.element. rewrite !elem_of_cons. auto.
  - apply elem_of_app. left. apply elem_of_concat_imap. exists (N - 1), x.
    split; [done |]. unfold StackVisualizer.element. rewrite !elem_of_cons. auto.
  - rewrite elem_of_app. split.
    + intros [Hin | Hin].
      * apply elem_of_concat_imap in Hin as (j & a & _ & Hin).
        unfold StackVisualizer.element in Hin.
        rewrite !elem_of_cons, elem_of_nil in Hin. exfalso. intuition discriminate.
      * destruct highlight_top; [done | by apply elem_of_nil in Hin].
    + intros ->. right. unfold StackVisualizer.top_mark. rewrite !elem_of_cons. auto.
Qed.

(** X14: the queue animation raises the unbound-local error on every
    stored step whose queue is empty: [element_width] is bound in the
    non-empty branch of [update] only. *)
Theorem queue_animation_empty_step_raises
    (tracer : DataStructureTracer (list pyval)) (interval : Z)
    (repeat show_code : bool)
    (anim : FuncAnimation (nat → result (Frame no_drawing)))
    (i : nat) (md : Metadata) :
  QueueVisualizer.create_animation str tracer interval repeat show_code = Shown anim →
  snapshots tracer !! i = Some [] → metadata tracer !! i = Some md →
  func anim i = Raise UnboundLocalError.
Proof.
  unfold QueueVisualizer.create_animation.
  destruct (snapshots tracer) as [|s0 ss] eqn:Hs; [discriminate |].
  rewrite <-Hs. intros [= <-] Hq Hmd. cbn [func]. by rewrite Hq, Hmd.
Qed.

Lemma queue_display_artists tracer step data md highlight show_code title frame :
  get_snapshot tracer step = Ok (Some data, md) →
  QueueVisualizer.display_snapshot str tracer step highlight show_code title
  = Ok (Shown frame) →
  data ≠ []
  ∧ f_artists frame
    = concat (imap (QueueVisualizer.element str
                      ((8#10) / of_nat (max 1 (length data)))%Q) data)
      ++ (if highlight
          then QueueVisualizer.front_rear (length data)
                 ((8#10) / of_nat (max 1 (length data)))%Q
          else []).
Proof.
  intros Hsnap H. unfold QueueVisualizer.display_snapshot in H.
  rewrite Hsnap in H. cbn [mbind result_bind] in H.
  destruct data as [|x data]; [discriminate |]. split; [done |].
  cbn [length Nat.eqb] in H. cbn [from_opt mbind result_bind] in H.
  ok_inv H. injection H as <-. cbn [f_artists]. by rewrite andb_true_r.
Qed.

(** X15: in the frame [display_snapshot] shows for a queue with
    [highlight_front_rear] set, the Front marker lies on the rectangle
    of the first element and the Rear marker on that of the last: each
    marker is a rectangle at the place and of the size of that
    element's. *)
Theorem queue_markers_on_first_and_last
    (tracer : DataStructureTracer (list pyval)) (step : Z)
    (data : list pyval) (first rear : pyval) (md : Metadata)
    (show_code : bool) (title : option string) (frame : Frame no_drawing) :
  get_snapshot tracer step = Ok (Some data, md) →
  QueueVisualizer.display_snapshot str tracer step true show_code title
  = Ok (Shown frame) →
  data !! 0 = Some first → data !! (length data - 1) = Some rear →
  let element_width := ((8#10) / of_nat (length data))%Q in
  let marker := [("facecolor", "yellow"); ("edgecolor", "black"); ("alpha", "0.5")] in
  let drawn := [("facecolor", "lightgreen"); ("edgecolor", "black")] in
  (∃ x0 x1,
     Rectangle (x0, 1#10) element_width (8#10) drawn ∈ f_artists frame
     ∧ Text (x0 + element_width / 2)%Q (1#2) (str first)
         [("ha", "center"); ("va", "center")] ∈ f_artists frame
     ∧ Rectangle (x1, 1#10) element_width (8#10) marker ∈ f_artists frame
     ∧ (x0 == x1)%Q)
  ∧ (∃ x, Rectangle (x, 1#10) element_width (8#10) drawn ∈ f_artists frame
          ∧ Text (x + element_width / 2)%Q (1#2) (str rear)
              [("ha", "center"); ("va", "center")] ∈ f_artists frame
          ∧ Rectangle (x, 1#10) element_width (8#10) marker ∈ f_artists frame).
Proof.
  intros Hsnap Hshow Hfirst Hrear element_width marker drawn.
  destruct (queue_display_artists _ _ _ _ _ _ _ _ Hsnap Hshow) as [Hne ->].
  assert (Hlen : max 1 (length data) = length data)
    by (destruct data; [done | simpl; lia]).
  rewrite Hlen. fold element_width.
  split.
  - exists (of_nat 0 * element_width)%Q, 0%Q. split; [| split; [| split]].
    + apply elem_of_app. left. apply elem_of_concat_imap. exists 0, first.
      split; [done |]. unfold QueueVisualizer.element. rewrite !elem_of_cons. auto.
    + apply elem_of_app. left. apply elem_of_concat_imap. exists 0, first.
      split; [done |]. unfold QueueVisualizer.element. rewrite !elem_of_cons. auto.
    + apply elem_of_app. right. unfold QueueVisualizer.front_rear.
      rewrite !elem_of_cons. auto.
    + unfold of_nat. simpl. ring.
  - exists (of_nat (length data - 1) * element_width)%Q. split; [| split].
    + apply elem_of_app. left. apply elem_of_concat_imap.
      exists (length data - 1), rear.
      split; [done |]. unfold QueueVisualizer.element. rewrite !elem_of_cons. auto.
    + apply elem_of_app. left. apply elem_of_concat_imap.
      exists (length data - 1), rear.
      split; [done |]. unfold QueueVisualizer.element. rewrite !elem_of_cons. auto.
    + apply elem_of_app. right. unfold QueueVisualizer.front_rear.
      rewrite !elem_of_cons. auto.
Qed.

End StackQueue.

Lemma stack_animation_draws_every_step_witness :
  ∃ anim frame,
    StackVisualizer.create_animation py_str initial_state 1000 false = Shown anim
    ∧ func anim 0 = Ok frame
    ∧ length (f_artists frame) = 0
    ∧ f_title frame = Some "Step 0: Initial state".
Proof.
  eexists.
  destruct (stack_animation_draws_every_step py_str initial_state 1000 false _ 0 []
              (<["description" := PStr "Initial state"]> {["step" := PInt 0]})
              (PInt 0) eq_refl eq_refl eq_refl eq_refl) as (frame & H).
  exists frame. split; [reflexivity | exact H].
Defined.

Lemma stack_top_marks_last_element_witness :
  ∃ frame,
    StackVisualizer.display_snapshot py_str two_elements 0 true None = Ok (Shown frame)
    ∧ Rectangle (1#10, of_nat (2 - 1) * ((8#10) / of_nat 2))%Q (8#10)
        ((8#10) / of_nat 2)%Q
        [("facecolor", "lightblue"); ("edgecolor", "black")] ∈ f_artists frame
    ∧ Text (1#2) (of_nat (2 - 1) * ((8#10) / of_nat 2) + (8#10) / of_nat 2 / 2)%Q "20"
        [("ha", "center"); ("va", "center")] ∈ f_artists frame
    ∧ (Rectangle (1#10, of_nat (2 - 1) * ((8#10) / of_nat 2))%Q (8#10)
         ((8#10) / of_nat 2)%Q
         [("facecolor", "yellow"); ("edgecolor", "black"); ("alpha", "0.5")]
       ∈ f_artists frame ↔ true = true).
Proof.
  eexists. split; [reflexivity |].
  apply (stack_top_marks_last_element py_str two_elements 0 [PInt 10] (PInt 20)
           {["step" := PInt 0]} true None); reflexivity.
Defined.

Lemma queue_animation_empty_step_raises_witness :
  ∃ anim,
    QueueVisualizer.create_animation py_str initial_state 1500 false true = Shown anim
    ∧ func anim 0 = Raise UnboundLocalError.
Proof.
  eexists. split; [reflexivity |].
  apply (queue_animation_empty_step_raises py_str initial_state 1500 false true _ 0
           (<["description" := PStr "Initial state"]> {["step" := PInt 0]}));
    reflexivity.
Defined.

Lemma queue_markers_on_first_and_last_witness :
  ∃ frame,
    QueueVisualizer.display_snapshot py_str two_elements 0 true true None
    = Ok (Shown frame)
    ∧ ∃ x, Rectangle (x, 1#10) ((8#10) / of_nat 2)%Q (8#10)
             [("facecolor", "lightgreen"); ("edgecolor", "black")] ∈ f_artists frame
           ∧ Text (x + (8#10) / of_nat 2 / 2)%Q (1#2) "20"
               [("ha", "center"); ("va", "center")] ∈ f_artists frame
           ∧ Rectangle (x, 1#10) ((8#10) / of_nat 2)%Q (8#10)
               [("facecolor", "yellow"); ("edgecolor", "black"); ("alpha", "0.5")]
             ∈ f_artists frame.
Proof.
  eexists. split; [reflexivity |].
  apply (queue_markers_on_first_and_last py_str two_elements 0
           [PInt 10; PInt 20] (PInt 10) (PInt 20) {["step" := PInt 0]} true None);
    reflexivity.
Defined.

(** ** dict.py: the grid *)

Lemma ceil_sqrt_least (n : nat) :
  0 < n →
  n ≤ ceil_sqrt n * ceil_sqrt n ∧ (ceil_sqrt n - 1) * (ceil_sqrt n - 1) < n.
Proof.
  intros Hn. unfold ceil_sqrt. pose proof (Nat.sqrt_spec n ltac:(lia)) as [Hlo Hhi].
  destruct (Nat.eqb_spec (Nat.sqrt n * Nat.sqrt n) n) as [Heq | Hne].
  - split; [lia |]. destruct (Nat.sqrt n) as [|r]; [lia |]. simpl. nia.
  - split; [lia |]. replace (S (Nat.sqrt n) - 1) with (Nat.sqrt n) by lia. lia.
Qed.


Lemma unit_fraction_nonzero (g : nat) : 0 < g → ¬ (1 / of_nat g == 0)%Q.
Proof.
  intros Hg Hzero. pose proof (of_nat_pos g Hg) as Hpos.
  assert (Hone : (of_nat g * (1 / of_nat g) == 1)%Q) by (by field).
  rewrite Hzero, Qmult_0_r in Hone. discriminate Hone.
Qed.

Lemma of_nat_inj (m n : nat) : (of_nat m == of_nat n)%Q → m = n.
Proof. unfold of_nat. rewrite inject_Z_injective. lia. Qed.

(** Two corners of the grid, each the lower left corner of a cell or
    half a cell above it, coincide only for one and the same cell. *)
Lemma grid_corners_apart (side ci cj ri rj : nat) (ui uj : bool) :
  0 < side →
  let w := (1 / of_nat side)%Q in
  (of_nat ci * w == of_nat cj * w)%Q →
  (1 - (of_nat ri + 1) * w + (if ui then w / 2 else 0)
   == 1 - (of_nat rj + 1) * w + (if uj then w / 2 else 0))%Q →
  ci = cj ∧ ri = rj.
Proof.
  intros Hside w Hx Hy. pose proof (unit_fraction_nonzero side Hside) as Hw.
  fold w in Hw. split.
  - apply Qmult_inj_r in Hx; [| done]. by apply of_nat_inj.
  - set (d := ((if ui then 1 # 2 else 0) - (if uj then 1 # 2 else 0))%Q).
    assert (Hd : ((of_nat ri - of_nat rj) * w == d * w)%Q).
    { transitivity
        (d * w
         + ((1 - (of_nat rj + 1) * w + (if uj then w / 2 else 0))
            - (1 - (of_nat ri + 1) * w + (if ui then w / 2 else 0))))%Q.
      - unfold d. destruct ui, uj; field.
      - rewrite Hy. ring. }
    apply Qmult_inj_r in Hd; [| done].
    unfold d, of_nat, Qeq, Qminus, Qplus, Qopp, inject_Z in Hd.
    destruct ui, uj; simpl in Hd; lia.
Qed.

Section DictDrawing.
Variable str : pyval → string.
Variable py_eq : pyval → pyval → bool.

Lemma dict_item_drawn tracer step data md hk hv title frame i kv a :
  get_snapshot tracer step = Ok (Some data, md) →
  DictionaryVisualizer.display_snapshot str py_eq tracer step hk hv title
  = Ok (Shown frame) →
  data !! i = Some kv →
  a ∈ DictionaryVisualizer.item str py_eq (ceil_sqrt (length data)) hk hv i kv →
  a ∈ f_artists frame.
Proof.
  intros Hsnap Hshow Hi Ha. pose proof (lookup_lt_Some _ _ _ Hi) as Hlt.
  unfold DictionaryVisualizer.display_snapshot in Hshow.
  rewrite Hsnap in Hshow. cbn [mbind result_bind] in Hshow.
  ok_inv Hshow. injection Hshow as <-. cbn [f_artists].
  unfold DictionaryVisualizer.grid.
  destruct (Nat.eqb_spec (length data) 0) as [H0 | _]; [lia |].
  apply elem_of_concat_imap. by exists i, kv.
Qed.

(** X16: in the frame [display_snapshot] shows for a dictionary, the
    rectangles of two different entries are all drawn, and no rectangle
    of the one has its corner where a rectangle of the other has its:
    different entries are drawn in different cells of the grid. *)
Theorem dict_entries_drawn_apart
    (tracer : DataStructureTracer (list (pyval * pyval))) (step : Z)
    (data : list (pyval * pyval)) (md : Metadata)
    (highlight_keys highlight_values : option (list pyval))
    (title : option string) (frame : Frame no_drawing)
    (i j : nat) (kvi kvj : pyval * pyval)
    (xy1 xy2 : Q * Q) (w1 h1 w2 h2 : Q) (kw1 kw2 : kwargs) :
  get_snapshot tracer step = Ok (Some data, md) →
  DictionaryVisualizer.display_snapshot str py_eq tracer step highlight_keys
    highlight_values title = Ok (Shown frame) →
  data !! i = Some kvi → data !! j = Some kvj → i ≠ j →
  Rectangle xy1 w1 h1 kw1
  ∈ DictionaryVisualizer.item str py_eq (ceil_sqrt (length data)) highlight_keys
      highlight_values i kvi →
  Rectangle xy2 w2 h2 kw2
  ∈ DictionaryVisualizer.item str py_eq (ceil_sqrt (length data)) highlight_keys
      highlight_values j kvj →
  Rectangle xy1 w1 h1 kw1 ∈ f_artists frame
  ∧ Rectangle xy2 w2 h2 kw2 ∈ f_artists frame
  ∧ ¬ (xy1.1 == xy2.1 ∧ xy1.2 == xy2.2)%Q.
Proof.
  intros Hsnap Hshow Hi Hj Hne H1 H2.
  split; [exact (dict_item_drawn _ _ _ _ _ _ _ _ i kvi _ Hsnap Hshow Hi H1) |].
  split; [exact (dict_item_drawn _ _ _ _ _ _ _ _ j kvj _ Hsnap Hshow Hj H2) |].
  pose proof (lookup_lt_Some _ _ _ Hi) as Hlt.
  destruct (ceil_sqrt_least (length data) ltac:(lia)) as [Hfit _].
  set (side := ceil_sqrt (length data)) in *.
  assert (Hside : 0 < side) by (destruct side; simpl in Hfit; lia).
  assert (Hcorner : ∀ k kv xy w h kw,
            Rectangle xy w h kw
            ∈ DictionaryVisualizer.item str py_eq side highlight_keys
                highlight_values k kv →
            ∃ up : bool,
              xy = (of_nat (k mod side) * (1 / of_nat side),
                    if up
                    then 1 - (of_nat (k / side) + 1) * (1 / of_nat side)
                         + 1 / of_nat side / 2
                    else 1 - (of_nat (k / side) + 1) * (1 / of_nat side))%Q).
  { intros k [key value] xy w h kw Hin. unfold DictionaryVisualizer.item in Hin.
    rewrite !elem_of_cons, elem_of_nil in Hin.
    destruct Hin as [[= -> _ _ _] | [[= -> _ _ _] | [? | [? | []]]]];
      try discriminate; [by exists true | by exists false]. }
  destruct (Hcorner _ _ _ _ _ _ H1) as [u1 ->].
  destruct (Hcorner _ _ _ _ _ _ H2) as [u2 ->]. cbn [fst snd].
  intros [Hx Hy].
  destruct (grid_corners_apart side (i mod side) (j mod side) (i / side) (j / side)
              u1 u2 Hside Hx) as [Hcol Hrow].
  { destruct u1, u2; rewrite ?Qplus_0_r; exact Hy. }
  apply Hne. rewrite (Nat.div_mod_eq i side), (Nat.div_mod_eq j side).
  by rewrite Hcol, Hrow.
Qed.


End DictDrawing.

Lemma dict_entries_drawn_apart_witness :
  ∃ frame,
    DictionaryVisualizer.display_snapshot py_str py_eq_atoms two_entries (-1)
      None None None = Ok (Shown frame)
    ∧ let w := (1 / of_nat (ceil_sqrt 2))%Q in
      let plain := [("facecolor", "#f0f0f0"); ("edgecolor", "black")] in
      let upper := (of_nat 0 * w, 1 - (of_nat 0 + 1) * w + w / 2)%Q in
      let lower := (of_nat 1 * w, 1 - (of_nat 0 + 1) * w)%Q in
      Rectangle upper w (w / 2)%Q plain ∈ f_artists frame
      ∧ Rectangle lower w (w / 2)%Q plain ∈ f_artists frame
      ∧ ¬ (upper.1 == lower.1 ∧ upper.2 == lower.2)%Q.
Proof.
  eexists. split; [reflexivity |].
  apply (dict_entries_drawn_apart py_str py_eq_atoms two_entries (-1)
           [(PStr "age", PInt 30); (PStr "name", PStr "Alice")]
           (<["description" := PStr "name -> Alice"]> {["step" := PInt 2]})
           None None None _ 0 1 (PStr "age", PInt 30) (PStr "name", PStr "Alice")).
  - reflexivity.
  - reflexivity.
  - reflexivity.
  - reflexivity.
  - discriminate.
  - apply list_elem_of_here.
  - apply list_elem_of_further, list_elem_of_here.
Defined.


(** ** graph.py *)

Section GraphDrawing.
Variable str : pyval → string.
Variable py_eq : pyval → pyval → bool.
Variable py_in : pyval → pyval → result bool.
Variables Pos RNG : Type.
Variable spring_layout : NxGraph → RNG → Pos * RNG.
Variables circular_layout kamada_kawai_layout shell_layout : NxGraph → Pos.

Local Abbreviation display_snapshot :=
  (GraphVisualizer.display_snapshot str py_eq Pos RNG spring_layout circular_layout
     kamada_kawai_layout shell_layout).
Local Abbreviation create_animation :=
  (GraphVisualizer.create_animation str py_in Pos RNG spring_layout circular_layout
     kamada_kawai_layout shell_layout).
Local Abbreviation precompute :=
  (GraphVisualizer.precompute Pos RNG spring_layout circular_layout
     kamada_kawai_layout shell_layout).
Local Abbreviation select_layout :=
  (GraphVisualizer.select_layout Pos RNG spring_layout circular_layout
     kamada_kawai_layout shell_layout).

(** X18: in the frame [display_snapshot] shows for a graph with nodes,
    the nodes are coloured in the order of [G.nodes], and a node gets the
    highlight colour exactly when it equals one of the highlight nodes. *)
Theorem graph_node_highlight
    (tracer : DataStructureTracer GraphData) (step : Z) (G : NxGraph) (md : Metadata)
    (highlight_nodes : option (list pyval))
    (highlight_edges : option (list (pyval * pyval)))
    (layout : string) (title : option string) (show_code : bool) (rng rng' : RNG)
    (frame : GraphVisualizer.GFrame Pos) :
  get_snapshot tracer step = Ok (Some (IsGraph G), md) →
  g_nodes G ≠ [] →
  display_snapshot tracer step highlight_nodes highlight_edges layout title
    show_code rng = (Ok (Shown frame), rng') →
  ∃ d colors,
    f_artists frame = [Drawing d] ∧ d_graph d = G
    ∧ d_node_color d = ColorList colors
    ∧ length colors = length (g_nodes G)
    ∧ ∀ i node, g_nodes G !! i = Some node →
        (colors !! i = Some "#ff7f7f"
         ↔ ∃ h, h ∈ default [] highlight_nodes ∧ py_eq node h = true)
        ∧ (colors !! i = Some "#aed9e6"
           ↔ ¬ ∃ h, h ∈ default [] highlight_nodes ∧ py_eq node h = true).
Proof.
  intros Hsnap Hnodes Hshow.
  unfold GraphVisualizer.display_snapshot in Hshow. rewrite Hsnap in Hshow.
  destruct (g_nodes G) as [|n0 ns] eqn:Hn; [done |]. rewrite <-Hn in *.
  destruct (select_layout _ _ _) as [pos rng1].
  destruct (GraphVisualizer.edge_colors py_eq G highlight_edges) as [ec|err];
    simpl in Hshow; [| congruence].
  destruct (display_title str title md) as [t|err]; simpl in Hshow; [| congruence].
  injection Hshow as <- <-. eexists _, _. split; [reflexivity |]. cbn.
  split; [done |]. split; [done |]. split; [by rewrite length_map |].
  intros i node Hi. rewrite list_lookup_fmap, Hi. cbn.
  assert (Hex : existsb (py_eq node) (default [] highlight_nodes) = true
                ↔ ∃ h, h ∈ default [] highlight_nodes ∧ py_eq node h = true).
  { rewrite existsb_exists. by setoid_rewrite list_elem_of_In. }
  assert (Hgiven : given highlight_nodes
                   && existsb (py_eq node) (default [] highlight_nodes)
                   = existsb (py_eq node) (default [] highlight_nodes))
    by (by destruct highlight_nodes as [[|? ?]|]).
  rewrite Hgiven, <-Hex.
  destruct (existsb _ _); split; split; try done; by intros [= ?].
Qed.

Lemma precompute_deterministic (layout : string) (snaps : list GraphData) (rng : RNG) :
  layout ∈ ["circular"; "kamada_kawai"; "shell"] →
  (precompute layout snaps rng).2 = rng.
Proof.
  intros Hlayout. induction snaps as [|[G|v] snaps IH]; simpl; [done | |].
  - assert (Hsel : (select_layout layout G rng).2 = rng).
    { unfold GraphVisualizer.select_layout.
      rewrite !elem_of_cons, elem_of_nil in Hlayout.
      destruct Hlayout as [-> | [-> | [-> | []]]]; done. }
    destruct (select_layout layout G rng) as [pos rng1]. simpl in Hsel. subst rng1.
    destruct (precompute layout snaps rng) as [pf rng2]. by simpl in *.
  - destruct (precompute layout snaps rng) as [pf rng2]. by simpl in *.
Qed.

(** X19: with one of the layouts [circular], [kamada_kawai] and [shell],
    neither [display_snapshot] nor [create_animation] draws from the
    random state: they leave it as they found it. *)
Theorem graph_fixed_layouts_leave_random_state
    (tracer : DataStructureTracer GraphData) (step interval : Z)
    (highlight_nodes : option (list pyval))
    (highlight_edges : option (list (pyval * pyval)))
    (layout : string) (title : option string) (show_code repeat : bool) (rng : RNG) :
  layout ∈ ["circular"; "kamada_kawai"; "shell"] →
  (display_snapshot tracer step highlight_nodes highlight_edges layout title
     show_code rng).2 = rng
  ∧ (create_animation tracer interval repeat layout rng).2 = rng.
Proof.
  intros Hlayout. split.
  - unfold GraphVisualizer.display_snapshot.
    destruct (get_snapshot tracer step) as [[[[G|v]|] md]|e]; try done;
      [| by destruct v].
    destruct (g_nodes G); [done |].
    assert (Hsel : (select_layout layout G rng).2 = rng).
    { unfold GraphVisualizer.select_layout.
      rewrite !elem_of_cons, elem_of_nil in Hlayout.
      destruct Hlayout as [-> | [-> | [-> | []]]]; done. }
    by destruct (select_layout layout G rng) as [pos rng1].
  - unfold GraphVisualizer.create_animation.
    destruct (snapshots tracer) as [|s0 ss] eqn:Hs; [done |]. rewrite <-Hs.
    pose proof (precompute_deterministic layout (snapshots tracer) rng Hlayout) as Hp.
    by destruct (precompute layout (snapshots tracer) rng) as [pf rng1].
Qed.

(** The precomputed layouts run parallel to the snapshots: a layout for
    each graph, [None] for anything else. *)
Lemma precompute_parallel (layout : string) (snaps : list GraphData) (rng : RNG) :
  Forall2 (λ s p, match s, p with
                  | IsGraph _, Some _ | NotGraph _, None => True
                  | _, _ => False
                  end) snaps (precompute layout snaps rng).1.
Proof.
  revert rng. induction snaps as [|[G0|v] snaps IH]; intros r; simpl; [constructor | |].
  - destruct (select_layout layout G0 r) as [p r1].
    specialize (IH r1). destruct (precompute layout snaps r1). by constructor.
  - specialize (IH r). destruct (precompute layout snaps r). by constructor.
Qed.

Lemma mapM_result_Ok {A B} (f : A → result B) (l : list A) (k : list B) :
  mapM (M := result) f l = Ok k → Forall2 (λ x y, f x = Ok y) l k.
Proof.
  revert k. induction l as [|x l IH]; intros k H; simpl in H.
  - injection H as <-. constructor.
  - ok_inv H. ok_inv H. injection H as <-. constructor; [done | by apply IH].
Qed.

(** X20: a drawn frame of the graph animation never highlights an edge,
    whatever the metadata of the step holds: all edges get the default
    colour; each node is coloured by whether it is in the
    [highlight_nodes] of the metadata, in none when that entry is
    missing. *)
Theorem graph_animation_highlights_nodes_only
    (tracer : DataStructureTracer GraphData) (interval : Z) (repeat : bool)
    (layout : string) (rng rng' : RNG)
    (anim : FuncAnimation (nat → result (GraphVisualizer.GFrame Pos)))
    (i : nat) (G : NxGraph) (md : Metadata) (frame : GraphVisualizer.GFrame Pos) :
  create_animation tracer interval repeat layout rng = (Shown anim, rng') →
  snapshots tracer !! i = Some (IsGraph G) → g_nodes G ≠ [] →
  metadata tracer !! i = Some md →
  func anim i = Ok frame →
  ∃ d colors,
    f_artists frame = [Drawing d] ∧ d_graph d = G
    ∧ d_edge_color d = OneColor "#666666"
    ∧ d_node_color d = ColorList colors
    ∧ Forall2 (λ node colour,
                 ∃ b : bool,
                   py_in node (default (PList []) (md !! "highlight_nodes")) = Ok b
                   ∧ colour = if b then "#ff7f7f" else "#aed9e6")
        (g_nodes G) colors.
Proof.
  unfold GraphVisualizer.create_animation.
  destruct (snapshots tracer) as [|s0 ss] eqn:Hs; [discriminate |]. rewrite <-Hs.
  destruct (precompute layout (snapshots tracer) rng) as [pos_frames rng1] eqn:Hpre.
  intros [= <- <-] Hsnap Hnodes Hmd Hframe. cbn [func] in Hframe.
  rewrite Hsnap, Hmd in Hframe. cbn [from_opt mbind result_bind] in Hframe.
  ok_inv Hframe. destruct a as [pos|].
  2: { exfalso. apply from_opt_Ok in Ha.
       pose proof (precompute_parallel layout (snapshots tracer) rng) as Hpar.
       rewrite Hpre in Hpar. simpl in Hpar.
       destruct (Forall2_lookup_l _ _ _ _ _ Hpar Hsnap) as (p & Hp & Hrel).
       rewrite Ha in Hp. by injection Hp as <-. }
  destruct (g_nodes G) as [|n0 ns] eqn:Hn; [done |]. rewrite <-Hn in *.
  ok_inv Hframe. ok_inv Hframe. injection Hframe as <-.
  eexists _, _. split; [reflexivity |]. cbn. split; [done |]. split; [done |].
  split; [done |].
  unfold GraphVisualizer.node_colors_of in Ha0. apply mapM_result_Ok in Ha0.
  eapply Forall2_impl; [exact Ha0 |]. cbn. intros node colour Hc.
  ok_inv Hc. injection Hc as <-. eauto.
Qed.

End GraphDrawing.

Lemma graph_node_highlight_witness :
  ∃ frame,
    GraphVisualizer.display_snapshot py_str py_eq_atoms nat nat seeded_layout
      (λ _, 0) (λ _, 0) (λ _, 0) path_step 0 (Some [PInt 3]) None "spring" None
      false 7 = (Ok (Shown frame), 8)
    ∧ ∃ d colors,
        f_artists frame = [Drawing d] ∧ d_graph d = path_graph
        ∧ d_node_color d = ColorList colors
        ∧ length colors = length (g_nodes path_graph)
        ∧ ∀ i node, g_nodes path_graph !! i = Some node →
            (colors !! i = Some "#ff7f7f"
             ↔ ∃ h, h ∈ default [] (Some [PInt 3]) ∧ py_eq_atoms node h = true)
            ∧ (colors !! i = Some "#aed9e6"
               ↔ ¬ ∃ h, h ∈ default [] (Some [PInt 3]) ∧ py_eq_atoms node h = true).
Proof.
  eexists. split; [reflexivity |].
  apply (graph_node_highlight py_str py_eq_atoms nat nat seeded_layout
           (λ _, 0) (λ _, 0) (λ _, 0) path_step 0 path_graph
           path_metadata (Some [PInt 3]) None "spring" None false 7 8);
    [reflexivity | discriminate | reflexivity].
Defined.

Lemma graph_fixed_layouts_leave_random_state_witness :
  (GraphVisualizer.display_snapshot py_str py_eq_atoms nat nat seeded_layout
     (λ _, 0) (λ _, 0) (λ _, 0) path_step 0 None None "shell" None false 7).2 = 7
  ∧ (GraphVisualizer.create_animation py_str py_in_list nat nat seeded_layout
       (λ _, 0) (λ _, 0) (λ _, 0) path_step 1000 false "shell" 7).2 = 7.
Proof.
  apply (graph_fixed_layouts_leave_random_state py_str py_eq_atoms py_in_list nat nat
           seeded_layout (λ _, 0) (λ _, 0) (λ _, 0) path_step 0 1000 None None
           "shell" None false false 7).
  rewrite !elem_of_cons. right. right. by left.
Defined.

Lemma graph_animation_highlights_nodes_only_witness :
  ∃ anim frame,
    GraphVisualizer.create_animation py_str py_in_list nat nat seeded_layout
      (λ _, 0) (λ _, 0) (λ _, 0) path_step 1000 false "spring" 7 = (Shown anim, 8)
    ∧ func anim 0 = Ok frame
    ∧ ∃ d colors,
        f_artists frame = [Drawing d] ∧ d_graph d = path_graph
        ∧ d_edge_color d = OneColor "#666666"
        ∧ d_node_color d = ColorList colors
        ∧ Forall2 (λ node colour,
                     ∃ b : bool,
                       py_in_list node
                         (default (PList []) (path_metadata !! "highlight_nodes")) = Ok b
                       ∧ colour = if b then "#ff7f7f" else "#aed9e6")
            (g_nodes path_graph) colors.
Proof.
  eexists _, _. split; [reflexivity |]. split; [reflexivity |].
  eapply (graph_animation_highlights_nodes_only py_str py_in_list nat nat seeded_layout
           (λ _, 0) (λ _, 0) (λ _, 0) path_step 1000 false "spring" 7 8 _ 0 path_graph
           path_metadata);
    [reflexivity | reflexivity | discriminate | reflexivity | reflexivity].
Defined.

(** ** tree.py: the frames *)

Section TreeDrawing.
Variable str : pyval → string.
Variable limit : nat.
Variables Pos RNG : Type.
Variable spring_layout : DiGraph → RNG → Pos * RNG.
Variable circular_layout : DiGraph → Pos.
Variable graphviz_layout : DiGraph → option Pos.

Local Abbreviation display_snapshot :=
  (TreeVisualizer.display_snapshot str limit Pos RNG spring_layout circular_layout
     graphviz_layout).
Local Abbreviation update :=
  (TreeVisualizer.update str limit Pos RNG spring_layout circular_layout
     graphviz_layout).
Local Abbreviation create_layout :=
  (TreeVisualizer.create_layout Pos RNG spring_layout circular_layout graphviz_layout).
Local Abbreviation empty_tree := (TreeVisualizer.empty_tree Pos).

(** The builder returns a graph without nodes exactly for a root of none
    of the three shapes. *)
Lemma builder_nodes_shape (t : pyval) (G : DiGraph) :
  TreeBuilder._tree_to_networkx str limit t = Ok G →
  (nodes G = [] ↔ shape_of t = None)
  ∧ ∀ s, shape_of t = Some s →
         ∃ ns, preorder s t ns ∧ nodes G = numbered str s 0 ns.
Proof.
  intros Hrun.
  assert (Hwalk : ∀ s, shape_of t = Some s →
                       ∃ ns, preorder s t ns ∧ nodes G = numbered str s 0 ns).
  { intros s Hs. pose proof (shape_not_None t s Hs) as Hnn.
    unfold shape_of in Hs. unfold TreeBuilder._tree_to_networkx in Hrun.
    destruct (hasattr t "left" && hasattr t "right");
      [| destruct (hasattr t "children");
         [| destruct (isinstance_dict t && dict_contains t "value")]];
      try discriminate; injection Hs as <-.
    - apply (add_nodes_binary_visits str limit t 0 _ G [] entering_empty Hnn Hrun).
    - apply (add_nodes_children_visits str limit t 0 _ G [] entering_empty Hnn Hrun).
    - apply (add_nodes_dict_visits str limit t 0 _ G [] entering_empty Hnn Hrun). }
  split; [| done]. split.
  - intros Hempty. destruct (shape_of t) as [s|] eqn:Hs; [| done].
    destruct (Hwalk s eq_refl) as (ns & Hpre & Hn).
    apply preorder_nonempty in Hpre. rewrite Hempty in Hn.
    apply (f_equal length) in Hn. rewrite numbered_length in Hn. simpl in Hn. lia.
  - intros Hs. unfold shape_of in Hs. unfold TreeBuilder._tree_to_networkx in Hrun.
    destruct (hasattr t "left" && hasattr t "right");
      [| destruct (hasattr t "children");
         [| destruct (isinstance_dict t && dict_contains t "value")]];
      try discriminate. by injection Hrun as <-.
Qed.

(** X21: for a stored snapshot that is not [None], [display_snapshot]
    shows the frame that only says "Empty Tree" exactly when the snapshot
    has none of the three shapes, and so does the animation's [update]
    for every stored snapshot; neither reads the title or the metadata
    for that frame, and the random state is left as it was. *)
Theorem tree_empty_frame_iff_no_shape
    (tracer : DataStructureTracer pyval) (step : Z) (i : nat) (data other : pyval)
    (md md' : Metadata) (highlight_nodes : option (list pyval)) (layout : string)
    (title : option string) (rng : RNG) :
  get_snapshot tracer step = Ok (Some data, md) → data ≠ PNone →
  snapshots tracer !! i = Some other → metadata tracer !! i = Some md' →
  (shape_of data = None
   ↔ display_snapshot tracer step highlight_nodes layout title rng
     = (Ok (Shown empty_tree), rng))
  ∧ (shape_of other = None ↔ update tracer layout i rng = (Ok empty_tree, rng)).
Proof.
  intros Hsnap Hdata Hother Hmd.
  unfold TreeVisualizer.display_snapshot, TreeVisualizer.update,
    TreeVisualizer._tree_to_networkx.
  rewrite Hsnap, Hother, Hmd.
  assert (Hframe : ∀ (t : pyval) (A : Type) (shown : TreeVisualizer.TFrame Pos → A)
                     (drawn : DiGraph → result A * RNG),
            (∀ a b, shown a = shown b → a = b) →
            (∀ G, nodes G ≠ [] →
                  ∀ r, drawn G ≠ (Ok (shown empty_tree), r)) →
            (shape_of t = None
             ↔ match TreeBuilder._tree_to_networkx str limit t with
               | Ok G => match nodes G with
                         | [] => (Ok (shown empty_tree), rng)
                         | _ :: _ => drawn G
                         end
               | Raise e => (Raise e, rng)
               end = (Ok (shown empty_tree), rng))).
  { intros t A shown drawn Hinj Hdrawn.
    destruct (TreeBuilder._tree_to_networkx str limit t) as [G|e] eqn:HG.
    - destruct (builder_nodes_shape t G HG) as [Hshape _]. rewrite <-Hshape.
      destruct (nodes G) as [|n ns] eqn:Hn; [done |].
      split; [done |]. intros H. exfalso. apply (Hdrawn G) in H; [done |].
      by rewrite Hn.
    - split; [| discriminate]. intros Hs. exfalso.
      unfold shape_of in Hs. unfold TreeBuilder._tree_to_networkx in HG.
      destruct (hasattr t "left" && hasattr t "right");
        [| destruct (hasattr t "children");
           [| destruct (isinstance_dict t && dict_contains t "value")]];
        discriminate. }
  split.
  - destruct data; try done.
    all: apply (Hframe _ _ Shown); [by intros a b [= ->] |].
    all: intros G HG r; destruct (nodes G) as [|n ns]; [done |].
    all: destruct (create_layout layout G rng) as [pos r1].
    all: destruct (display_title str title md) as [t|]; simpl; [| discriminate].
    all: intros [= H _]; discriminate H.
  - apply (Hframe other _ (λ f, f)); [done |].
    intros G HG r. destruct (nodes G) as [|n ns]; [done |].
    destruct (create_layout layout G rng) as [pos r1].
    destruct (update_title str md') as [t|]; simpl; [| discriminate].
    intros [= H _]; discriminate H.
Qed.

(** X22: in the frame [display_snapshot] shows for a tree, a node is
    drawn in the highlight colour exactly when its label is the string
    form of one of the highlight nodes, and in the default colour
    otherwise; every node is drawn with the label the builder gave it. *)
Theorem tree_highlight_by_label
    (tracer : DataStructureTracer pyval) (step : Z)
    (highlight_nodes : option (list pyval)) (layout : string)
    (title : option string) (rng rng' : RNG)
    (frame : TreeVisualizer.TFrame Pos) (d : NxDraw DiGraph Pos) :
  display_snapshot tracer step highlight_nodes layout title rng
  = (Ok (Shown frame), rng') →
  f_artists frame = [Drawing d] →
  ∃ colors,
    d_node_color d = ColorList colors
    ∧ length colors = length (nodes (d_graph d))
    ∧ d_labels d = Some (map (λ n : nat * option string, (n.1, default "" n.2))
                           (nodes (d_graph d)))
    ∧ Forall (λ n : nat * option string, is_Some n.2) (nodes (d_graph d))
    ∧ ∀ j id label, nodes (d_graph d) !! j = Some (id, Some label) →
        (colors !! j = Some "#ff7f7f"
         ↔ ∃ h, h ∈ default [] highlight_nodes ∧ label = str h)
        ∧ (colors !! j = Some "#aed9e6"
           ↔ ¬ ∃ h, h ∈ default [] highlight_nodes ∧ label = str h).
Proof.
  intros Hshow Hd.
  unfold TreeVisualizer.display_snapshot, TreeVisualizer._tree_to_networkx in Hshow.
  destruct (get_snapshot tracer step) as [[[data|] md]|e]; try discriminate.
  assert (Hbuilt : ∃ G, TreeBuilder._tree_to_networkx str limit data = Ok G
                        ∧ nodes G ≠ []
                        ∧ ∃ pos t,
                            frame =
                              {| f_artists :=
                                   [Drawing
                                      {| d_graph := G; d_pos := pos;
                                         d_node_color :=
                                           ColorList
                                             (map (λ '(node, label_attr),
                                                     let label := default "" label_attr in
                                                     if given highlight_nodes
                                                        && bool_decide
                                                             (label ∈ map str
                                                                (default [] highlight_nodes))
                                                     then "#ff7f7f" else "#aed9e6")
                                                (nodes G));
                                         d_edge_color := OneColor "#666666";
                                         d_kw := [("node_size", "2500"); ("arrows", "True");
                                                  ("with_labels", "False")];
                                         d_labels := Some (TreeVisualizer.node_labels G) |}];
                                 f_title := Some t; f_xlim := None; f_ylim := None;
                                 f_axis_off := true; f_code := None |}).
  { destruct data; try discriminate.
    all: destruct (TreeBuilder._tree_to_networkx str limit _) as [G|e] eqn:HG;
      [| discriminate].
    all: destruct (nodes G) as [|n ns] eqn:Hn;
      [exfalso; by simplify_eq |].
    all: destruct (create_layout layout G rng) as [pos r].
    all: destruct (display_title str title md) as [t|]; simpl in Hshow; [| discriminate].
    all: injection Hshow as <- <-.
    all: exists G; split; [done |]; split; [by rewrite Hn |].
    all: exists pos, t; by rewrite Hn. }
  destruct Hbuilt as (G & HG & Hnodes & pos & t & ->). simpl in Hd.
  injection Hd as <-. cbn [d_node_color d_graph d_labels].
  eexists. split; [reflexivity |]. split; [by rewrite length_map |].
  split.
  { unfold TreeVisualizer.node_labels. f_equal. apply map_ext. by intros [? ?]. }
  split.
  { destruct (shape_of data) as [s|] eqn:Hs.
    - destruct (builder_nodes_shape data G HG) as [_ Hwalk].
      destruct (Hwalk s Hs) as (ns & _ & ->). apply numbered_labelled.
    - destruct (builder_nodes_shape data G HG) as [Hempty _].
      by apply Hempty in Hs. }
  intros j id label Hj. rewrite list_lookup_fmap, Hj. cbn.
  assert (Hin : label ∈ map str (default [] highlight_nodes)
                ↔ ∃ h, h ∈ default [] highlight_nodes ∧ label = str h).
  { rewrite list_elem_of_fmap. split; intros (h & ? & ?); eauto. }
  assert (Hgiven : given highlight_nodes
                   && bool_decide (label ∈ map str (default [] highlight_nodes))
                   = bool_decide (label ∈ map str (default [] highlight_nodes))).
  { destruct highlight_nodes as [[|? ?]|]; try done.
    all: simpl; apply eq_sym, bool_decide_eq_false_2; by rewrite elem_of_nil. }
  rewrite Hgiven, <-Hin.
  destruct (bool_decide_reflect (label ∈ map str (default [] highlight_nodes)));
    split; split; try done; by intros [= ?].
Qed.

(** X23: when [graphviz_layout] raises for every graph (no pygraphviz),
    the layout ["dot"] shows the same frames and leaves the same random
    state as ["spring"], in [display_snapshot] and in the animation's
    [update]. *)
Theorem tree_dot_falls_back_to_spring
    (tracer : DataStructureTracer pyval) (step : Z) (i : nat)
    (highlight_nodes : option (list pyval)) (title : option string) (rng : RNG) :
  (∀ G, graphviz_layout G = None) →
  display_snapshot tracer step highlight_nodes "dot" title rng
  = display_snapshot tracer step highlight_nodes "spring" title rng
  ∧ update tracer "dot" i rng = update tracer "spring" i rng.
Proof.
  intros Hfail.
  assert (Hlayout : ∀ G r, create_layout "dot" G r = create_layout "spring" G r).
  { intros G r. unfold TreeVisualizer.create_layout. simpl. by rewrite Hfail. }
  split.
  - unfold TreeVisualizer.display_snapshot.
    destruct (get_snapshot tracer step) as [[[data|] md]|e]; try done.
    destruct data; try done.
    all: destruct (TreeVisualizer._tree_to_networkx str limit _) as [G|e]; try done.
    all: destruct (nodes G); try done.
    all: by rewrite Hlayout.
  - unfold TreeVisualizer.update.
    destruct (snapshots tracer !! i) as [data|], (metadata tracer !! i) as [md|];
      try done.
    destruct (TreeVisualizer._tree_to_networkx str limit data) as [G|e]; try done.
    destruct (nodes G); try done.
    by rewrite Hlayout.
Qed.

(** X24: a frame the tree animation draws for a snapshot of one of the
    three shapes shows the nodes of the preorder walk of that snapshot,
    numbered from 0 and each with its label, all in the default colour:
    the animation highlights no node. *)
Theorem tree_animation_draws_preorder
    (tracer : DataStructureTracer pyval) (interval : Z) (repeat : bool)
    (layout : string) (anim : FuncAnimation (nat → RNG → result (TreeVisualizer.TFrame Pos) * RNG))
    (i : nat) (data : pyval) (s : shape) (rng rng' : RNG)
    (frame : TreeVisualizer.TFrame Pos) :
  TreeVisualizer.create_animation str limit Pos RNG spring_layout circular_layout
    graphviz_layout tracer interval repeat layout = Shown anim →
  snapshots tracer !! i = Some data →
  shape_of data = Some s →
  func anim i rng = (Ok frame, rng') →
  ∃ d ns,
    f_artists frame = [Drawing d]
    ∧ preorder s data ns
    ∧ d_labels d = Some (imap (λ j n, (j, label_of str s n)) ns)
    ∧ d_node_color d = OneColor "#aed9e6"
    ∧ d_edge_color d = OneColor "#666666"
    ∧ (d_pos d, rng') = create_layout layout (d_graph d) rng.
Proof.
  unfold TreeVisualizer.create_animation.
  destruct (snapshots tracer) as [|s0 ss] eqn:Hs; [discriminate |]. rewrite <-Hs.
  intros [= <-] Hdata Hshape Hframe. cbn [func] in Hframe.
  unfold TreeVisualizer.update, TreeVisualizer._tree_to_networkx in Hframe.
  rewrite Hdata in Hframe.
  destruct (metadata tracer !! i) as [md|]; [| discriminate].
  destruct (TreeBuilder._tree_to_networkx str limit data) as [G|e] eqn:HG;
    [| discriminate].
  destruct (builder_nodes_shape data G HG) as [_ Hwalk].
  destruct (Hwalk s Hshape) as (ns & Hpre & Hn).
  pose proof (preorder_nonempty _ _ _ Hpre) as Hlen.
  destruct (nodes G) as [|n0 rest] eqn:Hnodes.
  { apply (f_equal length) in Hn. rewrite numbered_length in Hn. simpl in Hn. lia. }
  destruct (create_layout layout G rng) as [pos r] eqn:Hpos.
  destruct (update_title str md) as [t|]; simpl in Hframe; [| discriminate].
  injection Hframe as <- <-.
  eexists _, ns. split; [reflexivity |]. cbn.
  split; [done |]. split.
  { unfold TreeVisualizer.node_labels. rewrite Hnodes, Hn. unfold numbered.
    f_equal.
    change (((λ '(node, label), (node, default "" label))
               <$> imap (λ i n, (0 + i, Some (label_of str s n))) ns)
            = imap (λ j n, (j, label_of str s n)) ns).
    rewrite fmap_imap. by apply imap_ext. }
  by rewrite Hpos.
Qed.

End TreeDrawing.

Lemma tree_empty_frame_iff_no_shape_witness :
  TreeVisualizer.display_snapshot py_str 1000 nat nat seeded_layout (λ _, 0)
    (λ _, None) leaf_then_tree 0 None "spring" (Some "Search tree") 7
  = (Ok (Shown (TreeVisualizer.empty_tree nat)), 7)
  ∧ TreeVisualizer.update py_str 1000 nat nat seeded_layout (λ _, 0) (λ _, None)
      leaf_then_tree "spring" 0 7
    = (Ok (TreeVisualizer.empty_tree nat), 7)
  ∧ TreeVisualizer.update py_str 1000 nat nat seeded_layout (λ _, 0) (λ _, None)
      leaf_then_tree "spring" 1 7
    ≠ (Ok (TreeVisualizer.empty_tree nat), 7).
Proof.
  destruct (tree_empty_frame_iff_no_shape py_str 1000 nat nat seeded_layout (λ _, 0)
              (λ _, None) leaf_then_tree 0 0 (PInt 5) (PInt 5) ∅ ∅
              None "spring" (Some "Search tree") 7 eq_refl ltac:(discriminate)
              eq_refl eq_refl) as [[Hshow _] [Hdraw _]].
  destruct (tree_empty_frame_iff_no_shape py_str 1000 nat nat seeded_layout (λ _, 0)
              (λ _, None) leaf_then_tree 0 1 (PInt 5) example_tree ∅
              {["step" := PInt 1]}
              None "spring" (Some "Search tree") 7 eq_refl ltac:(discriminate)
              eq_refl eq_refl) as [_ [_ Hback]].
  split; [by apply Hshow |]. split; [by apply Hdraw |].
  intros H. apply Hback in H. discriminate H.
Defined.

Lemma tree_highlight_by_label_witness :
  ∃ frame d,
    TreeVisualizer.display_snapshot py_str 1000 nat nat seeded_layout (λ _, 0)
      (λ _, None) tree_step 0 (Some [PInt 4]) "spring" None 7 = (Ok (Shown frame), 8)
    ∧ f_artists frame = [Drawing d]
    ∧ ∃ colors,
        d_node_color d = ColorList colors
        ∧ length colors = length (nodes (d_graph d))
        ∧ d_labels d = Some (map (λ n : nat * option string, (n.1, default "" n.2))
                               (nodes (d_graph d)))
        ∧ Forall (λ n : nat * option string, is_Some n.2) (nodes (d_graph d))
        ∧ ∀ j id label, nodes (d_graph d) !! j = Some (id, Some label) →
            (colors !! j = Some "#ff7f7f"
             ↔ ∃ h, h ∈ default [] (Some [PInt 4]) ∧ label = py_str h)
            ∧ (colors !! j = Some "#aed9e6"
               ↔ ¬ ∃ h, h ∈ default [] (Some [PInt 4]) ∧ label = py_str h).
Proof.
  eexists _, _. split; [reflexivity |]. split; [reflexivity |].
  eapply (tree_highlight_by_label py_str 1000 nat nat seeded_layout (λ _, 0)
            (λ _, None) tree_step 0 (Some [PInt 4]) "spring" None 7 8);
    reflexivity.
Defined.

Lemma tree_dot_falls_back_to_spring_witness :
  TreeVisualizer.display_snapshot py_str 1000 nat nat seeded_layout (λ _, 0)
    (λ _, None) tree_step 0 None "dot" None 7
  = TreeVisualizer.display_snapshot py_str 1000 nat nat seeded_layout (λ _, 0)
      (λ _, None) tree_step 0 None "spring" None 7
  ∧ TreeVisualizer.update py_str 1000 nat nat seeded_layout (λ _, 0)
      (λ _, None) tree_step "dot" 0 7
    = TreeVisualizer.update py_str 1000 nat nat seeded_layout (λ _, 0)
        (λ _, None) tree_step "spring" 0 7.
Proof.
  apply (tree_dot_falls_back_to_spring py_str 1000 nat nat seeded_layout (λ _, 0)
           (λ _, None) tree_step 0 0 None None 7).
  reflexivity.
Defined.

Lemma tree_animation_draws_preorder_witness :
  ∃ anim frame,
    TreeVisualizer.create_animation py_str 1000 nat nat seeded_layout (λ _, 0)
      (λ _, None) tree_step 1500 false "spring" = Shown anim
    ∧ func anim 0 7 = (Ok frame, 8)
    ∧ ∃ d ns,
        f_artists frame = [Drawing d]
        ∧ preorder Binary example_tree ns
        ∧ d_labels d = Some (imap (λ j n, (j, label_of py_str Binary n)) ns)
        ∧ d_node_color d = OneColor "#aed9e6"
        ∧ d_edge_color d = OneColor "#666666"
        ∧ (d_pos d, 8)
          = TreeVisualizer.create_layout nat nat seeded_layout (λ _, 0) (λ _, None)
              "spring" (d_graph d) 7.
Proof.
  eexists _, _. split; [reflexivity |]. split; [reflexivity |].
  eapply (tree_animation_draws_preorder py_str 1000 nat nat seeded_layout (λ _, 0)
            (λ _, None) tree_step 1500 false "spring" _ 0 example_tree Binary 7 8);
    reflexivity.
Defined.

(** ** dict.py: animation and display *)

Section DictPlayback.
Variable str : pyval → string.
Variable py_eq : pyval → pyval → bool.

Lemma dict_grid_without_highlights (hk hv : option (list pyval))
    (items : list (pyval * pyval)) :
  given hk = false → given hv = false →
  DictionaryVisualizer.grid str py_eq hk hv items
  = DictionaryVisualizer.grid str py_eq None None items.
Proof.
  intros Hk Hv. unfold DictionaryVisualizer.grid.
  destruct (length items =? 0); [done |]. f_equal. apply imap_ext.
  intros j [key value] _. unfold DictionaryVisualizer.item. by rewrite Hk, Hv.
Qed.

(** X25: for a stored step, [display_snapshot] called with that step, no
    title and nothing to highlight shows exactly the frame the animation
    draws for it, and fails exactly when the animation's [update] does. *)
Theorem dict_display_shows_animation_frame
    (tracer : DataStructureTracer (list (pyval * pyval))) (interval : Z)
    (repeat : bool) (anim : FuncAnimation (nat → result (Frame no_drawing)))
    (i : nat) (highlight_keys highlight_values : option (list pyval))
    (title : option string) :
  DictionaryVisualizer.create_animation str py_eq tracer interval repeat = Shown anim →
  i < length (snapshots tracer) → i < length (metadata tracer) →
  given highlight_keys = false → given highlight_values = false →
  title_given title = false →
  DictionaryVisualizer.display_snapshot str py_eq tracer (Z.of_nat i)
    highlight_keys highlight_values title
  = (frame ← func anim i; Ok (Shown frame)).
Proof.
  unfold DictionaryVisualizer.create_animation.
  destruct (snapshots tracer) as [|s0 ss] eqn:Hs; [discriminate |]. rewrite <-Hs.
  intros [= <-] Hi Hmd Hk Hv Ht. cbn [func].
  destruct (lookup_lt_is_Some_2 _ _ Hi) as [data Hdata].
  destruct (lookup_lt_is_Some_2 _ _ Hmd) as [md Hmeta].
  unfold DictionaryVisualizer.display_snapshot.
  rewrite (get_snapshot_at tracer i data md Hdata Hmeta), Hdata, Hmeta.
  cbn [from_opt mbind result_bind].
  rewrite (dict_grid_without_highlights _ _ _ Hk Hv).
  unfold display_title. rewrite Ht. fold (update_title str md).
  by destruct (update_title str md).
Qed.

End DictPlayback.

Lemma dict_display_shows_animation_frame_witness :
  ∃ anim,
    DictionaryVisualizer.create_animation py_str py_eq_atoms two_entries 1000 false
    = Shown anim
    ∧ DictionaryVisualizer.display_snapshot py_str py_eq_atoms two_entries 0
        (Some []) None (Some "")
      = (frame ← func anim 0; Ok (Shown frame)).
Proof.
  eexists. split; [reflexivity |].
  eapply (dict_display_shows_animation_frame py_str py_eq_atoms two_entries 1000 false
            _ 0 (Some []) None (Some ""));
    [reflexivity | simpl; lia | simpl; lia | reflexivity | reflexivity | reflexivity].
Defined.
